(** * Resume Analyzer: a shallow embedding of the text-structuring and
      scoring engine

    The development follows the Python sources module by module
    ([models/resume.py], [utils/text_utils.py], [analyzers/*.py]).

    Modelling conventions.
    - A Python [str] is a sequence of Unicode code points: [str := list N].
      String literals of the sources are written [lit "..."].
    - Character classification ([str.isspace], [str.lower], [str.isupper],
      the regular-expression classes [\s], [\d], [\w]) is the one of
      CPython.  [isspace] is exact on every code point; case mapping and
      [\w] are exact on code points below 256 and treat larger code points
      as uncased non-word characters (which is exact for the bullet glyph
      U+2022 the sources look for).
    - A Python [float] is an exact rational ([Q]); integer counters are
      [nat] or [Z].
    - A Python exception (the [IndexError] of [parts[1]]) is [None] in the
      [option] monad.  An [Optional[...]] value is an [option] as well; a
      function that can both raise and return [None] has the result type
      [option (option _)], the outer level being the exception.
    - [datetime.now()] is an explicit argument [(year, month)]. *)

From Stdlib Require Import Ascii String.
From Stdlib Require Import List Bool Arith NArith ZArith QArith Qround Qminmax Qabs.
From Stdlib Require Import Lia Lqa Sorting.Sorted.
Import ListNotations.

Set Implicit Arguments.

(** ** Characters and strings *)

Definition char := N.
Definition str := list char.

(** A Python string literal: the escape [\n] is a line feed, every other
    character stands for itself. *)
Fixpoint unescape (s : str) : str :=
  match s with
  | 92%N :: 110%N :: s' => 10%N :: unescape s'
  | c :: s' => c :: unescape s'
  | [] => []
  end.

Definition lit (s : string) : str :=
  unescape (map N_of_ascii (list_ascii_of_string s)).

Definition chr (s : string) : char :=
  match s with
  | String a _ => N_of_ascii a
  | EmptyString => 0%N
  end.

Definition bullet : char := 8226%N.       (* U+2022 *)
Definition middle_dot : char := 183%N.    (* U+00B7 *)
Definition newline : char := 10%N.
Definition nl : str := [newline].

Definition in_range (lo hi c : N) : bool := (lo <=? c)%N && (c <=? hi)%N.

Definition is_digit (c : char) : bool := in_range 48 57 c.
Definition is_ascii_upper (c : char) : bool := in_range 65 90 c.
Definition is_ascii_lower (c : char) : bool := in_range 97 122 c.

(** [str.isspace] on one code point. *)
Definition isspace (c : char) : bool :=
  in_range 9 13 c || in_range 28 32 c || (c =? 133)%N || (c =? 160)%N
  || (c =? 5760)%N || in_range 8192 8202 c || (c =? 8232)%N || (c =? 8233)%N
  || (c =? 8239)%N || (c =? 8287)%N || (c =? 12288)%N.

(** Upper-case letters: [A-Z] and U+00C0..U+00DE without U+00D7. *)
Definition char_isupper (c : char) : bool :=
  is_ascii_upper c || (in_range 192 222 c && negb (c =? 215)%N).

(** Lower-case letters below 256. *)
Definition char_islower (c : char) : bool :=
  is_ascii_lower c || (c =? 170)%N || (c =? 181)%N || (c =? 186)%N
  || (in_range 223 255 c && negb (c =? 247)%N).

Definition char_lower (c : char) : char :=
  if char_isupper c then (c + 32)%N else c.

(** Upper-case mapping; U+00B5, U+00DF and U+00FF have no upper-case form
    below 256 and are left alone. *)
Definition char_upper (c : char) : char :=
  if is_ascii_lower c || (in_range 224 254 c && negb (c =? 247)%N)
  then (c - 32)%N else c.

(** The class [\w]: alphanumerics and the underscore. *)
Definition is_word (c : char) : bool :=
  is_digit c || is_ascii_upper c || is_ascii_lower c || (c =? 95)%N
  || (c =? 170)%N || (c =? 178)%N || (c =? 179)%N || (c =? 181)%N
  || (c =? 185)%N || (c =? 186)%N || in_range 188 190 c
  || (in_range 192 255 c && negb (c =? 215)%N && negb (c =? 247)%N).

Definition str_eqb (a b : str) : bool :=
  if list_eq_dec N.eq_dec a b then true else false.

Definition lower (s : str) : str := map char_lower s.

(** [s.isupper()]: at least one cased character and no lower-case one. *)
Definition isupper (s : str) : bool :=
  existsb char_isupper s && negb (existsb char_islower s).

Fixpoint lstrip (s : str) : str :=
  match s with
  | c :: s' => if isspace c then lstrip s' else s
  | [] => []
  end.

Definition rstrip (s : str) : str := rev (lstrip (rev s)).

Definition strip (s : str) : str := rstrip (lstrip s).

Fixpoint startswith (p s : str) : bool :=
  match p, s with
  | [], _ => true
  | a :: p', b :: s' => (a =? b)%N && startswith p' s'
  | _ :: _, [] => false
  end.

(** [sub in s]. *)
Fixpoint contains (sub s : str) : bool :=
  startswith sub s ||
  match s with
  | [] => false
  | _ :: s' => contains sub s'
  end.

(** Truthiness of a string and of an optional string. *)
Definition truthy (s : str) : bool :=
  match s with [] => false | _ => true end.

Definition otruthy (o : option str) : bool :=
  match o with Some s => truthy s | None => false end.

(** [s.split(sep)] for a one-character separator. *)
Fixpoint split_char (sep : char) (s : str) : list str :=
  match s with
  | [] => [[]]
  | c :: s' =>
      if (c =? sep)%N then [] :: split_char sep s'
      else match split_char sep s' with
           | w :: ws => (c :: w) :: ws
           | [] => [[c]]
           end
  end.

(** [s.split(sep, 1)]: the text before the first occurrence of [sep] and
    the text after it, or the whole string when [sep] does not occur. *)
Fixpoint split_once (sep s : str) : list str :=
  if startswith sep s then [[]; skipn (length sep) s]
  else match s with
       | [] => [[]]
       | c :: s' =>
           match split_once sep s' with
           | w :: ws => (c :: w) :: ws
           | [] => [[c]]
           end
       end.

(** [s.split(sep)] for a non-empty separator: [fuel] bounds the number of
    pieces, [length s + 1] is enough. *)
Fixpoint split_fuel (fuel : nat) (sep s : str) : list str :=
  match fuel with
  | O => [s]
  | S f =>
      match split_once sep s with
      | [a; b] => a :: split_fuel f sep b
      | _ => [s]
      end
  end.

Definition split (sep s : str) : list str := split_fuel (S (length s)) sep s.

(** [sep.join(parts)]. *)
Fixpoint join (sep : str) (parts : list str) : str :=
  match parts with
  | [] => []
  | [p] => p
  | p :: ps => p ++ sep ++ join sep ps
  end.

(** [lines[a:b]] for [0 <= a]. *)
Definition slice {A} (a b : nat) (l : list A) : list A :=
  firstn (b - a) (skipn a l).

(** Lexicographic comparison of strings by code point, Python's [<]. *)
Fixpoint str_ltb (a b : str) : bool :=
  match a, b with
  | [], [] => false
  | [], _ :: _ => true
  | _ :: _, [] => false
  | x :: a', y :: b' => (x <? y)%N || ((x =? y)%N && str_ltb a' b')
  end.

Definition mem (s : str) (l : list str) : bool := existsb (str_eqb s) l.

(** ** Regular expressions

    The patterns of the sources are kept as syntax trees and run by a
    backtracking matcher with the semantics of Python's [re]: alternatives
    are tried left to right, repetition is greedy, a search returns the
    leftmost match. *)

Inductive regex : Type :=
| Eps : regex
| Chr : (char -> bool) -> regex      (* one character of a class *)
| Seq : regex -> regex -> regex
| Alt : regex -> regex -> regex
| Star : regex -> regex              (* greedy [r*] *)
| Grp : nat -> regex -> regex        (* capturing group number n *)
| WordB : regex                      (* [\b] *)
| Bol : regex.                       (* [^] *)

(** Position in the subject: index, previous character, remaining text. *)
Record mstate := MState {
  m_pos : nat;
  m_prev : option char;
  m_rest : str
}.

Definition captures := list (nat * (nat * nat)).

Definition owordb (o : option char) : bool :=
  match o with Some c => is_word c | None => false end.

Definition at_boundary (st : mstate) : bool :=
  xorb (owordb (m_prev st)) (owordb (hd_error (m_rest st))).

(** With [re.IGNORECASE] a class accepts a character when it accepts one of
    its case variants. *)
Definition class_test (ic : bool) (p : char -> bool) (c : char) : bool :=
  p c || (ic && (p (char_lower c) || p (char_upper c))).

Section Matcher.
Variable ic : bool.
Variable R : Type.

Fixpoint rmatch (r : regex) (st : mstate) (cs : captures)
    (k : mstate -> captures -> option R) {struct r} : option R :=
  match r with
  | Eps => k st cs
  | Chr p =>
      match m_rest st with
      | c :: rest =>
          if class_test ic p c
          then k (MState (S (m_pos st)) (Some c) rest) cs
          else None
      | [] => None
      end
  | Seq r1 r2 => rmatch r1 st cs (fun st1 cs1 => rmatch r2 st1 cs1 k)
  | Alt r1 r2 =>
      match rmatch r1 st cs k with
      | Some x => Some x
      | None => rmatch r2 st cs k
      end
  | Star r1 =>
      (fix loop (fuel : nat) (st0 : mstate) (cs0 : captures) : option R :=
         match fuel with
         | O => k st0 cs0
         | S f =>
             match rmatch r1 st0 cs0
                     (fun st1 cs1 =>
                        if m_pos st1 <=? m_pos st0 then None
                        else loop f st1 cs1) with
             | Some x => Some x
             | None => k st0 cs0
             end
         end) (length (m_rest st)) st cs
  | Grp n r1 =>
      rmatch r1 st cs
        (fun st1 cs1 => k st1 ((n, (m_pos st, m_pos st1)) :: cs1))
  | WordB => if at_boundary st then k st cs else None
  | Bol => match m_pos st with O => k st cs | S _ => None end
  end.
End Matcher.

(** A match: where it starts, where it ends, the groups. *)
Record rmatch_result := RMatch {
  r_start : nat;
  r_end : nat;
  r_caps : captures
}.

Definition match_at (ic : bool) (r : regex) (st : mstate)
  : option rmatch_result :=
  rmatch ic r st []
    (fun st1 cs1 => Some (RMatch (m_pos st) (m_pos st1) cs1)).

(** [re.match(r, s)]. *)
Definition re_match (ic : bool) (r : regex) (s : str) : option rmatch_result :=
  match_at ic r (MState 0 None s).

(** Leftmost match starting at [st] or later. *)
Fixpoint search_from (ic : bool) (r : regex) (fuel : nat) (st : mstate)
  : option rmatch_result :=
  match match_at ic r st with
  | Some m => Some m
  | None =>
      match fuel, m_rest st with
      | S f, c :: rest =>
          search_from ic r f (MState (S (m_pos st)) (Some c) rest)
      | _, _ => None
      end
  end.

(** [re.search(r, s)]. *)
Definition re_search (ic : bool) (r : regex) (s : str) : option rmatch_result :=
  search_from ic r (length s) (MState 0 None s).

(** [m.group(n)] on the subject [s]; the last binding of a group wins. *)
Definition group (s : str) (m : rmatch_result) (n : nat) : str :=
  match find (fun e => fst e =? n) (r_caps m) with
  | Some (_, (a, b)) => slice a b s
  | None => []
  end.

Definition whole (s : str) (m : rmatch_result) : str :=
  slice (r_start m) (r_end m) s.

(** The state reached after reading the first [n] characters of [s]. *)
Fixpoint advance (n : nat) (st : mstate) : mstate :=
  match n, m_rest st with
  | S n', c :: rest => advance n' (MState (S (m_pos st)) (Some c) rest)
  | _, _ => st
  end.

(** All non-overlapping matches, left to right; after an empty match the
    scan moves on by one character. *)
Fixpoint finditer_from (ic : bool) (r : regex) (fuel : nat) (st : mstate)
  : list rmatch_result :=
  match fuel with
  | O => []
  | S f =>
      match search_from ic r (length (m_rest st)) st with
      | None => []
      | Some m =>
          let st1 := advance (r_end m - m_pos st) st in
          if r_end m =? r_start m
          then m :: match m_rest st1 with
                    | c :: rest =>
                        finditer_from ic r f (MState (S (m_pos st1)) (Some c) rest)
                    | [] => []
                    end
          else m :: finditer_from ic r f st1
      end
  end.

Definition finditer (ic : bool) (r : regex) (s : str) : list rmatch_result :=
  finditer_from ic r (S (length s)) (MState 0 None s).

(** [re.findall(r, s)] for a pattern without groups. *)
Definition findall (ic : bool) (r : regex) (s : str) : list str :=
  map (whole s) (finditer ic r s).

(** [re.sub(r, repl, s)] for a constant replacement. *)
Fixpoint sub_from (repl s : str) (pos : nat) (ms : list rmatch_result) : str :=
  match ms with
  | [] => skipn pos s
  | m :: ms' => slice pos (r_start m) s ++ repl ++ sub_from repl s (r_end m) ms'
  end.

Definition re_sub (ic : bool) (r : regex) (repl s : str) : str :=
  sub_from repl s 0 (finditer ic r s).

(** [re.split(r, s, maxsplit=1)] for a pattern without groups. *)
Definition re_split1 (ic : bool) (r : regex) (s : str) : list str :=
  match re_search ic r s with
  | Some m => [firstn (r_start m) s; skipn (r_end m) s]
  | None => [s]
  end.

(** *** Pattern combinators *)

Definition Plus (r : regex) : regex := Seq r (Star r).
Definition Opt (r : regex) : regex := Alt r Eps.

Fixpoint seqs (rs : list regex) : regex :=
  match rs with
  | [] => Eps
  | [r] => r
  | r :: rs' => Seq r (seqs rs')
  end.

Fixpoint alts (rs : list regex) : regex :=
  match rs with
  | [] => Chr (fun _ => false)
  | [r] => r
  | r :: rs' => Alt r (alts rs')
  end.

(** [r{n}] *)
Fixpoint Rep (n : nat) (r : regex) : regex :=
  match n with
  | O => Eps
  | S O => r
  | S n' => Seq r (Rep n' r)
  end.

(** [r{0,n}], greedy. *)
Fixpoint UpTo (n : nat) (r : regex) : regex :=
  match n with
  | O => Eps
  | S n' => Opt (Seq r (UpTo n' r))
  end.

(** [r{lo,hi}] and [r{lo,}] *)
Definition RepRange (lo hi : nat) (r : regex) : regex :=
  Seq (Rep lo r) (UpTo (hi - lo) r).
Definition RepFrom (lo : nat) (r : regex) : regex := Seq (Rep lo r) (Star r).

Definition C (s : string) : regex := Chr (N.eqb (chr s)).
Definition Lit (s : str) : regex := seqs (map (fun c => Chr (N.eqb c)) s).
Definition L (s : string) : regex := Lit (lit s).
Definition OneOf (s : str) : char -> bool := fun c => existsb (N.eqb c) s.

Definition d : regex := Chr is_digit.                     (* \d *)
Definition w : regex := Chr is_word.                      (* \w *)
Definition s_ : regex := Chr isspace.                     (* \s *)
Definition AZ : regex := Chr is_ascii_upper.              (* [A-Z] *)
Definition az : regex := Chr is_ascii_lower.              (* [a-z] *)
Definition is_ascii_letter (c : char) : bool :=
  is_ascii_upper c || is_ascii_lower c.
Definition orb_class (p q : char -> bool) : char -> bool :=
  fun c => p c || q c.

(** ** The resume model ([models/resume.py]) *)

(** One entry of [Resume.experience] (a dict in the source). *)
Record Experience := mkExperience {
  exp_company : str;
  exp_title : str;
  exp_start_date : option str;
  exp_end_date : option str;
  exp_location : option str;
  exp_description : option str;
  exp_responsibilities : list str
}.

(** One entry of [Resume.education]. *)
Record Education := mkEducation {
  edu_institution : str;
  edu_degree : str;
  edu_field : option str;
  edu_start_date : option str;
  edu_end_date : option str;
  edu_gpa : option Q;
  edu_location : option str;
  edu_description : option str
}.

Record Project := mkProject {
  proj_name : str;
  proj_description : option str;
  proj_technologies : list str;
  proj_start_date : option str;
  proj_end_date : option str;
  proj_url : option str
}.

Record Certification := mkCertification {
  cert_name : str;
  cert_issuer : option str;
  cert_date : option str;
  cert_expiration_date : option str;
  cert_url : option str
}.

Record Language := mkLanguage {
  lang_language : str;
  lang_proficiency : str
}.

(** The attributes of a [Resume] object.  [skill_score] and [format_score]
    do not exist until [scoring.score_resume] assigns them; [parsed_date]
    (the wall-clock time of construction) is left out. *)
Record Resume := mkResume {
  raw_text : str;
  filename : str;
  name : option str;
  email : option str;
  phone : option str;
  location : option str;
  linkedin : option str;
  website : option str;
  summary : option str;
  skills : list str;
  education : list Education;
  experience : list Experience;
  projects : list Project;
  certifications : list Certification;
  languages : list Language;
  skill_scores : list (str * Q);
  experience_score : Q;
  education_score : Q;
  overall_score : Q;
  recommendations : list str;
  skill_score : option Q;
  format_score : option Q
}.

(** [Resume(raw_text, filename)] *)
Definition new_Resume (text fname : str) : Resume :=
  mkResume text fname None None None None None None None
           [] [] [] [] [] [] [] 0 0 0 [] None None.

(** Attribute assignment [resume.f = v]. *)
Definition set_name (v : option str) (r : Resume) : Resume :=
  mkResume (raw_text r) (filename r) v (email r) (phone r) (location r)
           (linkedin r) (website r) (summary r) (skills r) (education r)
           (experience r) (projects r) (certifications r) (languages r)
           (skill_scores r) (experience_score r) (education_score r)
           (overall_score r) (recommendations r) (skill_score r)
           (format_score r).
Definition set_email (v : option str) (r : Resume) : Resume :=
  mkResume (raw_text r) (filename r) (name r) v (phone r) (location r)
           (linkedin r) (website r) (summary r) (skills r) (education r)
           (experience r) (projects r) (certifications r) (languages r)
           (skill_scores r) (experience_score r) (education_score r)
           (overall_score r) (recommendations r) (skill_score r)
           (format_score r).
Definition set_phone (v : option str) (r : Resume) : Resume :=
  mkResume (raw_text r) (filename r) (name r) (email r) v (location r)
           (linkedin r) (website r) (summary r) (skills r) (education r)
           (experience r) (projects r) (certifications r) (languages r)
           (skill_scores r) (experience_score r) (education_score r)
           (overall_score r) (recommendations r) (skill_score r)
           (format_score r).
Definition set_location (v : option str) (r : Resume) : Resume :=
  mkResume (raw_text r) (filename r) (name r) (email r) (phone r) v
           (linkedin r) (website r) (summary r) (skills r) (education r)
           (experience r) (projects r) (certifications r) (languages r)
           (skill_scores r) (experience_score r) (education_score r)
           (overall_score r) (recommendations r) (skill_score r)
           (format_score r).
Definition set_linkedin (v : option str) (r : Resume) : Resume :=
  mkResume (raw_text r) (filename r) (name r) (email r) (phone r) (location
           r) v (website r) (summary r) (skills r) (education r) (experience
           r) (projects r) (certifications r) (languages r) (skill_scores r)
           (experience_score r) (education_score r) (overall_score r)
           (recommendations r) (skill_score r) (format_score r).
Definition set_website (v : option str) (r : Resume) : Resume :=
  mkResume (raw_text r) (filename r) (name r) (email r) (phone r) (location
           r) (linkedin r) v (summary r) (skills r) (education r)
           (experience r) (projects r) (certifications r) (languages r)
           (skill_scores r) (experience_score r) (education_score r)
           (overall_score r) (recommendations r) (skill_score r)
           (format_score r).
Definition set_summary (v : option str) (r : Resume) : Resume :=
  mkResume (raw_text r) (filename r) (name r) (email r) (phone r) (location
           r) (linkedin r) (website r) v (skills r) (education r)
           (experience r) (projects r) (certifications r) (languages r)
           (skill_scores r) (experience_score r) (education_score r)
           (overall_score r) (recommendations r) (skill_score r)
           (format_score r).
Definition set_skills (v : list str) (r : Resume) : Resume :=
  mkResume (raw_text r) (filename r) (name r) (email r) (phone r) (location
           r) (linkedin r) (website r) (summary r) v (education r)
           (experience r) (projects r) (certifications r) (languages r)
           (skill_scores r) (experience_score r) (education_score r)
           (overall_score r) (recommendations r) (skill_score r)
           (format_score r).
Definition set_education (v : list Education) (r : Resume) : Resume :=
  mkResume (raw_text r) (filename r) (name r) (email r) (phone r) (location
           r) (linkedin r) (website r) (summary r) (skills r) v (experience
           r) (projects r) (certifications r) (languages r) (skill_scores r)
           (experience_score r) (education_score r) (overall_score r)
           (recommendations r) (skill_score r) (format_score r).
Definition set_experience (v : list Experience) (r : Resume) : Resume :=
  mkResume (raw_text r) (filename r) (name r) (email r) (phone r) (location
           r) (linkedin r) (website r) (summary r) (skills r) (education r)
           v (projects r) (certifications r) (languages r) (skill_scores r)
           (experience_score r) (education_score r) (overall_score r)
           (recommendations r) (skill_score r) (format_score r).
Definition set_skill_scores (v : list (str * Q)) (r : Resume) : Resume :=
  mkResume (raw_text r) (filename r) (name r) (email r) (phone r) (location
           r) (linkedin r) (website r) (summary r) (skills r) (education r)
           (experience r) (projects r) (certifications r) (languages r) v
           (experience_score r) (education_score r) (overall_score r)
           (recommendations r) (skill_score r) (format_score r).
Definition set_experience_score (v : Q) (r : Resume) : Resume :=
  mkResume (raw_text r) (filename r) (name r) (email r) (phone r) (location
           r) (linkedin r) (website r) (summary r) (skills r) (education r)
           (experience r) (projects r) (certifications r) (languages r)
           (skill_scores r) v (education_score r) (overall_score r)
           (recommendations r) (skill_score r) (format_score r).
Definition set_education_score (v : Q) (r : Resume) : Resume :=
  mkResume (raw_text r) (filename r) (name r) (email r) (phone r) (location
           r) (linkedin r) (website r) (summary r) (skills r) (education r)
           (experience r) (projects r) (certifications r) (languages r)
           (skill_scores r) (experience_score r) v (overall_score r)
           (recommendations r) (skill_score r) (format_score r).
Definition set_overall_score (v : Q) (r : Resume) : Resume :=
  mkResume (raw_text r) (filename r) (name r) (email r) (phone r) (location
           r) (linkedin r) (website r) (summary r) (skills r) (education r)
           (experience r) (projects r) (certifications r) (languages r)
           (skill_scores r) (experience_score r) (education_score r) v
           (recommendations r) (skill_score r) (format_score r).
Definition set_recommendations (v : list str) (r : Resume) : Resume :=
  mkResume (raw_text r) (filename r) (name r) (email r) (phone r) (location
           r) (linkedin r) (website r) (summary r) (skills r) (education r)
           (experience r) (projects r) (certifications r) (languages r)
           (skill_scores r) (experience_score r) (education_score r)
           (overall_score r) v (skill_score r) (format_score r).
Definition set_skill_score (v : option Q) (r : Resume) : Resume :=
  mkResume (raw_text r) (filename r) (name r) (email r) (phone r) (location
           r) (linkedin r) (website r) (summary r) (skills r) (education r)
           (experience r) (projects r) (certifications r) (languages r)
           (skill_scores r) (experience_score r) (education_score r)
           (overall_score r) (recommendations r) v (format_score r).
Definition set_format_score (v : option Q) (r : Resume) : Resume :=
  mkResume (raw_text r) (filename r) (name r) (email r) (phone r) (location
           r) (linkedin r) (website r) (summary r) (skills r) (education r)
           (experience r) (projects r) (certifications r) (languages r)
           (skill_scores r) (experience_score r) (education_score r)
           (overall_score r) (recommendations r) (skill_score r) v.

Definition add_skill (skill : str) (r : Resume) : Resume :=
  if truthy skill && negb (mem skill (skills r))
  then set_skills (skills r ++ [skill]) r
  else r.

Definition add_education (e : Education) (r : Resume) : Resume :=
  set_education (education r ++ [e]) r.

(** [responsibilities or []] is applied by the caller's model, which always
    passes a list. *)
Definition add_experience (e : Experience) (r : Resume) : Resume :=
  set_experience (experience r ++ [e]) r.

Definition add_recommendation (rec : str) (r : Resume) : Resume :=
  if truthy rec && negb (mem rec (recommendations r))
  then set_recommendations (recommendations r ++ [rec]) r
  else r.

(** Truthiness of an optional float. *)
Definition qtruthy (o : option Q) : bool :=
  match o with Some q => negb (Qeq_bool q 0) | None => false end.

Definition nonempty {A} (l : list A) : bool :=
  match l with [] => false | _ => true end.

Definition Qsum (l : list Q) : Q := fold_left Qplus l 0.

Definition Qofnat (n : nat) : Q := inject_Z (Z.of_nat n).

Definition count {A} (f : A -> bool) (l : list A) : nat :=
  length (filter f l).

(** Value of a run of decimal digits. *)
Definition digits_value (s : str) : Z :=
  fold_left (fun acc c => (acc * 10 + (Z.of_N c - 48))%Z) s 0%Z.

Definition Qltb (a b : Q) : bool := negb (Qle_bool b a).

Definition is_some {A} (o : option A) : bool :=
  match o with Some _ => true | None => false end.

(** [if cond: l.append(item)], for one item or two. *)
Definition append_if {A} (cond : bool) (items : list A) (l : list A)
  : list A :=
  if cond then l ++ items else l.

(** ** Text statistics ([utils/text_utils.py]) *)

Module text_utils.

Record TextStats := mkTextStats {
  word_count : nat;
  unique_word_count : nat;
  lexical_diversity : Q
}.

(** [\b\w+\b] *)
Definition word_re : regex := seqs [WordB; Plus w; WordB].

(** [calculate_text_stats]: the entries read by the analyzers.  The
    sentence statistics, the character count and the average word length
    feed no score and are left out. *)
Definition calculate_text_stats (text : str) : TextStats :=
  let words := findall false word_re text in
  let word_count := length words in
  let unique_words := nodup (list_eq_dec N.eq_dec) (map lower words) in
  let unique_word_count := length unique_words in
  let lexical_diversity :=
    Qofnat unique_word_count / Qofnat (Nat.max 1 word_count) in
  mkTextStats word_count unique_word_count lexical_diversity.

End text_utils.

(** ** Shared control flow *)

Notation "x <- e ;; k" :=
  (match e with Some x => k | None => None end)
  (at level 61, e at next level, right associativity).

(** [for pattern in patterns: m = re.findall(pattern, text); if m: return m[0]] *)
Fixpoint first_findall (ic : bool) (patterns : list regex) (text : str)
  : option str :=
  match patterns with
  | [] => None
  | p :: ps =>
      match findall ic p text with
      | m :: _ => Some m
      | [] => first_findall ic ps text
      end
  end.

(** [any(header == line_lower or header in line_lower for header in headers)] *)
Definition is_header (headers : list str) (line_lower : str) : bool :=
  existsb (fun header => str_eqb header line_lower || contains header line_lower)
          headers.

(** [line and line[0].isupper()] *)
Definition starts_upper (line : str) : bool :=
  match line with c :: _ => char_isupper c | [] => false end.

(** [line[-1] == ':'] for a non-empty line. *)
Definition ends_colon (line : str) : bool :=
  match rev line with c :: _ => (c =? chr ":")%N | [] => false end.

(** The line scan that the summary, skills and section extractors all
    repeat: a header line (re)sets the start to the next index; once a
    start is known, the first line accepted by [is_end] closes the section
    and stops the scan.  Returns [(start, end)], [None] standing for -1. *)
Fixpoint scan_section (headers : list str) (is_end : str -> bool)
    (lines : list str) (i : nat) (start : option nat)
  : option nat * option nat :=
  match lines with
  | [] => (start, None)
  | line :: rest =>
      if is_header headers (strip (lower line))
      then scan_section headers is_end rest (S i) (Some (S i))
      else match start with
           | Some _ =>
               if is_end line then (start, Some i)
               else scan_section headers is_end rest (S i) start
           | None => scan_section headers is_end rest (S i) start
           end
  end.

(** [[line.strip() for line in lines if line.strip()]] *)
Definition stripped_nonblank (lines : list str) : list str :=
  filter truthy (map strip lines).

(** ** Contact details and summary ([analyzers/content_analyzer.py]) *)

Module content_analyzer.

(** [[a-zA-Z0-9._%+-]+@[a-zA-Z0-9.-]+\.[a-zA-Z]{2,}] *)
Definition email_pattern : regex :=
  seqs [Plus (Chr (fun c => is_ascii_letter c || is_digit c
                            || OneOf (lit "._%+-") c));
        C "@";
        Plus (Chr (fun c => is_ascii_letter c || is_digit c
                            || OneOf (lit ".-") c));
        C ".";
        RepFrom 2 (Chr is_ascii_letter)].

Definition sep_dash_dot : regex := Opt (Chr (OneOf (lit "-."))).
Definition sep_dash_dot_space : regex := Opt (Chr (OneOf (lit "-. "))).

Definition phone_patterns : list regex :=
  [ (* \b\d{3}[-.]?\d{3}[-.]?\d{4}\b *)
    seqs [WordB; Rep 3 d; sep_dash_dot; Rep 3 d; sep_dash_dot; Rep 4 d; WordB];
    (* \b\(\d{3}\)[-. ]?\d{3}[-.]?\d{4}\b *)
    seqs [WordB; C "("; Rep 3 d; C ")"; sep_dash_dot_space; Rep 3 d;
          sep_dash_dot; Rep 4 d; WordB];
    (* \b\+\d{1,3}[-. ]?\d{3}[-. ]?\d{3}[-. ]?\d{4}\b *)
    seqs [WordB; C "+"; RepRange 1 3 d; sep_dash_dot_space; Rep 3 d;
          sep_dash_dot_space; Rep 3 d; sep_dash_dot_space; Rep 4 d; WordB] ].

Definition word_or_dash : regex := Chr (fun c => is_word c || (c =? chr "-")%N).
Definition word_dot_dash : regex :=
  Chr (fun c => is_word c || OneOf (lit ".-") c).

Definition linkedin_patterns : list regex :=
  [ (* linkedin\.com/in/[\w-]+ *)
    seqs [L "linkedin.com/in/"; Plus word_or_dash];
    (* linkedin\.com/profile/[\w-]+ *)
    seqs [L "linkedin.com/profile/"; Plus word_or_dash] ].

(** [[\w-]+\.[\w.-]+(?:/[\w.-]* )*/?] (a blank keeps the comment open) *)
Definition host_and_path : regex :=
  seqs [Plus word_or_dash; C "."; Plus word_dot_dash;
        Star (Seq (C "/") (Star word_dot_dash)); Opt (C "/")].

Definition website_patterns : list regex :=
  [ (* https?://(?:www\.)? followed by the host and path *)
    seqs [L "http"; Opt (C "s"); L "://"; Opt (L "www."); host_and_path];
    (* www\. followed by the host and path *)
    seqs [L "www."; host_and_path] ].

(** [[A-Z][a-z]+(?:\s[A-Z][a-z]+)*] *)
Definition city_words : regex :=
  seqs [AZ; Plus az; Star (seqs [s_; AZ; Plus az])].

Definition location_patterns : list regex :=
  [ (* \b[A-Z][a-z]+(?:\s[A-Z][a-z]+)*,\s[A-Z]{2}\b *)
    seqs [WordB; city_words; C ","; s_; Rep 2 AZ; WordB];
    (* \b[A-Z][a-z]+(?:\s[A-Z][a-z]+)*\s\d{5}\b *)
    seqs [WordB; city_words; s_; Rep 5 d; WordB] ].

Definition name_stop_words : list str :=
  [lit "resume"; lit "cv"; lit "curriculum"].

Definition job_sites : list str :=
  [lit "linkedin"; lit "indeed"; lit "monster"; lit "careerbuilder";
   lit "glassdoor"].

(** The name loop over [lines[:5]]. *)
Definition find_name (lines : list str) : option str :=
  find (fun line =>
          truthy line && (length line <? 50)
          && negb (existsb (fun keyword => contains keyword (lower line))
                           name_stop_words))
       (map strip (firstn 5 lines)).

(** The website loop: only a pattern with a match that survives the
    filter ends it. *)
Fixpoint find_website (patterns : list regex) (text : str) : option str :=
  match patterns with
  | [] => None
  | p :: ps =>
      match filter (fun site =>
                      negb (existsb (fun s => contains s (lower site)) job_sites))
                   (findall false p text) with
      | site :: _ => Some site
      | [] => find_website ps text
      end
  end.

(** [resume.f = v] guarded by [if v is found]. *)
Definition assign {A} (set : option A -> Resume -> Resume) (o : option A)
    (r : Resume) : Resume :=
  match o with Some v => set (Some v) r | None => r end.

Definition extract_contact_info (r : Resume) : Resume :=
  let text := raw_text r in
  let lines := split_char newline text in
  let r := assign set_name (find_name lines) r in
  let r := assign set_email (hd_error (findall false email_pattern text)) r in
  let r := assign set_phone (first_findall false phone_patterns text) r in
  let r := assign set_linkedin (first_findall true linkedin_patterns text) r in
  let r := assign set_website (find_website website_patterns text) r in
  assign set_location (first_findall false location_patterns text) r.

Definition summary_headers : list str :=
  [lit "summary"; lit "professional summary"; lit "profile";
   lit "professional profile"; lit "objective"; lit "career objective";
   lit "about me"; lit "career summary"].

Definition summary_end_names : list str :=
  [lit "skills"; lit "experience"; lit "education"; lit "work experience";
   lit "employment"; lit "projects"; lit "certifications"].

(** [line and line[0].isupper() and line[-1] == ':' or
     line.lower().strip() in [...]] *)
Definition summary_end (line : str) : bool :=
  (starts_upper line && ends_colon line)
  || mem (strip (lower line)) summary_end_names.

Definition extract_summary (r : Resume) : Resume :=
  let lines := split_char newline (raw_text r) in
  match scan_section summary_headers summary_end lines 0 None with
  | (Some summary_start, e) =>
      let summary_end :=
        match e with
        | Some i => i
        | None => Nat.min (summary_start + 5) (length lines)
        end in
      let summary_lines := slice summary_start summary_end lines in
      let summary_text := join (lit " ") (stripped_nonblank summary_lines) in
      let summary_text := strip (re_sub false (Plus s_) (lit " ") summary_text) in
      if truthy summary_text then set_summary (Some summary_text) r else r
  | (None, _) => r
  end.

Definition analyze (r : Resume) : Resume :=
  extract_summary (extract_contact_info r).

End content_analyzer.

(** ** Skills ([analyzers/skills_analyzer.py]) *)

Module skills_analyzer.

(** [DEFAULT_SKILLS], in the order of the dictionary literal.  No
    [data/skills.json] ships with the repository, so [_load_skills_data]
    returns this table. *)
Definition DEFAULT_SKILLS : list (string * list string) :=
  [
    ("programming_languages",
     [
      "Python"; "Java"; "JavaScript"; "C++"; "C#"; "Ruby"; "PHP";
      "Swift"; "Kotlin"; "Go"; "Rust"; "TypeScript"; "Scala"; "Perl";
      "R"; "MATLAB"; "Bash"; "PowerShell"; "SQL"; "HTML"; "CSS"; "C";
      "Objective-C"; "Dart"; "Groovy"; "VBA"; "Lua"; "Haskell";
      "Clojure"; "F#"; "COBOL"; "Fortran" ]);
    ("frameworks_libraries",
     [
      "React"; "Angular"; "Vue.js"; "Django"; "Flask"; "Spring";
      "ASP.NET"; "Express.js"; "Node.js"; "jQuery"; "Bootstrap";
      "TensorFlow"; "PyTorch"; "Keras"; "Pandas"; "NumPy";
      "Scikit-learn"; "Laravel"; "Ruby on Rails"; "Symfony"; "Flutter";
      "React Native"; "Xamarin"; "Unity"; "Unreal Engine"; "Next.js";
      "Gatsby"; "Redux"; "Vuex"; "MobX"; "RxJS"; "D3.js"; "Three.js" ]);
    ("databases",
     [
      "MySQL"; "PostgreSQL"; "MongoDB"; "SQLite"; "Oracle"; "SQL Server";
      "Redis"; "Cassandra"; "Elasticsearch"; "DynamoDB"; "Firebase";
      "Neo4j"; "MariaDB"; "CouchDB"; "Firestore"; "Realm"; "InfluxDB";
      "Couchbase" ]);
    ("cloud_platforms",
     [
      "AWS"; "Azure"; "Google Cloud"; "Heroku"; "DigitalOcean"; "Linode";
      "IBM Cloud"; "Oracle Cloud"; "Alibaba Cloud"; "Salesforce";
      "Netlify"; "Vercel"; "Firebase"; "AWS Lambda"; "EC2"; "S3"; "RDS";
      "DynamoDB"; "CloudFront"; "Route 53"; "IAM"; "Azure Functions";
      "App Service"; "Google App Engine"; "Google Kubernetes Engine";
      "Cloud Functions" ]);
    ("devops_tools",
     [
      "Docker"; "Kubernetes"; "Jenkins"; "GitLab CI"; "GitHub Actions";
      "Travis CI"; "CircleCI"; "Ansible"; "Terraform"; "Puppet"; "Chef";
      "Vagrant"; "Prometheus"; "Grafana"; "ELK Stack"; "Nagios";
      "Zabbix"; "New Relic"; "Datadog"; "Splunk"; "Sentry"; "Airflow";
      "Argo CD" ]);
    ("version_control",
     [
      "Git"; "SVN"; "Mercurial"; "GitHub"; "GitLab"; "Bitbucket";
      "Azure DevOps" ]);
    ("methodologies",
     [
      "Agile"; "Scrum"; "Kanban"; "Waterfall"; "Lean"; "XP"; "TDD";
      "BDD"; "DevOps"; "CI/CD"; "Microservices"; "Serverless";
      "Domain-Driven Design" ]);
    ("soft_skills",
     [
      "Communication"; "Teamwork"; "Problem Solving";
      "Critical Thinking"; "Time Management"; "Leadership";
      "Adaptability"; "Creativity"; "Collaboration";
      "Emotional Intelligence"; "Conflict Resolution"; "Decision Making";
      "Negotiation"; "Presentation"; "Public Speaking"; "Mentoring";
      "Coaching" ]);
    ("data_science",
     [
      "Machine Learning"; "Deep Learning"; "Natural Language Processing";
      "Computer Vision"; "Data Mining"; "Data Analysis";
      "Data Visualization"; "Statistical Analysis"; "A/B Testing";
      "Regression"; "Classification"; "Clustering";
      "Dimensionality Reduction"; "Feature Engineering";
      "Reinforcement Learning"; "Time Series Analysis";
      "Bayesian Methods" ]);
    ("design",
     [
      "UI/UX"; "Photoshop"; "Illustrator"; "Sketch"; "Figma"; "InDesign";
      "After Effects"; "Premiere Pro"; "Blender"; "3D Modeling";
      "Animation"; "Wireframing"; "Prototyping"; "User Research";
      "Usability Testing"; "Responsive Design"; "Graphic Design";
      "Typography"; "Color Theory" ]);
    ("project_management",
     [
      "JIRA"; "Trello"; "Asana"; "Monday.com"; "ClickUp"; "Basecamp";
      "Microsoft Project"; "Smartsheet"; "Notion"; "Confluence"; "Slack";
      "Microsoft Teams"; "Zoom"; "Google Meet"; "Risk Management";
      "Budgeting"; "Resource Allocation"; "Stakeholder Management" ]);
    ("mobile_development",
     [
      "iOS"; "Android"; "Swift"; "Kotlin"; "Objective-C"; "Java";
      "React Native"; "Flutter"; "Xamarin"; "Ionic"; "Cordova";
      "PhoneGap"; "SwiftUI"; "Jetpack Compose"; "ARKit"; "ARCore";
      "Core ML"; "TensorFlow Lite" ]);
    ("testing",
     [
      "Unit Testing"; "Integration Testing"; "Functional Testing";
      "End-to-End Testing"; "Regression Testing"; "Performance Testing";
      "Load Testing"; "Stress Testing"; "Security Testing";
      "Penetration Testing"; "JUnit"; "pytest"; "Mocha"; "Jest";
      "Selenium"; "Cypress"; "Appium"; "TestNG"; "Jasmine"; "Karma";
      "Postman" ]);
    ("security",
     [
      "Cybersecurity"; "Network Security"; "Application Security";
      "Cloud Security"; "Encryption"; "Authentication"; "Authorization";
      "OAuth"; "JWT"; "SAML"; "SSO"; "Firewall"; "VPN";
      "Intrusion Detection"; "Penetration Testing";
      "Vulnerability Assessment"; "Security Auditing"; "Compliance";
      "GDPR"; "HIPAA" ])
  ]%string.

Definition _load_skills_data : list (str * list str) :=
  map (fun kv => (lit (fst kv), map lit (snd kv))) DEFAULT_SKILLS.

(** [found_skills.add(skill)] on a set kept as a duplicate-free list. *)
Definition set_add (skill : str) (found : list str) : list str :=
  if mem skill found then found else found ++ [skill].

(** [sorted(...)]: insertion into an ascending list. *)
Fixpoint insert_sorted (x : str) (l : list str) : list str :=
  match l with
  | [] => [x]
  | y :: l' => if str_ltb y x then y :: insert_sorted x l' else x :: l
  end.

Definition sorted (l : list str) : list str :=
  fold_right insert_sorted [] l.

(** [r'\b' + re.escape(skill.lower()) + r'\b'] *)
Definition skill_pattern (skill : str) : regex :=
  seqs [WordB; Lit (lower skill); WordB].

Definition skills_headers : list str :=
  [lit "skills"; lit "technical skills"; lit "core skills"; lit "key skills";
   lit "professional skills"; lit "competencies"; lit "areas of expertise"].

Definition skills_end_names : list str :=
  [lit "experience"; lit "education"; lit "work experience";
   lit "employment"; lit "projects"; lit "certifications"].

Definition skills_end (line : str) : bool :=
  (starts_upper line && ends_colon line)
  || mem (strip (lower line)) skills_end_names.

Definition _extract_skills_section (text : str) : option str :=
  let lines := split_char newline text in
  match scan_section skills_headers skills_end lines 0 None with
  | (Some skills_start, e) =>
      let skills_end :=
        match e with
        | Some i => i
        | None => Nat.min (skills_start + 10) (length lines)
        end in
      let skills_lines := slice skills_start skills_end lines in
      let skills_text := join (lit " ") (stripped_nonblank skills_lines) in
      Some (strip (re_sub false (Plus s_) (lit " ") skills_text))
  | (None, _) => None
  end.

(** The vocabulary pass: every skill of every category that occurs as a
    whole word in the lower-cased text. *)
Definition vocabulary_pass (skills_data : list (str * list str))
    (text : str) (found : list str) : list str :=
  fold_left
    (fun found category =>
       fold_left
         (fun found skill =>
            match re_search false (skill_pattern skill) text with
            | Some _ => set_add skill found
            | None => found
            end)
         (snd category) found)
    skills_data found.

Definition delimiters : list char :=
  [chr ","; bullet; middle_dot; newline; chr ";"].

(** The section pass: split on the first delimiter that occurs. *)
Fixpoint section_pass (delims : list char) (skills_section : str)
    (found : list str) : list str :=
  match delims with
  | [] => found
  | delimiter :: rest =>
      if contains [delimiter] skills_section
      then
        let skills_list :=
          stripped_nonblank (split_char delimiter skills_section) in
        fold_left
          (fun found skill =>
             if (2 <=? length skill) && (length skill <=? 50)
             then set_add skill found else found)
          skills_list found
      else section_pass rest skills_section found
  end.

Definition extract_skills (r : Resume) (skills_data : list (str * list str))
  : Resume :=
  let text := lower (raw_text r) in
  let found_skills := vocabulary_pass skills_data text [] in
  let found_skills :=
    match _extract_skills_section (raw_text r) with
    | Some skills_section =>
        if truthy skills_section
        then section_pass delimiters skills_section found_skills
        else found_skills
    | None => found_skills
    end in
  set_skills (sorted found_skills) r.

(** [skill_categories]: name, weight, keywords. *)
Definition skill_categories : list (str * (Q * list str)) :=
  [ (lit "technical",
     (6 # 10,
      [lit "programming"; lit "language"; lit "framework"; lit "library";
       lit "database"; lit "cloud"; lit "devops"; lit "version control";
       lit "testing"; lit "security"]));
    (lit "soft",
     (2 # 10,
      [lit "communication"; lit "teamwork"; lit "problem solving";
       lit "critical thinking"; lit "time management"; lit "leadership";
       lit "adaptability"; lit "creativity"]));
    (lit "domain",
     (2 # 10,
      [lit "industry"; lit "domain"; lit "sector"; lit "field";
       lit "business"; lit "finance"; lit "healthcare"; lit "education";
       lit "retail"; lit "manufacturing"; lit "technology"])) ].

Definition category_score (keywords : list str) (skills : list str) : Q :=
  Qofnat (count (fun skill =>
                   existsb (fun keyword => contains keyword (lower skill))
                           keywords)
                skills).

(** [min(10.0, (category_score / max_skills) * 10.0) * info['weight']] *)
Definition weighted_category_score (info : Q * list str) (skills : list str)
  : Q :=
  Qmin 10 (category_score (snd info) skills / 10 * 10) * fst info.

Definition category_scores (skills : list str) : list (str * Q) :=
  map (fun c => (fst c, weighted_category_score (snd c) skills))
      skill_categories.

(** [category_scores[key]]; both keys looked up below are present. *)
Definition lookup (key : str) (scores : list (str * Q)) : Q :=
  match find (fun kv => str_eqb (fst kv) key) scores with
  | Some kv => snd kv
  | None => 0
  end.

Definition score_skills (r : Resume) : Resume :=
  let category_scores := category_scores (skills r) in
  let overall_skill_score := Qsum (map snd category_scores) in
  let r := set_skill_scores category_scores r in
  let r :=
    if Qltb overall_skill_score 3
    then add_recommendation
           (lit "Consider adding more specific skills to your resume, especially technical skills.") r
    else if Qltb overall_skill_score 6
    then add_recommendation
           (lit "Your skills section is good, but could be improved by adding more specialized skills relevant to your target role.") r
    else r in
  let technical := lookup (lit "technical") category_scores in
  let soft := lookup (lit "soft") category_scores in
  if Qltb (3 * soft) technical
  then add_recommendation
         (lit "Consider adding more soft skills to balance your technical expertise.") r
  else if Qltb (3 * technical) soft
  then add_recommendation
         (lit "Consider adding more technical skills to complement your soft skills.") r
  else r.

Definition analyze (r : Resume) : Resume :=
  score_skills (extract_skills r _load_skills_data).

End skills_analyzer.

(** ** Experience and education ([analyzers/experience_analyzer.py]) *)

Module experience_analyzer.

Definition section_end_names : list str :=
  [lit "skills"; lit "education"; lit "experience"; lit "projects";
   lit "certifications"; lit "summary"; lit "objective"; lit "profile"].

(** [line and line[0].isupper() and (line[-1] == ':' or line.isupper())
     or line.lower().strip() in [...]] *)
Definition section_end (line : str) : bool :=
  (starts_upper line && (ends_colon line || isupper line))
  || mem (strip (lower line)) section_end_names.

Definition _extract_section (text : str) (section_headers : list str)
  : option str :=
  let lines := split_char newline text in
  match scan_section section_headers section_end lines 0 None with
  | (Some section_start, e) =>
      let section_end :=
        match e with Some i => i | None => length lines end in
      let section_lines := slice section_start section_end lines in
      Some (join nl (filter (fun line => truthy (strip line)) section_lines))
  | (None, _) => None
  end.

(** [\d{4}|\d{2}/\d{2}|\d{2}-\d{2}|[A-Z][a-z]+\s[A-Z][a-z]+] *)
Definition entry_start : regex :=
  alts [Rep 4 d;
        seqs [Rep 2 d; C "/"; Rep 2 d];
        seqs [Rep 2 d; C "-"; Rep 2 d];
        seqs [AZ; Plus az; s_; AZ; Plus az]].

(** The loop of pattern 2 over the lines, on the pair
    [(entries, current_entry)]. *)
Fixpoint split_lines (lines : list str) (entries : list str)
    (current_entry : list str) : list str * list str :=
  match lines with
  | [] => (entries, current_entry)
  | line :: rest =>
      match re_match false entry_start (strip line), current_entry with
      | Some _, _ :: _ =>
          split_lines rest (entries ++ [join nl current_entry]) [line]
      | _, _ => split_lines rest entries (current_entry ++ [line])
      end
  end.

(** Pattern 1: entries separated by blank lines. *)
Definition blank_line_entries (section_text : str) : list str :=
  if contains (nl ++ nl) section_text
  then stripped_nonblank (split (nl ++ nl) section_text)
  else [].

(** Pattern 2: entries starting with dates or company names. *)
Definition line_start_entries (section_text : str) : list str :=
  let '(entries, current_entry) :=
    split_lines (split_char newline section_text) [] [] in
  if nonempty current_entry
  then entries ++ [join nl current_entry]
  else entries.

Definition _split_section_into_entries (section_text : str) : list str :=
  let entries := blank_line_entries section_text in
  let entries :=
    if nonempty entries then entries
    else line_start_entries section_text in
  (* If we still couldn't split, treat the whole section as one entry *)
  if nonempty entries then entries else [section_text].

(** [\s+at\s+], compiled with [re.IGNORECASE] *)
Definition at_re : regex := seqs [Plus s_; L "at"; Plus s_].

(** The pattern loop of [_extract_company_title] and of
    [_extract_institution_degree] over [lines[:3]].  Returns the pair
    (text left of the dash, text right of it) in the orientation
    "organisation, role"; [None] is an [IndexError]. *)
Fixpoint org_role_loop (lines : list str) : option (str * str) :=
  match lines with
  | [] => Some ([], [])
  | line0 :: rest =>
      let line := strip line0 in
      if contains (lit " - ") line then
        let parts := split_once (lit " - ") line in
        org <- nth_error parts 0 ;;
        role <- nth_error parts 1 ;;
        Some (strip org, strip role)
      else if contains (lit " at ") (lower line) then
        let parts := re_split1 true at_re line in
        role <- nth_error parts 0 ;;
        org <- nth_error parts 1 ;;
        Some (strip org, strip role)
      else if contains (lit ",") line then
        let parts := split_once (lit ",") line in
        role <- nth_error parts 0 ;;
        org <- nth_error parts 1 ;;
        Some (strip org, strip role)
      else org_role_loop rest
  end.

(** The fallback when one of the two is still empty. *)
Definition org_role_heuristics (lines : list str) (org role : str)
  : option (str * str) :=
  if negb (truthy org) || negb (truthy role) then
    first_line <- nth_error lines 0 ;;
    let first_line := strip first_line in
    if negb (truthy org) && negb (truthy role) then Some (first_line, role)
    else if negb (truthy org) then
      match lines with
      | _ :: second :: _ => Some (strip second, role)
      | _ => Some (org, role)
      end
    else
      match lines with
      | _ :: second :: _ => Some (org, strip second)
      | _ => Some (org, role)
      end
  else Some (org, role).

Definition _extract_company_title (entry : str) : option (str * str) :=
  let lines := split_char newline entry in
  found <- org_role_loop (firstn 3 lines) ;;
  org_role_heuristics lines (fst found) (snd found).

Definition digits12 : regex := RepRange 1 2 d.
Definition present_words : regex := alts [L "Present"; L "Current"; L "Now"].
Definition month_year : regex := seqs [AZ; Plus az; Plus s_; Rep 4 d].

(** A range pattern [(start)\s*-\s*(end|Present|Current|Now)]. *)
Definition range_of (date : regex) : regex :=
  seqs [Grp 1 date; Star s_; C "-"; Star s_; Grp 2 (Alt date present_words)].

Definition date_patterns : list regex :=
  [ range_of (seqs [digits12; C "/"; Rep 4 d]);   (* MM/YYYY - MM/YYYY *)
    range_of (seqs [digits12; C "-"; Rep 4 d]);   (* MM-YYYY - MM-YYYY *)
    range_of (Rep 4 d);                           (* YYYY - YYYY *)
    range_of month_year;                          (* Month YYYY - Month YYYY *)
    range_of month_year ].

(** The first pattern that matches, with its two groups. *)
Fixpoint search_groups (ic : bool) (patterns : list regex) (text : str)
  : option (str * str) :=
  match patterns with
  | [] => None
  | p :: ps =>
      match re_search ic p text with
      | Some m => Some (group text m 1, group text m 2)
      | None => search_groups ic ps text
      end
  end.

Definition _extract_dates (entry : str) : option str * option str :=
  match search_groups false date_patterns entry with
  | Some (start_date, end_date) =>
      let end_date :=
        if mem end_date [lit "Present"; lit "Current"; lit "Now"]
        then lit "Present" else end_date in
      (Some start_date, Some end_date)
  | None => (None, None)
  end.

(** [[A-Z][a-z]+(?:\s+[A-Z][a-z]+)*] *)
Definition place : regex :=
  seqs [AZ; Plus az; Star (seqs [Plus s_; AZ; Plus az])].

Definition location_patterns : list regex :=
  [ seqs [Grp 1 place; C ","; Plus s_; Grp 2 (Rep 2 AZ)];
    seqs [Grp 1 place; C ","; Plus s_; Grp 2 place];
    seqs [L "Location:"; Plus s_; Grp 1 place; C ","; Plus s_;
          Grp 2 (Alt (Rep 2 AZ) place)] ].

Definition _extract_location (entry : str) : option str :=
  match search_groups false location_patterns entry with
  | Some (city, state_country) => Some (city ++ lit ", " ++ state_country)
  | None => None
  end.

(** [^\d+\.] *)
Definition numbered : regex := seqs [Bol; Plus d; C "."].

(** [line.startswith('•') or line.startswith('-') or line.startswith('*')
     or re.match(r'^\d+\.', line)] *)
Definition is_bullet (line : str) : bool :=
  startswith [bullet] line || startswith (lit "-") line
  || startswith (lit "*") line
  || match re_match false numbered line with Some _ => true | None => false end.

(** [^[•\-*]\s*|^\d+\.\s*] *)
Definition marker : regex :=
  Alt (seqs [Bol; Chr (fun c => (c =? bullet)%N || OneOf (lit "-*") c); Star s_])
      (seqs [Bol; Plus d; C "."; Star s_]).

(** [' '.join(description_lines) if description_lines else None] *)
Definition join_description (description_lines : list str) : option str :=
  if nonempty description_lines
  then Some (join (lit " ") description_lines) else None.

Definition _extract_description_responsibilities (entry : str)
  : option str * list str :=
  let lines := split_char newline entry in
  let start_idx := Nat.min 3 (length lines) in
  let '(description_lines, responsibilities) :=
    fold_left
      (fun acc line0 =>
         let line := strip line0 in
         if is_bullet line then
           let responsibility := strip (re_sub false marker [] line) in
           if truthy responsibility
           then (fst acc, snd acc ++ [responsibility]) else acc
         else if truthy line then (fst acc ++ [line], snd acc)
         else acc)
      (skipn start_idx lines) ([], []) in
  (join_description description_lines, responsibilities).

Definition degree_keywords : list str :=
  map lit
    ["Bachelor"; "Master"; "PhD"; "Doctorate"; "Associate"; "BS"; "BA";
     "MS"; "MA"; "BSc"; "MSc"; "BBA"; "MBA"; "B.S."; "M.S."; "B.A."; "M.A.";
     "Ph.D."; "B.Tech"; "M.Tech"; "B.E."; "M.E."; "Certificate";
     "Diploma"]%string.

(** The first line that contains a degree keyword, stripped; the scan
    goes on past a line whose stripped form is empty. *)
Fixpoint degree_line (lines : list str) : str :=
  match lines with
  | [] => []
  | line :: rest =>
      if existsb (fun keyword => contains keyword line) degree_keywords
         && truthy (strip line)
      then strip line else degree_line rest
  end.

Definition _extract_institution_degree (entry : str) : option (str * str) :=
  let lines := split_char newline entry in
  found <- org_role_loop (firstn 3 lines) ;;
  found <- org_role_heuristics lines (fst found) (snd found) ;;
  let '(institution, degree) := found in
  let degree := if truthy degree then degree else degree_line lines in
  Some (institution, degree).

Definition field_letters : regex :=
  Plus (Chr (fun c => is_ascii_letter c || isspace c)).

Definition field_patterns : list regex :=
  [ seqs [L "in"; Plus s_; Grp 1 field_letters];   (* in\s+([A-Za-z\s]+) *)
    seqs [L "of"; Plus s_; Grp 1 field_letters] ]. (* of\s+([A-Za-z\s]+) *)

Definition field_indicators : list str :=
  [lit "Major:"; lit "Field:"; lit "Concentration:"; lit "Specialization:"].

(** [for indicator in field_indicators: if indicator in line:
     return line.split(indicator, 1)[1].strip()] *)
Fixpoint indicated_field (indicators : list str) (line : str)
  : option (option str) :=
  match indicators with
  | [] => Some None
  | indicator :: rest =>
      if contains indicator line
      then after <- nth_error (split_once indicator line) 1 ;;
           Some (Some (strip after))
      else indicated_field rest line
  end.

Fixpoint field_in_lines (lines : list str) : option (option str) :=
  match lines with
  | [] => Some None
  | line :: rest =>
      found <- indicated_field field_indicators (strip line) ;;
      match found with
      | Some f => Some (Some f)
      | None => field_in_lines rest
      end
  end.

Definition _extract_field_of_study (entry degree : str)
  : option (option str) :=
  match search_groups false field_patterns degree with
  | Some (f, _) => Some (Some (strip f))
  | None =>
      let lines := split_char newline entry in
      field_in_lines (skipn (Nat.min 3 (length lines)) lines)
  end.

(** [float(text)] for a text of the shape [\d+\.\d+]. *)
Definition float_of (text : str) : Q :=
  match split_once (lit ".") text with
  | [int_part; frac_part] =>
      inject_Z (digits_value int_part)
      + Qmake (digits_value frac_part) (Pos.pow 10 (Pos.of_nat (length frac_part)))
  | _ => inject_Z (digits_value text)
  end.

Definition decimal : regex := seqs [Plus d; C "."; Plus d].

Definition gpa_patterns : list regex :=
  [ seqs [L "GPA:"; Star s_; Grp 1 decimal];           (* GPA:\s*(\d+\.\d+) *)
    seqs [L "GPA"; Plus s_; L "of"; Plus s_; Grp 1 decimal];
    seqs [Grp 1 decimal; Plus s_; L "GPA"] ].          (* (\d+\.\d+)\s+GPA *)

Definition _extract_gpa (entry : str) : option Q :=
  match search_groups false gpa_patterns entry with
  | Some (g, _) => Some (float_of g)
  | None => None
  end.

Definition gpa_field_labels : list str :=
  [lit "GPA:"; lit "Major:"; lit "Field:"; lit "Concentration:";
   lit "Specialization:"].

Definition _extract_education_description (entry : str) : option str :=
  let lines := split_char newline entry in
  let start_idx := Nat.min 3 (length lines) in
  join_description
    (filter
       (fun line =>
          negb (existsb (fun indicator => contains indicator line)
                        gpa_field_labels)
          && negb (is_bullet line)
          && truthy line)
       (map strip (skipn start_idx lines))).

Definition experience_headers : list str :=
  [lit "experience"; lit "work experience"; lit "employment history";
   lit "professional experience"; lit "career history"; lit "work history"].

Definition education_headers : list str :=
  [lit "education"; lit "academic background"; lit "educational background";
   lit "academic history"; lit "educational history";
   lit "academic qualifications"; lit "educational qualifications"].

(** The body of the loop of [extract_experience] for one entry. *)
Definition experience_of_entry (entry : str) (r : Resume) : option Resume :=
  found <- _extract_company_title entry ;;
  let '(company, title) := found in
  if negb (truthy company) then Some r
  else
    let '(start_date, end_date) := _extract_dates entry in
    let location := _extract_location entry in
    let '(description, responsibilities) :=
      _extract_description_responsibilities entry in
    Some (add_experience
            (mkExperience company title start_date end_date location
                          description responsibilities) r).

Fixpoint for_entries (body : str -> Resume -> option Resume)
    (entries : list str) (r : Resume) : option Resume :=
  match entries with
  | [] => Some r
  | entry :: rest => r1 <- body entry r ;; for_entries body rest r1
  end.

Definition extract_experience (r : Resume) : option Resume :=
  match _extract_section (raw_text r) experience_headers with
  | Some experience_section =>
      if truthy experience_section
      then for_entries experience_of_entry
                       (_split_section_into_entries experience_section) r
      else Some r
  | None => Some r
  end.

(** The body of the loop of [extract_education] for one entry. *)
Definition education_of_entry (entry : str) (r : Resume) : option Resume :=
  found <- _extract_institution_degree entry ;;
  let '(institution, degree) := found in
  if negb (truthy institution) then Some r
  else
    field <- _extract_field_of_study entry degree ;;
    let '(start_date, end_date) := _extract_dates entry in
    let location := _extract_location entry in
    let gpa := _extract_gpa entry in
    let description := _extract_education_description entry in
    Some (add_education
            (mkEducation institution degree field start_date end_date gpa
                         location description) r).

Definition extract_education (r : Resume) : option Resume :=
  match _extract_section (raw_text r) education_headers with
  | Some education_section =>
      if truthy education_section
      then for_entries education_of_entry
                       (_split_section_into_entries education_section) r
      else Some r
  | None => Some r
  end.

(** *** Scores *)

Definition _score_experience (r : Resume) : Q :=
  if negb (nonempty (experience r)) then 0
  else
    let base_score := Qmin 5 (Qofnat (length (experience r))) in
    let quality_score :=
      fold_left
        (fun quality_score exp =>
           let quality_score :=
             if nonempty (exp_responsibilities exp)
             then quality_score
                  + (1 # 2) * Qmin 1 (Qofnat (length (exp_responsibilities exp)) / 3)
             else quality_score in
           let quality_score :=
             match exp_description exp with
             | Some description =>
                 if truthy description && (50 <? length description)
                 then quality_score + (1 # 2) else quality_score
             | None => quality_score
             end in
           let quality_score :=
             if otruthy (exp_start_date exp) && otruthy (exp_end_date exp)
             then quality_score + (1 # 2) else quality_score in
           if otruthy (exp_location exp)
           then quality_score + (1 # 4) else quality_score)
        (experience r) 0 in
    let quality_score := Qmin 5 quality_score in
    base_score + quality_score.

Definition _score_education (r : Resume) : Q :=
  if negb (nonempty (education r)) then 0
  else
    let base_score := Qmin 5 (Qofnat (length (education r)) * (5 # 2)) in
    let quality_score :=
      fold_left
        (fun quality_score edu =>
           let quality_score :=
             if truthy (edu_degree edu)
             then quality_score + 1 else quality_score in
           let quality_score :=
             if otruthy (edu_field edu)
             then quality_score + 1 else quality_score in
           let quality_score :=
             if otruthy (edu_start_date edu) && otruthy (edu_end_date edu)
             then quality_score + (1 # 2) else quality_score in
           let quality_score :=
             if qtruthy (edu_gpa edu)
             then quality_score + 1 else quality_score in
           if otruthy (edu_description edu)
           then quality_score + (1 # 2) else quality_score)
        (education r) 0 in
    let quality_score := Qmin 5 quality_score in
    base_score + quality_score.

Definition experience_recommendations (exp : Experience) (r : Resume)
  : Resume :=
  let r :=
    if negb (nonempty (exp_responsibilities exp)) then
      add_recommendation
        (lit "Add bullet points describing your responsibilities and achievements at "
         ++ exp_company exp ++ lit ".") r
    else if length (exp_responsibilities exp) <? 3 then
      add_recommendation
        (lit "Add more bullet points for your role at " ++ exp_company exp
         ++ lit " to highlight your achievements.") r
    else r in
  if negb (otruthy (exp_start_date exp)) || negb (otruthy (exp_end_date exp))
  then add_recommendation
         (lit "Add specific dates for your position at " ++ exp_company exp
          ++ lit ".") r
  else r.

Definition education_recommendations (edu : Education) (r : Resume)
  : Resume :=
  let r :=
    if negb (otruthy (edu_field edu))
    then add_recommendation
           (lit "Specify your field of study at " ++ edu_institution edu
            ++ lit ".") r
    else r in
  let r :=
    if negb (otruthy (edu_start_date edu)) || negb (otruthy (edu_end_date edu))
    then add_recommendation
           (lit "Add specific dates for your education at "
            ++ edu_institution edu ++ lit ".") r
    else r in
  if negb (qtruthy (edu_gpa edu)) && truthy (edu_degree edu)
     && existsb (fun keyword => contains keyword (edu_degree edu))
                [lit "Bachelor"; lit "Master"; lit "PhD"]
  then add_recommendation
         (lit "Consider adding your GPA for your " ++ edu_degree edu
          ++ lit " if it's above 3.0.") r
  else r.

Definition _add_experience_education_recommendations (r : Resume) : Resume :=
  let r :=
    if negb (nonempty (experience r)) then
      add_recommendation
        (lit "Add work experience to your resume, even if it's internships or volunteer work.") r
    else if length (experience r) <? 2 then
      add_recommendation
        (lit "Consider adding more work experiences to demonstrate your career progression.") r
    else r in
  let r := fold_left (fun r exp => experience_recommendations exp r)
                     (experience r) r in
  let r :=
    if negb (nonempty (education r))
    then add_recommendation
           (lit "Add your educational background to your resume.") r
    else r in
  let r := fold_left (fun r edu => education_recommendations edu r)
                     (education r) r in
  if Qltb (overall_score r) 5 then
    add_recommendation
      (lit "Your resume needs significant improvement. Focus on adding more detailed work experiences and skills.") r
  else if Qltb (overall_score r) 7 then
    add_recommendation
      (lit "Your resume is good but could be improved. Consider adding more specific achievements and quantifiable results.") r
  else
    add_recommendation
      (lit "Your resume is strong. Consider tailoring it further for specific job applications.") r.

Definition score_experience_education (r : Resume) : Resume :=
  let experience_score := _score_experience r in
  let r := set_experience_score experience_score r in
  let education_score := _score_education r in
  let r := set_education_score education_score r in
  let r :=
    set_overall_score
      ((5 # 10) * experience_score + (3 # 10) * education_score
       + (2 # 10) * Qsum (map snd (skill_scores r))) r in
  _add_experience_education_recommendations r.

Definition analyze (r : Resume) : option Resume :=
  r <- extract_experience r ;;
  r <- extract_education r ;;
  Some (score_experience_education r).

End experience_analyzer.

(** ** The command-line pipeline ([main.py], [analyze_resume]) *)

Definition pipeline (resume_text filename : str) : option Resume :=
  let resume := new_Resume resume_text filename in
  let resume := content_analyzer.analyze resume in
  let resume := skills_analyzer.analyze resume in
  experience_analyzer.analyze resume.

(** ** General scoring ([analyzers/scoring.py]) *)

Module scoring.

Definition score_skills (r : Resume) : Q :=
  if negb (nonempty (skills r)) then 0
  else
    let num_skills := length (skills r) in
    let score :=
      if 15 <=? num_skills then 5
      else if 10 <=? num_skills then 4
      else if 7 <=? num_skills then 3
      else if 5 <=? num_skills then 2
      else if 3 <=? num_skills then 1
      else 0 in
    let score :=
      if nonempty (skill_scores r) then
        let relevance_score :=
          Qsum (map snd (skill_scores r))
          / Qofnat (Nat.max 1 (length (skill_scores r))) in
        score + Qmin 5 relevance_score
      else score + (5 # 2) in
    Qmin 10 score.

(** *** [datetime.strptime] for the five formats tried by the source

    [strptime] compiles the format to a case-insensitive pattern, matches
    it at the start of the text and rejects text left over; blanks of the
    format stand for [\s+].  The result is the pair (year, month); a year
    below [datetime.MINYEAR = 1] is rejected. *)

Inductive date_format :=
| fmt_b_Y        (* '%b %Y' *)
| fmt_B_Y        (* '%B %Y' *)
| fmt_m_slash_Y  (* '%m/%Y' *)
| fmt_m_dash_Y   (* '%m-%Y' *)
| fmt_Y.         (* '%Y'    *)

Definition formats : list date_format :=
  [fmt_b_Y; fmt_B_Y; fmt_m_slash_Y; fmt_m_dash_Y; fmt_Y].

Definition month_abbr : list str :=
  map lit ["jan"; "feb"; "mar"; "apr"; "may"; "jun"; "jul"; "aug"; "sep";
           "oct"; "nov"; "dec"]%string.

Definition month_name : list str :=
  map lit ["january"; "february"; "march"; "april"; "may"; "june"; "july";
           "august"; "september"; "october"; "november"; "december"]%string.

(** The alternatives of [%B] in the order of [strptime], longest first. *)
Definition month_name_by_length : list str :=
  map lit ["september"; "february"; "november"; "december"; "january";
           "october"; "august"; "march"; "april"; "june"; "july";
           "may"]%string.

(** [%m]: [1[0-2]|0[1-9]|[1-9]] *)
Definition m_directive : regex :=
  alts [Seq (C "1") (Chr (in_range 48 50));
        Seq (C "0") (Chr (in_range 49 57));
        Chr (in_range 49 57)].

(** [%Y]: [\d\d\d\d] *)
Definition Y_directive : regex := Rep 4 d.

Definition format_regex (f : date_format) : regex :=
  match f with
  | fmt_b_Y =>
      seqs [Grp 1 (alts (map Lit month_abbr)); Plus s_; Grp 2 Y_directive]
  | fmt_B_Y =>
      seqs [Grp 1 (alts (map Lit month_name_by_length)); Plus s_;
            Grp 2 Y_directive]
  | fmt_m_slash_Y => seqs [Grp 1 m_directive; C "/"; Grp 2 Y_directive]
  | fmt_m_dash_Y => seqs [Grp 1 m_directive; C "-"; Grp 2 Y_directive]
  | fmt_Y => Grp 2 Y_directive
  end.

(** Position of a name in a month table, counted from 1. *)
Fixpoint month_index (names : list str) (x : str) (i : Z) : Z :=
  match names with
  | [] => 1
  | n :: rest => if str_eqb n x then i else month_index rest x (i + 1)
  end.

Definition month_of (f : date_format) (g : str) : Z :=
  match f with
  | fmt_b_Y => month_index month_abbr (lower g) 1
  | fmt_B_Y => month_index month_name (lower g) 1
  | fmt_m_slash_Y | fmt_m_dash_Y => digits_value g
  | fmt_Y => 1
  end.

(** [datetime.strptime(text, f)]; [None] is a [ValueError]. *)
Definition strptime (text : str) (f : date_format) : option (Z * Z) :=
  m <- re_match true (format_regex f) text ;;
  if r_end m =? length text then
    let year := digits_value (group text m 2) in
    if (year <? 1)%Z then None
    else Some (year, month_of f (group text m 1))
  else None.

(** The [for fmt in [...]: try ... break / except ValueError: continue]
    loop; [None] is its [else] branch. *)
Fixpoint parse_date (fmts : list date_format) (text : str) : option (Z * Z) :=
  match fmts with
  | [] => None
  | f :: rest =>
      match strptime text f with
      | Some dt => Some dt
      | None => parse_date rest text
      end
  end.

Definition months_between (a b : Z * Z) : Z :=
  ((fst b - fst a) * 12 + (snd b - snd a))%Z.

(** One iteration of the duration loop of [score_experience]: the new
    value of [total_months].  [continue] leaves it unchanged. *)
Definition add_months (now : Z * Z) (total_months : Z) (exp : Experience)
  : Z :=
  match exp_start_date exp, exp_end_date exp with
  | Some start, Some stop =>
      if truthy start && truthy stop then
        if negb (str_eqb (lower stop) (lit "present")) then
          match parse_date formats start with
          | None => total_months
          | Some start_date =>
              match parse_date formats stop with
              | None => total_months
              | Some end_date =>
                  (total_months
                   + Z.max 0 (months_between start_date end_date))%Z
              end
          end
        else
          match parse_date formats start with
          | None => total_months
          | Some start_date =>
              (total_months + Z.max 0 (months_between start_date now))%Z
          end
      else (total_months + 12)%Z
  | _, _ => (total_months + 12)%Z
  end.

Definition total_months (now : Z * Z) (exps : list Experience) : Z :=
  fold_left (add_months now) exps 0%Z.

Definition score_experience (now : Z * Z) (r : Resume) : Q :=
  if negb (nonempty (experience r)) then 0
  else
    let num_experiences := length (experience r) in
    let score :=
      if 4 <=? num_experiences then 3
      else if 3 <=? num_experiences then 5 # 2
      else if 2 <=? num_experiences then 2
      else if 1 <=? num_experiences then 1
      else 0 in
    let total_months := total_months now (experience r) in
    let score :=
      if (60 <=? total_months)%Z then score + 3
      else if (36 <=? total_months)%Z then score + (5 # 2)
      else if (24 <=? total_months)%Z then score + 2
      else if (12 <=? total_months)%Z then score + (3 # 2)
      else if (0 <? total_months)%Z then score + 1
      else score in
    let has_responsibilities :=
      existsb (fun exp => nonempty (exp_responsibilities exp)) (experience r) in
    let has_descriptions :=
      existsb (fun exp => otruthy (exp_description exp)) (experience r) in
    let score :=
      if has_responsibilities && has_descriptions then score + 2
      else if has_responsibilities || has_descriptions then score + 1
      else score in
    let has_titles := forallb (fun exp => truthy (exp_title exp)) (experience r) in
    let has_companies :=
      forallb (fun exp => truthy (exp_company exp)) (experience r) in
    let score :=
      if has_titles && has_companies then score + 2
      else if has_titles || has_companies then score + 1
      else score in
    Qmin 10 score.

Definition found (r : regex) (text : str) : bool :=
  is_some (re_search false r text).

(** [ph\.?d|doct?or|doctorate] *)
Definition doctor_re : regex :=
  alts [seqs [L "ph"; Opt (C "."); C "d"];
        seqs [L "doc"; Opt (C "t"); L "or"];
        L "doctorate"].

(** [master|ms|ma|mba|m\.s|m\.a] *)
Definition master_re : regex :=
  alts [L "master"; L "ms"; L "ma"; L "mba"; L "m.s"; L "m.a"].

(** [bachelor|bs|ba|b\.s|b\.a] *)
Definition bachelor_re : regex :=
  alts [L "bachelor"; L "bs"; L "ba"; L "b.s"; L "b.a"].

(** [associate|certificate|diploma] *)
Definition associate_re : regex :=
  alts [L "associate"; L "certificate"; L "diploma"].

Definition degree_score (edu : Education) : Q :=
  let degree := lower (edu_degree edu) in
  if found doctor_re degree then 4
  else if found master_re degree then 3
  else if found bachelor_re degree then 2
  else if found associate_re degree then 1
  else 1 # 2.

Definition half_if (b : bool) (entry_score : Q) : Q :=
  if b then entry_score + (1 # 2) else entry_score.

Definition entry_score (edu : Education) : Q :=
  let entry_score := half_if (truthy (edu_institution edu)) 0 in
  let entry_score := half_if (otruthy (edu_field edu)) entry_score in
  let entry_score :=
    half_if (otruthy (edu_start_date edu) || otruthy (edu_end_date edu))
            entry_score in
  let entry_score := half_if (qtruthy (edu_gpa edu)) entry_score in
  let entry_score := half_if (otruthy (edu_location edu)) entry_score in
  half_if (otruthy (edu_description edu)) entry_score.

Definition score_education (r : Resume) : Q :=
  if negb (nonempty (education r)) then 0
  else
    let num_education := length (education r) in
    let score :=
      if 3 <=? num_education then 3
      else if 2 <=? num_education then 2
      else if 1 <=? num_education then 1
      else 0 in
    let highest_degree_score :=
      fold_left (fun highest edu => Qmax highest (degree_score edu))
                (education r) 0 in
    let score := score + highest_degree_score in
    let completeness_score :=
      fold_left (fun acc edu => acc + Qmin 3 (entry_score edu))
                (education r) 0 in
    let score :=
      if 0 <? num_education then
        let avg_completeness := completeness_score / Qofnat num_education in
        score + Qmin 3 avg_completeness
      else score in
    Qmin 10 score.

Definition Qleb (a b : Q) : bool := Qle_bool a b.

Definition score_format (r : Resume) : Q :=
  let score := 5 in
  let contact_score := half_if (otruthy (name r)) 0 in
  let contact_score := half_if (otruthy (email r)) contact_score in
  let contact_score := half_if (otruthy (phone r)) contact_score in
  let contact_score := half_if (otruthy (location r)) contact_score in
  let score := score + Qmin 2 contact_score in
  let score := if otruthy (summary r) then score + 1 else score in
  let score :=
    if truthy (raw_text r) then
      let stats := text_utils.calculate_text_stats (raw_text r) in
      let word_count := text_utils.word_count stats in
      let score :=
        if (300 <=? word_count) && (word_count <=? 700) then score + 1
        else if ((200 <=? word_count) && (word_count <? 300))
                || ((700 <? word_count) && (word_count <=? 1000))
        then score + (1 # 2)
        else score in
      let lexical_diversity := text_utils.lexical_diversity stats in
      if Qleb (4 # 10) lexical_diversity && Qleb lexical_diversity (7 # 10)
      then score + 1
      else if (Qleb (3 # 10) lexical_diversity && Qltb lexical_diversity (4 # 10))
              || (Qltb (7 # 10) lexical_diversity
                  && Qleb lexical_diversity (8 # 10))
      then score + (1 # 2)
      else score
    else score in
  Qmin 10 score.

(** [round(x, 0)] on an exact value: to the nearest integer, a tie going
    to the even neighbour.  (On a binary float the tie case is decided by
    the float's exact value, which the rational model does not see.) *)
Definition round_half_even (x : Q) : Z :=
  let f := Qfloor x in
  let frac := x - inject_Z f in
  if Qltb frac (1 # 2) then f
  else if Qltb (1 # 2) frac then (f + 1)%Z
  else if Z.even f then f else (f + 1)%Z.

(** [round(x, 1)] *)
Definition round1 (x : Q) : Q := inject_Z (round_half_even (x * 10)) / 10.

Definition weighted_sum (skill_score experience_score education_score
                         format_score : Q) : Q :=
  skill_score * (3 # 10) + experience_score * (4 # 10)
  + education_score * (2 # 10) + format_score * (1 # 10).

(** [score_resume]: the resume after the assignments; the value returned
    by the source is its [overall_score]. *)
Definition score_resume (now : Z * Z) (r : Resume) : Resume :=
  let skill_score := score_skills r in
  let experience_score := score_experience now r in
  let education_score := score_education r in
  let format_score := score_format r in
  let r := set_skill_score (Some skill_score) r in
  let r := set_experience_score experience_score r in
  let r := set_education_score education_score r in
  let r := set_format_score (Some format_score) r in
  let overall_score :=
    weighted_sum skill_score experience_score education_score format_score in
  let overall_score := round1 overall_score in
  set_overall_score overall_score r.

Definition general_recommendations : list str :=
  [lit "Quantify your achievements with specific numbers and metrics where possible.";
   lit "Tailor your resume for each job application to highlight relevant skills and experience.";
   lit "Use action verbs to describe your responsibilities and achievements.";
   lit "Proofread your resume for spelling and grammar errors.";
   lit "Consider adding a LinkedIn profile or personal website to your contact information.";
   lit "Organize your resume in reverse chronological order (most recent experience first)."].

(** The loop that tops the list up to three items. *)
Fixpoint add_general (general : list str) (recommendations : list str)
  : list str :=
  match general with
  | [] => recommendations
  | rec :: rest =>
      if mem rec recommendations then add_general rest recommendations
      else
        let recommendations := recommendations ++ [rec] in
        if 3 <=? length recommendations then recommendations
        else add_general rest recommendations
  end.

(** [generate_recommendations]: the resume with its list of
    recommendations replaced; the source returns that list. *)
Definition generate_recommendations (r : Resume) : Resume :=
  let recommendations := [] in
  let recommendations :=
    append_if (negb (nonempty (skills r)) || (length (skills r) <? 5))
      [lit "Add more skills to your resume, aim for at least 5-10 relevant skills."]
      recommendations in
  let recommendations :=
    if negb (nonempty (experience r)) then
      recommendations
      ++ [lit "Add work experience to your resume, even if it's internships or volunteer work."]
    else
      append_if
        (existsb (fun exp => negb (nonempty (exp_responsibilities exp))
                             && negb (otruthy (exp_description exp)))
                 (experience r))
        [lit "Add detailed responsibilities or descriptions to your work experience."]
        recommendations in
  let recommendations :=
    append_if (negb (nonempty (education r)))
      [lit "Add your educational background to your resume."]
      recommendations in
  let missing_contact := [] in
  let missing_contact :=
    append_if (negb (otruthy (name r))) [lit "name"] missing_contact in
  let missing_contact :=
    append_if (negb (otruthy (email r))) [lit "email"] missing_contact in
  let missing_contact :=
    append_if (negb (otruthy (phone r))) [lit "phone number"]
              missing_contact in
  let recommendations :=
    append_if (nonempty missing_contact)
      [lit "Add your " ++ join (lit ", ") missing_contact
       ++ lit " to your contact information."]
      recommendations in
  let recommendations :=
    append_if (negb (otruthy (summary r)))
      [lit "Add a professional summary to highlight your key qualifications and career objectives."]
      recommendations in
  let recommendations :=
    if truthy (raw_text r) then
      let stats := text_utils.calculate_text_stats (raw_text r) in
      if 1000 <? text_utils.word_count stats then
        recommendations
        ++ [lit "Your resume is quite long. Consider condensing it to 1-2 pages (300-700 words)."]
      else if text_utils.word_count stats <? 200 then
        recommendations
        ++ [lit "Your resume is quite short. Consider adding more details about your experience and skills."]
      else recommendations
    else recommendations in
  let recommendations :=
    if length recommendations <? 3
    then add_general general_recommendations recommendations
    else recommendations in
  set_recommendations recommendations r.

End scoring.

(** ** ATS compatibility ([analyzers/ats_analyzer.py]) *)

Module ats_analyzer.

(** [ats_keywords['technical']] *)
Definition technical_keywords : list str :=
  map lit
    [
      "python"; "javascript"; "java"; "c++"; "sql"; "html"; "css";
      "react"; "angular"; "vue"; "node.js"; "django"; "flask"; "spring";
      "aws"; "azure"; "gcp"; "docker"; "kubernetes"; "git"; "jenkins";
      "ci/cd"; "agile"; "scrum"; "api"; "rest"; "graphql";
      "microservices"; "machine learning"; "ai"; "data science";
      "analytics"; "database"; "postgresql"; "mongodb"; "redis";
      "elasticsearch"; "kafka"; "rabbitmq"; "terraform"; "ansible";
      "linux"; "unix" ]%string.

(** [ats_keywords['soft']] *)
Definition soft_keywords : list str :=
  map lit
    [
      "leadership"; "communication"; "teamwork"; "collaboration";
      "problem solving"; "critical thinking"; "adaptability";
      "time management"; "project management"; "mentoring"; "training";
      "presentation"; "negotiation"; "customer service"; "analytical";
      "creative"; "innovative"; "detail oriented"; "self motivated" ]%string.

(** [ats_keywords['industry']] *)
Definition industry_keywords : list str :=
  map lit
    [
      "fintech"; "healthcare"; "e-commerce"; "saas"; "startup";
      "enterprise"; "cybersecurity"; "devops"; "cloud computing";
      "mobile development"; "web development"; "full stack"; "frontend";
      "backend"; "database administration" ]%string.

(** [ats_red_flags] *)
Definition ats_red_flags : list str :=
  map lit
    [
      "objective"; "references available upon request"; "hobbies";
      "personal interests"; "marital status"; "age"; "date of birth";
      "photo"; "picture" ]%string.

(** [ats_format_requirements]: the preferred and the maximal length in
    words. *)
Definition preferred_length : nat * nat := (300, 700)%nat.
Definition max_length : nat := 1000%nat.

(** [sum(1 for keyword in keywords if keyword in text)] *)
Definition keywords_found (keywords : list str) (text : str) : nat :=
  count (fun keyword => contains keyword text) keywords.

(** [min(cap, (found / len(keywords)) * cap)] *)
Definition share (cap : Q) (keywords : list str) (text : str) : Q :=
  Qmin cap (Qofnat (keywords_found keywords text)
            / Qofnat (length keywords) * cap).

Definition _calculate_keyword_score (r : Resume) : Q :=
  if negb (truthy (raw_text r)) then 0
  else
    let text_lower := lower (raw_text r) in
    let tech_score := share 5 technical_keywords text_lower in
    let soft_score := share 3 soft_keywords text_lower in
    let industry_score := share 2 industry_keywords text_lower in
    let score := tech_score + soft_score + industry_score in
    Qmin 10 score.

Definition section_headers : list str :=
  [lit "experience"; lit "education"; lit "skills"; lit "summary";
   lit "objective"].

Definition month_prefixes : list str :=
  map lit ["Jan"; "Feb"; "Mar"; "Apr"; "May"; "Jun"; "Jul"; "Aug"; "Sep";
           "Oct"; "Nov"; "Dec"]%string.

(** The three date patterns, searched with [re.IGNORECASE]. *)
Definition date_patterns : list regex :=
  [ seqs [WordB; Rep 4 d; WordB];                        (* \b\d{4}\b *)
    (* \b(Jan|...|Dec)[a-z]*\s+\d{4}\b *)
    seqs [WordB; Grp 1 (alts (map Lit month_prefixes)); Star az; Plus s_;
          Rep 4 d; WordB];
    seqs [WordB; RepRange 1 2 d; C "/"; Rep 4 d; WordB] ]. (* \b\d{1,2}/\d{4}\b *)

Definition _calculate_format_score (r : Resume) : Q :=
  let score := 0 in
  let score := score + 2 in
  let score :=
    if truthy (raw_text r) then
      let stats := text_utils.calculate_text_stats (raw_text r) in
      let word_count := text_utils.word_count stats in
      if (fst preferred_length <=? word_count)
         && (word_count <=? snd preferred_length) then score + 3
      else if (200 <=? word_count) && (word_count <? fst preferred_length)
      then score + 2
      else if (snd preferred_length <? word_count)
              && (word_count <=? max_length)
      then score + 2
      else score + 1
    else score in
  let headers_found := keywords_found section_headers (lower (raw_text r)) in
  let score :=
    score + Qmin 3 (Qofnat headers_found / Qofnat (length section_headers) * 3) in
  let score :=
    if truthy (raw_text r) then
      let score :=
        if contains [bullet] (raw_text r) || contains (lit "-") (raw_text r)
           || contains (lit "*") (raw_text r)
        then score + 1 else score in
      let dates_found :=
        count (fun pattern => is_some (re_search true pattern (raw_text r)))
              date_patterns in
      if 0 <? dates_found then score + 1 else score
    else score in
  Qmin 10 score.

Definition essential_sections : list str :=
  [lit "contact"; lit "experience"; lit "education"; lit "skills"].

Definition _calculate_structure_score (r : Resume) : Q :=
  let score := 0 in
  let sections_found := 0%nat in
  let sections_found :=
    if otruthy (name r) || otruthy (email r)
    then S sections_found else sections_found in
  let sections_found :=
    if nonempty (experience r) then S sections_found else sections_found in
  let sections_found :=
    if nonempty (education r) then S sections_found else sections_found in
  let sections_found :=
    if nonempty (skills r) then S sections_found else sections_found in
  let score :=
    score + Qofnat sections_found / Qofnat (length essential_sections) * 4 in
  let score :=
    if nonempty (experience r) && (1 <? length (experience r))
    then score + 2 else score in
  let score :=
    if nonempty (experience r) then
      let consistent_formatting :=
        forallb (fun exp => truthy (exp_company exp) && truthy (exp_title exp))
                (experience r) in
      if consistent_formatting then score + 2 else score
    else score in
  let score :=
    if truthy (raw_text r) then
      let lines := split_char newline (raw_text r) in
      let non_empty_lines := stripped_nonblank lines in
      if 10 <? length non_empty_lines then score + 2 else score
    else score in
  Qmin 10 score.

Definition km : regex :=
  Opt (Chr (fun c => (c =? chr "k")%N || (c =? chr "m")%N)).

(** [\b\d+%|\b\d+\+|\b\d+[km]?\+|\b\d+[km]?\b] *)
Definition quantifier_re : regex :=
  alts [seqs [WordB; Plus d; C "%"];
        seqs [WordB; Plus d; C "+"];
        seqs [WordB; Plus d; km; C "+"];
        seqs [WordB; Plus d; km; WordB]].

Definition action_verbs : list str :=
  map lit
    ["achieved"; "developed"; "implemented"; "managed"; "led"; "created";
     "designed"; "improved"; "increased"; "reduced"; "optimized";
     "delivered"; "executed"; "coordinated"; "facilitated"; "established";
     "built"; "launched"; "streamlined"]%string.

(** [resume.summary and len(resume.summary) > n] *)
Definition summary_longer (n : nat) (r : Resume) : bool :=
  match summary r with
  | Some s => truthy s && (n <? length s)
  | None => false
  end.

Definition _calculate_content_score (r : Resume) : Q :=
  let score := 0 in
  let score :=
    if truthy (raw_text r) then
      let quantifiers := findall false quantifier_re (raw_text r) in
      if 3 <=? length quantifiers then score + 3
      else if 1 <=? length quantifiers then score + (3 # 2)
      else score
    else score in
  let score :=
    if truthy (raw_text r)
    then score + share 3 action_verbs (lower (raw_text r))
    else score in
  let score := if summary_longer 50 r then score + 2 else score in
  let score :=
    if nonempty (skills r) && (5 <=? length (skills r))
    then score + 2 else score in
  Qmin 10 score.

(** [sum(1 for field in fields if field) / len(fields)] *)
Definition filled (fields : list bool) : Q :=
  Qofnat (count (fun b => b) fields) / Qofnat (length fields).

Definition exp_filled (exp : Experience) : Q :=
  filled [truthy (exp_company exp); truthy (exp_title exp);
          otruthy (exp_start_date exp); otruthy (exp_end_date exp)].

Definition edu_filled (edu : Education) : Q :=
  filled [truthy (edu_institution edu); truthy (edu_degree edu);
          otruthy (edu_start_date edu); otruthy (edu_end_date edu)].

Definition _calculate_completeness_score (r : Resume) : Q :=
  let score := 0 in
  let contact_score :=
    filled [otruthy (name r); otruthy (email r); otruthy (phone r);
            otruthy (location r)] in
  let score := score + contact_score * 2 in
  let score :=
    if nonempty (experience r) then
      let exp_completeness :=
        fold_left (fun acc exp => acc + exp_filled exp) (experience r) 0 in
      score + exp_completeness / Qofnat (length (experience r)) * 3
    else score in
  let score :=
    if nonempty (education r) then
      let edu_completeness :=
        fold_left (fun acc edu => acc + edu_filled edu) (education r) 0 in
      score + edu_completeness / Qofnat (length (education r)) * 2
    else score in
  let score :=
    if nonempty (skills r) && (5 <=? length (skills r)) then score + 2
    else if nonempty (skills r) then score + 1
    else score in
  let score := if summary_longer 100 r then score + 1 else score in
  Qmin 10 score.

Definition _identify_red_flags (r : Resume) : list str :=
  if truthy (raw_text r) then
    let text_lower := lower (raw_text r) in
    map (fun flag =>
           lit "Contains '" ++ flag ++ lit "' which may hurt ATS performance")
        (filter (fun flag => contains flag text_lower) ats_red_flags)
  else [].

Definition _identify_missing_elements (r : Resume) : list str :=
  let missing := [] in
  let missing := append_if (negb (otruthy (name r))) [lit "Name"] missing in
  let missing :=
    append_if (negb (otruthy (email r))) [lit "Email address"] missing in
  let missing :=
    append_if (negb (otruthy (phone r))) [lit "Phone number"] missing in
  let missing :=
    append_if (negb (otruthy (location r))) [lit "Location"] missing in
  let missing :=
    append_if (negb (otruthy (summary r))) [lit "Professional summary"]
              missing in
  let missing :=
    append_if (negb (nonempty (skills r)) || (length (skills r) <? 5))
              [lit "Sufficient skills (aim for 5+ relevant skills)"]
              missing in
  let missing :=
    append_if (negb (nonempty (experience r))) [lit "Work experience"]
              missing in
  append_if (negb (nonempty (education r))) [lit "Education section"] missing.

Record DetailedScores := mkDetailedScores {
  keyword_score : Q;
  format_score : Q;
  structure_score : Q;
  content_score : Q;
  completeness_score : Q
}.

(** The [analysis] dictionary.  The two report-only entries
    [keyword_density] and [format_compliance] are not modelled. *)
Record Analysis := mkAnalysis {
  ats_score : Q;
  red_flags : list str;
  missing_elements : list str;
  recommendations : list str;
  detailed_scores : DetailedScores
}.

Definition _generate_ats_recommendations (r : Resume) (analysis : Analysis)
  : list str :=
  let scores := detailed_scores analysis in
  let recommendations := [] in
  let recommendations :=
    append_if (Qltb (keyword_score scores) 6)
      [lit "Add more relevant keywords from job descriptions in your field";
       lit "Include both technical and soft skills keywords"]
      recommendations in
  let recommendations :=
    append_if (Qltb (format_score scores) 7)
      [lit "Use standard section headers (Experience, Education, Skills)";
       lit "Ensure consistent formatting throughout the document"]
      recommendations in
  let recommendations :=
    append_if (Qltb (structure_score scores) 7)
      [lit "Organize experience in reverse chronological order";
       lit "Use bullet points for better readability"]
      recommendations in
  let recommendations :=
    append_if (Qltb (content_score scores) 6)
      [lit "Quantify your achievements with specific numbers and percentages";
       lit "Use strong action verbs to describe your accomplishments"]
      recommendations in
  let recommendations :=
    append_if (Qltb (completeness_score scores) 7)
      [lit "Ensure all contact information is complete and professional";
       lit "Add detailed descriptions for each work experience"]
      recommendations in
  let recommendations :=
    append_if (nonempty (red_flags analysis))
      [lit "Remove any personal information not relevant to the job";
       lit "Avoid using 'References available upon request'"]
      recommendations in
  let recommendations :=
    append_if (nonempty (missing_elements analysis))
      [lit "Add missing elements: "
       ++ join (lit ", ") (firstn 3 (missing_elements analysis))]
      recommendations in
  firstn 8 recommendations.

(** [sum(score * weights[component] for component, score in ...)] *)
Definition weighted_total (scores : DetailedScores) : Q :=
  Qsum [keyword_score scores * (25 # 100);
        format_score scores * (20 # 100);
        structure_score scores * (20 # 100);
        content_score scores * (20 # 100);
        completeness_score scores * (15 # 100)].

Definition analyze (r : Resume) : Analysis :=
  let scores :=
    mkDetailedScores (_calculate_keyword_score r) (_calculate_format_score r)
                     (_calculate_structure_score r)
                     (_calculate_content_score r)
                     (_calculate_completeness_score r) in
  let analysis := mkAnalysis (weighted_total scores) [] [] [] scores in
  let analysis :=
    mkAnalysis (ats_score analysis) (_identify_red_flags r)
               (missing_elements analysis) (recommendations analysis)
               (detailed_scores analysis) in
  let analysis :=
    mkAnalysis (ats_score analysis) (red_flags analysis)
               (_identify_missing_elements r) (recommendations analysis)
               (detailed_scores analysis) in
  mkAnalysis (ats_score analysis) (red_flags analysis)
             (missing_elements analysis)
             (_generate_ats_recommendations r analysis)
             (detailed_scores analysis).

End ats_analyzer.

(** ** The dashboard pipeline ([dashboard.py], [test_dashboard.py])

    The three analyzers, then [score_resume] and
    [generate_recommendations], then the ATS analysis. *)

Definition dashboard (now : Z * Z) (resume_text filename : str)
  : option (Resume * ats_analyzer.Analysis) :=
  resume <- pipeline resume_text filename ;;
  let resume := scoring.score_resume now resume in
  let resume := scoring.generate_recommendations resume in
  Some (resume, ats_analyzer.analyze resume).

(** ** Reference statements used by the properties *)

(** The text of the worked example of the specification. *)
Definition scenario_text : str :=
  lit "John Smith\njohn@example.com\n555-123-4567\nSKILLS\nPython, SQL, Leadership\nEXPERIENCE\nAcme Corp - Engineer\n2020 - Present\n- Built things".

(** The seven groups of ATS recommendations in the order in which the
    specification lists them: keyword, format, structure, content,
    completeness, red-flag, missing-element. *)
Definition recommendation_groups (analysis : ats_analyzer.Analysis)
  : list (list str) :=
  let scores := ats_analyzer.detailed_scores analysis in
  [ if Qltb (ats_analyzer.keyword_score scores) 6
    then [lit "Add more relevant keywords from job descriptions in your field";
          lit "Include both technical and soft skills keywords"]
    else [];
    if Qltb (ats_analyzer.format_score scores) 7
    then [lit "Use standard section headers (Experience, Education, Skills)";
          lit "Ensure consistent formatting throughout the document"]
    else [];
    if Qltb (ats_analyzer.structure_score scores) 7
    then [lit "Organize experience in reverse chronological order";
          lit "Use bullet points for better readability"]
    else [];
    if Qltb (ats_analyzer.content_score scores) 6
    then [lit "Quantify your achievements with specific numbers and percentages";
          lit "Use strong action verbs to describe your accomplishments"]
    else [];
    if Qltb (ats_analyzer.completeness_score scores) 7
    then [lit "Ensure all contact information is complete and professional";
          lit "Add detailed descriptions for each work experience"]
    else [];
    if nonempty (ats_analyzer.red_flags analysis)
    then [lit "Remove any personal information not relevant to the job";
          lit "Avoid using 'References available upon request'"]
    else [];
    if nonempty (ats_analyzer.missing_elements analysis)
    then [lit "Add missing elements: "
          ++ join (lit ", ") (firstn 3 (ats_analyzer.missing_elements analysis))]
    else [] ].

(** Duplicate-freeness as a computation. *)
Fixpoint nodupb (l : list str) : bool :=
  match l with
  | [] => true
  | x :: l' => negb (mem x l') && nodupb l'
  end.


(** Ascending order of strings, strict. *)
Definition str_lt (a b : str) : Prop := str_ltb a b = true.

(** A score on the scale of the analyzers. *)
Definition in_0_10 (x : Q) : Prop := 0 <= x <= 10.

(** [r'] differs from [r] at most in its recommendations. *)
Definition same_but_recommendations (r r' : Resume) : Prop :=
  skills r' = skills r
  /\ experience r' = experience r
  /\ education r' = education r
  /\ skill_scores r' = skill_scores r
  /\ experience_score r' = experience_score r
  /\ education_score r' = education_score r
  /\ overall_score r' = overall_score r.

Definition resolved_company (e : Experience) : Prop := exp_company e <> [].
Definition resolved_institution (e : Education) : Prop :=
  edu_institution e <> [].

(** [r'] extends [r] by experience and education records whose
    organisation is resolved, and has the same skills. *)
Definition grows (r r' : Resume) : Prop :=
  skills r' = skills r
  /\ skill_scores r' = skill_scores r
  /\ (exists es, experience r' = experience r ++ es
                 /\ Forall resolved_company es)
  /\ (exists ds, education r' = education r ++ ds
                 /\ Forall resolved_institution ds).



(** The two experience records the pipeline builds from the example. *)
Definition scenario_first : Experience :=
  mkExperience (lit "Acme Corp") (lit "Engineer") None None None None [].

Definition scenario_second : Experience :=
  mkExperience (lit "2020") (lit "Present") (Some (lit "2020"))
               (Some (lit "Present")) None None [].

(** ** Further definitions: file types ([parsers/parser_factory.py]) *)

Module parser_factory.

Inductive parser := PDFParser | DocxParser | TextParser.

Definition SUPPORTED_EXTENSIONS : list (str * parser) :=
  [ (lit ".pdf", PDFParser);
    (lit ".docx", DocxParser);
    (lit ".doc", DocxParser);
    (lit ".txt", TextParser);
    (lit ".rtf", TextParser) ].

(** [s.rfind(c)] for one character: the last index of [c], or -1. *)
Fixpoint rfind_from (c : char) (s : str) (i : Z) (last : Z) : Z :=
  match s with
  | [] => last
  | x :: s' => rfind_from c s' (i + 1) (if (x =? c)%N then i else last)
  end.

Definition rfind (c : char) (s : str) : Z := rfind_from c s 0 (-1).

(** [os.path.splitext] on a POSIX path: the extension starts at the last
    dot of the last component, unless only dots precede it there. *)
Definition splitext (p : str) : str * str :=
  let sepIndex := rfind (chr "/") p in
  let dotIndex := rfind (chr ".") p in
  if (sepIndex <? dotIndex)%Z then
    let stem := slice (Z.to_nat (sepIndex + 1)) (Z.to_nat dotIndex) p in
    if existsb (fun c => negb (c =? chr ".")%N) stem
    then (firstn (Z.to_nat dotIndex) p, skipn (Z.to_nat dotIndex) p)
    else (p, [])
  else (p, []).

(** [SUPPORTED_EXTENSIONS[ext]], failing on a missing key. *)
Definition lookup_parser (ext : str) : option parser :=
  option_map snd (find (fun kv => str_eqb (fst kv) ext) SUPPORTED_EXTENSIONS).

(** [get_parser]: the kind of parser built; [None] is the [ValueError]
    raised for an unsupported type. *)
Definition get_parser (file_path : str) : option parser :=
  let ext := snd (splitext (lower file_path)) in
  if negb (mem ext (map fst SUPPORTED_EXTENSIONS)) then None
  else lookup_parser ext.

Definition is_supported_file (file_path : str) : bool :=
  let ext := snd (splitext (lower file_path)) in
  mem ext (map fst SUPPORTED_EXTENSIONS).


End parser_factory.

(** ** Further definitions: the RTF fallback ([parsers/text_parser.py]) *)

Module text_parser.

(** [c.isalpha()] on one code point (letters below 256). *)
Definition isalpha (c : char) : bool :=
  is_ascii_upper c || is_ascii_lower c
  || (c =? 170)%N || (c =? 181)%N || (c =? 186)%N
  || (in_range 192 255 c && negb (c =? 215)%N && negb (c =? 247)%N).

(** The [while] loop of the fallback of [_parse_rtf], as a scan of the
    text that remains.  [in_text] is the flag of the source; [in_command]
    holds between the backslash of a command and the first character that
    is not a letter, which the loop's final [i += 1] skips as well.  The
    characters appended to [text] are returned in order. *)
Fixpoint strip_markup (in_text in_command : bool) (rtf_text : str) : str :=
  match rtf_text with
  | [] => []
  | c :: rest =>
      if in_command then
        if isalpha c then strip_markup in_text true rest
        else strip_markup in_text false rest
      else if (c =? chr "{")%N && negb in_text then
        strip_markup true false rest
      else if (c =? chr "}")%N && in_text then
        strip_markup false false rest
      else if (c =? 92)%N && in_text then
        strip_markup in_text true rest
      else if in_text then c :: strip_markup in_text false rest
      else strip_markup in_text false rest
  end.

(** The fallback of [_parse_rtf] applied to the text read from the file. *)
Definition parse_rtf_fallback (rtf_text : str) : str :=
  if startswith (chr "{" :: 92%N :: lit "rtf") rtf_text
  then strip_markup false false rtf_text
  else rtf_text.

End text_parser.

(** ** Further reference statements *)

(** [s] has no white space at either end. *)
Definition trimmed (s : str) : Prop := strip s = s.

(** [x] occurs in [s] as it stands. *)
Definition occurs_in (x s : str) : Prop := contains x s = true.

(** [x] is [s] with some characters left out. *)
Inductive subsequence : str -> str -> Prop :=
| sub_nil : subsequence [] []
| sub_skip : forall c x s, subsequence x s -> subsequence x (c :: s)
| sub_keep : forall c x s, subsequence x s -> subsequence (c :: x) (c :: s).

(** The experience record that [experience_of_entry] builds from an entry
    whose company is [company]. *)
Definition experience_record (entry company title : str) : Experience :=
  mkExperience company title
    (fst (experience_analyzer._extract_dates entry))
    (snd (experience_analyzer._extract_dates entry))
    (experience_analyzer._extract_location entry)
    (fst (experience_analyzer._extract_description_responsibilities entry))
    (snd (experience_analyzer._extract_description_responsibilities entry)).

(** The education record that [education_of_entry] builds. *)
Definition education_record (entry institution degree : str)
    (field : option str) : Education :=
  mkEducation institution degree field
    (fst (experience_analyzer._extract_dates entry))
    (snd (experience_analyzer._extract_dates entry))
    (experience_analyzer._extract_gpa entry)
    (experience_analyzer._extract_location entry)
    (experience_analyzer._extract_education_description entry).

(** A record as [extract_experience] appends it: built from some entry
    whose company came out non-empty. *)
Definition extracted_experience (e : Experience) : Prop :=
  exists entry company title,
    experience_analyzer._extract_company_title entry = Some (company, title)
    /\ truthy company = true
    /\ e = experience_record entry company title.

Definition extracted_education (e : Education) : Prop :=
  exists entry institution degree field,
    experience_analyzer._extract_institution_degree entry
    = Some (institution, degree)
    /\ truthy institution = true
    /\ experience_analyzer._extract_field_of_study entry degree = Some field
    /\ e = education_record entry institution degree field.

(** [r'] has the records of [r] followed by extracted ones, and the
    recommendations of [r]. *)
Definition extends (r r' : Resume) : Prop :=
  recommendations r' = recommendations r
  /\ (exists es, experience r' = experience r ++ es
                 /\ Forall extracted_experience es)
  /\ (exists ds, education r' = education r ++ ds
                 /\ Forall extracted_education ds).

(** The recommendations are pairwise distinct and none is empty. *)
Definition recommendations_ok (r : Resume) : Prop :=
  NoDup (recommendations r) /\ ~ In [] (recommendations r).

(** The entries of [split_lines] once the pending lines are closed, as
    [line_start_entries] closes them after the loop. *)
Definition closed_entries (entries current_entry : list str) : list str :=
  if nonempty current_entry
  then entries ++ [join nl current_entry] else entries.

(** The text of the entries [done] followed by the lines still to read. *)
Definition followed_by (done lines : list str) : str :=
  match done, lines with
  | [], _ => join nl lines
  | _, [] => join nl done
  | _, _ => join nl done ++ nl ++ join nl lines
  end.

(** Some line of the text contains one of the headers, case ignored. *)
Definition has_header_line (headers : list str) (text : str) : Prop :=
  exists line, In line (split_char newline text)
               /\ is_header headers (strip (lower line)) = true.

(** What the content analyzer fills in, with the text it reads. *)
Definition contact_details (r : Resume) :=
  (raw_text r, (name r, email r, phone r),
   (location r, linkedin r, website r), summary r).



(** The line [_identify_red_flags] reports for a flagged phrase. *)
Definition red_flag_line (flag : str) : str :=
  lit "Contains '" ++ flag ++ lit "' which may hurt ATS performance".

(** The advice the experience analyzer owes to an experience record. *)
Definition advice_for_experience (exp : Experience) : list str :=
  (if negb (nonempty (exp_responsibilities exp))
   then [lit "Add bullet points describing your responsibilities and achievements at "
         ++ exp_company exp ++ lit "."]
   else if length (exp_responsibilities exp) <? 3
   then [lit "Add more bullet points for your role at " ++ exp_company exp
         ++ lit " to highlight your achievements."]
   else [])
  ++ (if negb (otruthy (exp_start_date exp))
         || negb (otruthy (exp_end_date exp))
      then [lit "Add specific dates for your position at "
            ++ exp_company exp ++ lit "."]
      else []).

(** Every line of [entry] is a line of [text]. *)
Definition lines_from (text entry : str) : Prop :=
  incl (split_char newline entry) (split_char newline text).

(** [x] is empty or occurs in one of the lines. *)
Definition quoted_in (lines : list str) (x : str) : Prop :=
  x = [] \/ exists line, In line lines /\ occurs_in x line.

(** Records built from an entry that satisfies [P]. *)
Definition experience_from (P : str -> Prop) (e : Experience) : Prop :=
  exists entry company title,
    P entry
    /\ experience_analyzer._extract_company_title entry
       = Some (company, title)
    /\ e = experience_record entry company title.

Definition education_from (P : str -> Prop) (e : Education) : Prop :=
  exists entry institution degree field,
    P entry
    /\ experience_analyzer._extract_institution_degree entry
       = Some (institution, degree)
    /\ experience_analyzer._extract_field_of_study entry degree = Some field
    /\ e = education_record entry institution degree field.

(** A date pair as [_extract_dates] returns it: both dates or none, and
    an end date that is never the word "Current" or "Now". *)
Definition date_pair_ok (start_date end_date : option str) : Prop :=
  match start_date, end_date with
  | Some _, Some e => e <> lit "Current" /\ e <> lit "Now"
  | None, None => True
  | _, _ => False
  end.

(** * Properties *)

(** ** Strings *)

Lemma str_eqb_eq : forall a b, str_eqb a b = true <-> a = b.
Proof.
  intros a b. unfold str_eqb.
  destruct (list_eq_dec N.eq_dec a b); split; congruence.
Qed.

Lemma mem_In : forall x l, mem x l = true <-> In x l.
Proof.
  intros x l. unfold mem. rewrite existsb_exists. split.
  - intros [y [Hin Heq]]. apply str_eqb_eq in Heq. subst. assumption.
  - intros Hin. exists x. split; [assumption | now apply str_eqb_eq].
Qed.

Lemma mem_false_not_In : forall x l, mem x l = false <-> ~ In x l.
Proof.
  intros x l. rewrite <- mem_In. destruct (mem x l); split; congruence.
Qed.

Lemma startswith_app : forall p s, startswith p (p ++ s) = true.
Proof.
  induction p as [|c p IH]; intros s; simpl.
  - reflexivity.
  - rewrite N.eqb_refl. apply IH.
Qed.

Lemma nodupb_NoDup : forall l, nodupb l = true -> NoDup l.
Proof.
  induction l as [|x l IH]; simpl; intros H.
  - constructor.
  - apply andb_prop in H as [Hx Hl]. constructor.
    + apply mem_false_not_In. now apply negb_true_iff.
    + now apply IH.
Qed.

Lemma NoDup_firstn_keeps : forall (n : nat) (l : list str),
  NoDup l -> NoDup (firstn n l).
Proof.
  intros n l H. rewrite <- (firstn_skipn n l) in H.
  now apply NoDup_app_remove_r in H.
Qed.

(** ** Tenure of a dated experience *)

Lemma parse_date_Jan_2020 :
  scoring.parse_date scoring.formats (lit "Jan 2020") = Some (2020, 1)%Z.
Proof. vm_compute. reflexivity. Qed.

Lemma parse_date_Jan_2022 :
  scoring.parse_date scoring.formats (lit "Jan 2022") = Some (2022, 1)%Z.
Proof. vm_compute. reflexivity. Qed.

(** C7.  For every experience record whose start date is "Jan 2020" and
    whose end date is "Jan 2022", one turn of the duration loop of
    [score_experience] adds exactly 24 to the accumulator [total_months],
    whatever the current date and the other fields of the record. *)
Theorem C7_jan_2020_to_jan_2022_adds_24_months :
  forall (now : Z * Z) (total_months : Z) (exp : Experience),
    exp_start_date exp = Some (lit "Jan 2020") ->
    exp_end_date exp = Some (lit "Jan 2022") ->
    scoring.add_months now total_months exp = (total_months + 24)%Z.
Proof.
  intros now total exp Hs He.
  unfold scoring.add_months.
  rewrite Hs, He.
  rewrite parse_date_Jan_2020, parse_date_Jan_2022.
  reflexivity.
Qed.

Lemma C7_witness :
  let exp := mkExperience (lit "Acme Corp") (lit "Engineer")
                          (Some (lit "Jan 2020")) (Some (lit "Jan 2022"))
                          None None [] in
  exp_start_date exp = Some (lit "Jan 2020")
  /\ exp_end_date exp = Some (lit "Jan 2022")
  /\ scoring.add_months (2026, 11)%Z 36 exp = 60%Z.
Proof.
  intros exp. split; [reflexivity | split; [reflexivity |]].
  apply (C7_jan_2020_to_jan_2022_adds_24_months (2026, 11)%Z 36 exp);
    reflexivity.
Defined.

(** ** ATS recommendations *)

Lemma missing_line_is_new : forall x canned,
  forallb (fun c => negb (startswith (lit "Add missing elements: ") c)) canned
  = true ->
  ~ In (lit "Add missing elements: " ++ x) canned.
Proof.
  intros x canned H Hin.
  rewrite forallb_forall in H. specialize (H _ Hin).
  rewrite startswith_app in H. discriminate.
Qed.

Lemma NoDup_snoc : forall (l : list str) x,
  NoDup l -> ~ In x l -> NoDup (l ++ [x]).
Proof.
  intros l x Hl Hx. apply NoDup_app. repeat split.
  - assumption.
  - repeat constructor. intros [].
  - intros a Ha [Hax | []]. subst. contradiction.
Qed.

Lemma generated_is_concat : forall r analysis,
  ats_analyzer._generate_ats_recommendations r analysis
  = firstn 8 (concat (recommendation_groups analysis)).
Proof.
  intros r analysis.
  unfold ats_analyzer._generate_ats_recommendations, recommendation_groups,
    append_if.
  f_equal.
  destruct (Qltb (ats_analyzer.keyword_score _) 6),
           (Qltb (ats_analyzer.format_score _) 7),
           (Qltb (ats_analyzer.structure_score _) 7),
           (Qltb (ats_analyzer.content_score _) 6),
           (Qltb (ats_analyzer.completeness_score _) 7),
           (nonempty (ats_analyzer.red_flags analysis)),
           (nonempty (ats_analyzer.missing_elements analysis));
    reflexivity.
Qed.

Lemma groups_NoDup : forall analysis,
  NoDup (concat (recommendation_groups analysis)).
Proof.
  intros analysis. unfold recommendation_groups.
  set (m := lit "Add missing elements: " ++ _).
  destruct (Qltb (ats_analyzer.keyword_score _) 6),
           (Qltb (ats_analyzer.format_score _) 7),
           (Qltb (ats_analyzer.structure_score _) 7),
           (Qltb (ats_analyzer.content_score _) 6),
           (Qltb (ats_analyzer.completeness_score _) 7),
           (nonempty (ats_analyzer.red_flags analysis)),
           (nonempty (ats_analyzer.missing_elements analysis));
    cbn [concat app];
    match goal with
    | |- NoDup (?a :: ?l) =>
        first
          [ apply nodupb_NoDup; vm_compute; reflexivity
          | idtac ]
    | |- NoDup [] => constructor
    end.
Qed.

(** C8.  For every resume and every ATS analysis result, the list of ATS
    recommendations has at most 8 items, has no duplicate, and is the
    beginning of the recommendations in generation order: keyword, format,
    structure, content, completeness, red-flag, missing-element. *)
Theorem C8_ats_recommendations_capped_unique_ordered :
  forall (r : Resume) (analysis : ats_analyzer.Analysis),
    let recs := ats_analyzer._generate_ats_recommendations r analysis in
    (length recs <= 8)%nat
    /\ NoDup recs
    /\ recs = firstn 8 (concat (recommendation_groups analysis)).
Proof.
  intros r analysis recs. subst recs.
  rewrite generated_is_concat. repeat split.
  - apply firstn_le_length.
  - apply NoDup_firstn_keeps, groups_NoDup.
Qed.

(** ** The worked example *)

(** C2, as the code behaves.  On the example text the pipeline finds the
    name, the e-mail address, the phone number and the three skills, and
    it produces two experience records: the line that starts with a year
    opens a second entry, and no record has a responsibility. *)
Theorem C2_scenario_profile :
  forall filename : str,
  exists r : Resume,
    pipeline scenario_text filename = Some r
    /\ name r = Some (lit "John Smith")
    /\ email r = Some (lit "john@example.com")
    /\ phone r = Some (lit "555-123-4567")
    /\ skills r = [lit "Leadership"; lit "Python"; lit "SQL"]
    /\ experience r = [scenario_first; scenario_second].
Proof.
  intros filename. eexists. split.
  - vm_compute. reflexivity.
  - repeat split; vm_compute; reflexivity.
Qed.

(** The example as the specification words it fails: there is no single
    experience record with the company, title, dates and responsibility
    it names. *)
Lemma C2_counterexample :
  exists r : Resume,
    pipeline scenario_text (lit "resume.txt") = Some r
    /\ ~ (exists e : Experience,
            experience r = [e]
            /\ exp_company e = lit "Acme Corp"
            /\ exp_title e = lit "Engineer"
            /\ exp_start_date e = Some (lit "2020")
            /\ exp_end_date e = Some (lit "Present")
            /\ exp_responsibilities e = [lit "Built things"]).
Proof.
  eexists. split.
  - vm_compute. reflexivity.
  - intros [e [H _]]. vm_compute in H. discriminate H.
Qed.

(** ** Empty input *)


(** ** End tokens of a date range *)




(** ** Section bodies have no blank line *)

Lemma split_char_pieces : forall sep s,
  Forall (fun piece => ~ In sep piece) (split_char sep s).
Proof.
  intros sep s. induction s as [|c s IH]; simpl.
  - repeat constructor. intros [].
  - destruct (N.eqb_spec c sep) as [Heq | Hne].
    + constructor; [intros [] | exact IH].
    + destruct (split_char sep s) as [|piece pieces].
      * repeat constructor. intros [H | []]. congruence.
      * inversion IH as [|? ? Hp Hps]; subst. constructor; [|assumption].
        intros [H | H]; [congruence | contradiction].
Qed.

Lemma Forall_slice : forall (A : Type) (P : A -> Prop) a b (l : list A),
  Forall P l -> Forall P (slice a b l).
Proof.
  intros A P a b l H. unfold slice.
  apply Forall_forall. intros x Hx.
  rewrite Forall_forall in H. apply H.
  rewrite <- (firstn_skipn a l). apply in_or_app. right.
  rewrite <- (firstn_skipn (b - a) (skipn a l)). apply in_or_app. now left.
Qed.

Lemma strip_nil : strip [] = [].
Proof. reflexivity. Qed.

(** A line kept by the filter of [_extract_section] is not empty. *)
Lemma kept_line_nonempty : forall line,
  truthy (strip line) = true -> line <> [].
Proof.
  intros line H Hnil. subst. discriminate H.
Qed.

Lemma contains_skip_line : forall sub line rest,
  ~ In newline line ->
  contains (newline :: sub) (line ++ rest) = contains (newline :: sub) rest.
Proof.
  intros sub line rest. induction line as [|c line IH]; intros Hnl.
  - reflexivity.
  - change ((c :: line) ++ rest) with (c :: (line ++ rest)).
    cbn [contains startswith].
    destruct (N.eqb_spec newline c) as [Heq | Hne].
    + exfalso. apply Hnl. now left.
    + cbn [andb orb]. apply IH. intros Hin. apply Hnl. now right.
Qed.

(** The joined text of non-empty lines without line feed starts with one
    of their characters. *)
Lemma join_head : forall line lines,
  line <> [] -> ~ In newline line ->
  exists c rest, join nl (line :: lines) = c :: rest /\ c <> newline.
Proof.
  intros line lines Hne Hnl.
  destruct line as [|c line]; [congruence|].
  exists c. destruct lines as [|l2 ls]; cbn [join app].
  - exists line. split; [reflexivity|]. intros ->. apply Hnl. now left.
  - eexists. split; [reflexivity|]. intros ->. apply Hnl. now left.
Qed.

Lemma join_no_blank_line : forall lines,
  Forall (fun line => ~ In newline line /\ line <> []) lines ->
  contains (nl ++ nl) (join nl lines) = false.
Proof.
  induction lines as [|line lines IH]; intros H.
  - reflexivity.
  - inversion H as [|? ? [Hnl Hne] Hrest]; subst.
    destruct lines as [|l2 ls].
    + cbn [join]. rewrite <- (app_nil_r line).
      change (nl ++ nl) with (newline :: nl).
      rewrite contains_skip_line by assumption. reflexivity.
    + change (join nl (line :: l2 :: ls))
        with (line ++ nl ++ join nl (l2 :: ls)).
      change (nl ++ nl) with (newline :: nl).
      rewrite contains_skip_line by assumption.
      specialize (IH Hrest).
      inversion Hrest as [|? ? [Hnl2 Hne2] _]; subst.
      destruct (join_head ls Hne2 Hnl2) as [c [rest [Hj Hc]]].
      rewrite Hj in *.
      change (nl ++ c :: rest) with (newline :: c :: rest).
      change (nl ++ nl) with (newline :: nl) in IH.
      assert (Hf : (newline =? c)%N = false)
        by (apply N.eqb_neq; congruence).
      change nl with [newline] in IH |- *.
      cbn [contains startswith] in IH |- *.
      rewrite Hf in IH |- *. rewrite N.eqb_refl.
      cbn [andb orb] in IH |- *. exact IH.
Qed.

Lemma extract_section_body : forall text headers body,
  experience_analyzer._extract_section text headers = Some body ->
  exists lines,
    body = join nl lines
    /\ Forall (fun line => ~ In newline line /\ line <> []) lines.
Proof.
  intros text headers body H.
  unfold experience_analyzer._extract_section in H.
  destruct (scan_section _ _ _ _ _) as [[start|] e]; [|discriminate].
  injection H as <-. eexists. split; [reflexivity|].
  apply Forall_forall. intros line Hin.
  apply filter_In in Hin as [Hin Hkeep]. split.
  - revert Hin. generalize (match e with
                            | Some i => i
                            | None => length (split_char newline text)
                            end).
    intros stop Hin.
    pose proof (Forall_slice start stop (split_char_pieces newline text)) as Hs.
    rewrite Forall_forall in Hs. now apply Hs.
  - now apply kept_line_nonempty.
Qed.

(** C10.  For every text and every list of headers, the body returned by
    [_extract_section] contains no blank line; hence on such a body the
    first rule of the entry splitter yields nothing and the entries are
    those of the second rule (or the whole body). *)
Theorem C10_section_body_has_no_blank_line :
  forall (text : str) (headers : list str) (body : str),
    experience_analyzer._extract_section text headers = Some body ->
    contains (nl ++ nl) body = false
    /\ experience_analyzer.blank_line_entries body = []
    /\ experience_analyzer._split_section_into_entries body
       = (if nonempty (experience_analyzer.line_start_entries body)
          then experience_analyzer.line_start_entries body
          else [body]).
Proof.
  intros text headers body H.
  destruct (extract_section_body _ _ H) as [lines [-> Hlines]].
  pose proof (join_no_blank_line Hlines) as Hno.
  assert (Hb : experience_analyzer.blank_line_entries (join nl lines) = []).
  { unfold experience_analyzer.blank_line_entries. now rewrite Hno. }
  repeat split; try assumption.
  unfold experience_analyzer._split_section_into_entries.
  rewrite Hb. reflexivity.
Qed.

Lemma C10_witness :
  experience_analyzer._extract_section
    scenario_text experience_analyzer.experience_headers
  = Some (lit "Acme Corp - Engineer\n2020 - Present\n- Built things")
  /\ contains (nl ++ nl)
       (lit "Acme Corp - Engineer\n2020 - Present\n- Built things") = false.
Proof.
  assert (H : experience_analyzer._extract_section
                scenario_text experience_analyzer.experience_headers
              = Some (lit "Acme Corp - Engineer\n2020 - Present\n- Built things"))
    by (vm_compute; reflexivity).
  split; [exact H |].
  exact (proj1 (C10_section_body_has_no_blank_line _ _ H)).
Defined.

(** ** What each stage leaves alone *)

Lemma add_recommendation_keeps : forall rec r,
  same_but_recommendations r (add_recommendation rec r).
Proof.
  intros rec r. unfold add_recommendation, same_but_recommendations.
  destruct (truthy rec && negb (mem rec (recommendations r)));
    repeat split; reflexivity.
Qed.

Lemma assign_keeps : forall (A B : Type) (f : Resume -> B)
    (set : option A -> Resume -> Resume) (o : option A) (r : Resume),
  (forall v r, f (set v r) = f r) ->
  f (content_analyzer.assign set o r) = f r.
Proof.
  intros A B f set o r H. unfold content_analyzer.assign.
  destruct o; [apply H | reflexivity].
Qed.

Lemma extract_contact_info_keeps : forall (B : Type) (f : Resume -> B),
  (forall v r, f (set_name v r) = f r) ->
  (forall v r, f (set_email v r) = f r) ->
  (forall v r, f (set_phone v r) = f r) ->
  (forall v r, f (set_linkedin v r) = f r) ->
  (forall v r, f (set_website v r) = f r) ->
  (forall v r, f (set_location v r) = f r) ->
  forall r, f (content_analyzer.extract_contact_info r) = f r.
Proof.
  intros B f H1 H2 H3 H4 H5 H6 r.
  unfold content_analyzer.extract_contact_info. cbv zeta.
  rewrite (assign_keeps f set_location) by assumption.
  rewrite (assign_keeps f set_website) by assumption.
  rewrite (assign_keeps f set_linkedin) by assumption.
  rewrite (assign_keeps f set_phone) by assumption.
  rewrite (assign_keeps f set_email) by assumption.
  rewrite (assign_keeps f set_name) by assumption.
  reflexivity.
Qed.

Lemma extract_summary_keeps : forall (B : Type) (f : Resume -> B),
  (forall v r, f (set_summary v r) = f r) ->
  forall r, f (content_analyzer.extract_summary r) = f r.
Proof.
  intros B f H r. unfold content_analyzer.extract_summary.
  destruct (scan_section _ _ _ _ _) as [[start|] e]; [|reflexivity].
  cbv zeta. destruct (truthy _); [apply H | reflexivity].
Qed.

Lemma content_analyzer_keeps : forall r,
  experience (content_analyzer.analyze r) = experience r
  /\ education (content_analyzer.analyze r) = education r.
Proof.
  intros r. unfold content_analyzer.analyze. split.
  - rewrite (extract_summary_keeps experience) by reflexivity.
    apply (extract_contact_info_keeps experience); reflexivity.
  - rewrite (extract_summary_keeps education) by reflexivity.
    apply (extract_contact_info_keeps education); reflexivity.
Qed.

Ltac split_ifs :=
  repeat match goal with
         | |- context [if ?b then _ else _] => destruct b
         end.

Ltac forget_recommendation x r :=
  let H := fresh in
  pose proof (add_recommendation_keeps x r) as H;
  destruct H as (? & ? & ? & ? & ? & ? & ?);
  generalize dependent (add_recommendation x r); intros.

Ltac recommends_only :=
  cbv zeta; split_ifs;
  repeat match goal with
         | |- context [add_recommendation ?x ?r] => forget_recommendation x r
         | _ : context [add_recommendation ?x ?r] |- _ =>
             forget_recommendation x r
         end;
  repeat split; congruence.

Lemma skills_analyzer_score_skills_facts : forall r,
  let r' := skills_analyzer.score_skills r in
  skills r' = skills r
  /\ experience r' = experience r
  /\ education r' = education r
  /\ skill_scores r' = skills_analyzer.category_scores (skills r).
Proof.
  intros r r'. subst r'. unfold skills_analyzer.score_skills.
  generalize (skills_analyzer.category_scores (skills r)). intros scores.
  assert (H0 : skills (set_skill_scores scores r) = skills r
               /\ experience (set_skill_scores scores r) = experience r
               /\ education (set_skill_scores scores r) = education r
               /\ skill_scores (set_skill_scores scores r) = scores)
    by (repeat split).
  destruct H0 as (? & ? & ? & ?).
  generalize dependent (set_skill_scores scores r). intros r0 ? ? ? ?.
  recommends_only.
Qed.

Lemma set_add_NoDup : forall skill found,
  NoDup found -> NoDup (skills_analyzer.set_add skill found).
Proof.
  intros skill found H. unfold skills_analyzer.set_add.
  destruct (mem skill found) eqn:Hm; [assumption|].
  apply NoDup_snoc; [assumption | now apply mem_false_not_In].
Qed.

Lemma fold_left_keeps : forall (A B : Type) (P : A -> Prop)
    (f : A -> B -> A) (l : list B) (a : A),
  (forall a b, P a -> P (f a b)) -> P a -> P (fold_left f l a).
Proof.
  intros A B P f l. induction l as [|b l IH]; intros a Hf Ha; cbn [fold_left].
  - assumption.
  - apply IH; [assumption | now apply Hf].
Qed.

Lemma vocabulary_pass_NoDup : forall data text found,
  NoDup found -> NoDup (skills_analyzer.vocabulary_pass data text found).
Proof.
  intros data text found H. unfold skills_analyzer.vocabulary_pass.
  apply fold_left_keeps; [|assumption].
  intros acc category Hacc.
  apply fold_left_keeps; [|assumption].
  intros acc' skill Hacc'.
  destruct (re_search _ _ _); [now apply set_add_NoDup | assumption].
Qed.

Lemma section_pass_NoDup : forall delims section found,
  NoDup found -> NoDup (skills_analyzer.section_pass delims section found).
Proof.
  induction delims as [|delimiter rest IH]; intros section found H;
    cbn [skills_analyzer.section_pass].
  - assumption.
  - destruct (contains [delimiter] section); [|now apply IH].
    cbv zeta. apply fold_left_keeps; [|assumption].
    intros acc skill Hacc.
    destruct (_ && _); [now apply set_add_NoDup | assumption].
Qed.

Lemma extract_skills_facts : forall r data,
  let r' := skills_analyzer.extract_skills r data in
  experience r' = experience r /\ education r' = education r
  /\ exists found, NoDup found /\ skills r' = skills_analyzer.sorted found.
Proof.
  intros r data r'. subst r'. unfold skills_analyzer.extract_skills.
  cbv zeta. repeat split.
  eexists. split; [|reflexivity].
  destruct (skills_analyzer._extract_skills_section (raw_text r)) as [section|].
  - destruct (truthy section).
    + apply section_pass_NoDup, vocabulary_pass_NoDup. constructor.
    + apply vocabulary_pass_NoDup. constructor.
  - apply vocabulary_pass_NoDup. constructor.
Qed.

(** ** The scoring stage of the experience analyzer *)

Lemma same_refl : forall r, same_but_recommendations r r.
Proof. intros r. repeat split. Qed.

Lemma same_trans : forall r1 r2 r3,
  same_but_recommendations r1 r2 -> same_but_recommendations r2 r3 ->
  same_but_recommendations r1 r3.
Proof.
  intros r1 r2 r3 (a1 & a2 & a3 & a4 & a5 & a6 & a7)
                  (b1 & b2 & b3 & b4 & b5 & b6 & b7).
  repeat split; congruence.
Qed.

Lemma same_fold : forall (A : Type) (f : A -> Resume -> Resume) l r,
  (forall a r, same_but_recommendations r (f a r)) ->
  same_but_recommendations r (fold_left (fun r a => f a r) l r).
Proof.
  intros A f l. induction l as [|a l IH]; intros r Hf; cbn [fold_left].
  - apply same_refl.
  - eapply same_trans; [apply Hf | now apply IH].
Qed.

Lemma experience_recommendations_same : forall exp r,
  same_but_recommendations
    r (experience_analyzer.experience_recommendations exp r).
Proof.
  intros exp r. unfold experience_analyzer.experience_recommendations,
    same_but_recommendations.
  recommends_only.
Qed.

Lemma education_recommendations_same : forall edu r,
  same_but_recommendations
    r (experience_analyzer.education_recommendations edu r).
Proof.
  intros edu r. unfold experience_analyzer.education_recommendations,
    same_but_recommendations.
  recommends_only.
Qed.

Lemma add_recommendations_same : forall r,
  same_but_recommendations
    r (experience_analyzer._add_experience_education_recommendations r).
Proof.
  intros r.
  unfold experience_analyzer._add_experience_education_recommendations.
  set (r1 := if negb (nonempty (experience r)) then _ else _).
  assert (H1 : same_but_recommendations r r1).
  { subst r1. unfold same_but_recommendations. recommends_only. }
  clearbody r1. cbv zeta.
  set (r2 := fold_left _ (experience r1) r1).
  assert (H2 : same_but_recommendations r1 r2).
  { subst r2.
    apply (same_fold experience_analyzer.experience_recommendations).
    apply experience_recommendations_same. }
  clearbody r2.
  set (r3 := if negb (nonempty (education r2)) then _ else _).
  assert (H3 : same_but_recommendations r2 r3).
  { subst r3. unfold same_but_recommendations. recommends_only. }
  clearbody r3.
  set (r4 := fold_left _ (education r3) r3).
  assert (H4 : same_but_recommendations r3 r4).
  { subst r4.
    apply (same_fold experience_analyzer.education_recommendations).
    apply education_recommendations_same. }
  clearbody r4.
  eapply same_trans; [exact H1|]. eapply same_trans; [exact H2|].
  eapply same_trans; [exact H3|]. eapply same_trans; [exact H4|].
  unfold same_but_recommendations. recommends_only.
Qed.

(** ** Sorting the found skills *)

Lemma str_ltb_irrefl : forall a, str_ltb a a = false.
Proof.
  induction a as [|x a IH]; cbn [str_ltb].
  - reflexivity.
  - rewrite N.ltb_irrefl, N.eqb_refl, IH. reflexivity.
Qed.

Lemma str_ltb_total : forall a b,
  str_ltb a b = false -> a <> b -> str_ltb b a = true.
Proof.
  induction a as [|x a IH]; intros [|y b] Hlt Hne; cbn [str_ltb] in *;
    try congruence.
  apply orb_false_elim in Hlt as [Hxy Hrest].
  apply N.ltb_ge in Hxy.
  destruct (N.eqb_spec x y) as [-> | Hxy'].
  - rewrite N.ltb_irrefl, N.eqb_refl. cbn [orb andb] in *.
    apply IH; [assumption | congruence].
  - assert (Hlt : (y < x)%N) by lia.
    apply N.ltb_lt in Hlt. now rewrite Hlt.
Qed.

Lemma str_ltb_trans : forall a b c,
  str_ltb a b = true -> str_ltb b c = true -> str_ltb a c = true.
Proof.
  induction a as [|x a IH]; intros [|y b] [|z c] Hab Hbc;
    cbn [str_ltb] in *; try congruence.
  apply orb_true_iff in Hab, Hbc. apply orb_true_iff.
  destruct Hab as [Hxy | Hxy]; destruct Hbc as [Hyz | Hyz].
  - left. apply N.ltb_lt in Hxy, Hyz. apply N.ltb_lt. lia.
  - apply andb_true_iff in Hyz as [Heq _]. apply N.eqb_eq in Heq. subst.
    now left.
  - apply andb_true_iff in Hxy as [Heq _]. apply N.eqb_eq in Heq. subst.
    now left.
  - apply andb_true_iff in Hxy as [Heq1 H1].
    apply andb_true_iff in Hyz as [Heq2 H2].
    apply N.eqb_eq in Heq1, Heq2. subst. right.
    rewrite N.eqb_refl. cbn [andb]. eapply IH; eassumption.
Qed.

Lemma insert_sorted_In : forall x y l,
  In x (skills_analyzer.insert_sorted y l) <-> x = y \/ In x l.
Proof.
  intros x y l. induction l as [|z l IH]; cbn [skills_analyzer.insert_sorted].
  - cbn [In]. intuition congruence.
  - destruct (str_ltb z y); cbn [In]; [rewrite IH|]; intuition congruence.
Qed.

Lemma insert_sorted_NoDup : forall x l,
  NoDup l -> ~ In x l -> NoDup (skills_analyzer.insert_sorted x l).
Proof.
  intros x l. induction l as [|y l IH]; intros Hl Hx;
    cbn [skills_analyzer.insert_sorted].
  - repeat constructor. intros [].
  - inversion Hl as [|? ? Hy Hl']; subst.
    destruct (str_ltb y x).
    + constructor.
      * rewrite insert_sorted_In. intros [-> | Hin]; [|contradiction].
        apply Hx. now left.
      * apply IH; [assumption|]. intros Hin. apply Hx. now right.
    + constructor; assumption.
Qed.

Lemma insert_sorted_Sorted : forall x l,
  Sorted str_lt l -> ~ In x l ->
  Sorted str_lt (skills_analyzer.insert_sorted x l).
Proof.
  intros x l. induction l as [|y l IH]; intros Hl Hx;
    cbn [skills_analyzer.insert_sorted].
  - repeat constructor.
  - inversion Hl as [|? ? Hl' Hhd]; subst.
    destruct (str_ltb y x) eqn:Hyx.
    + constructor.
      * apply IH; [assumption|]. intros Hin. apply Hx. now right.
      * destruct l as [|z l]; cbn [skills_analyzer.insert_sorted].
        -- constructor. exact Hyx.
        -- destruct (str_ltb z x); constructor;
             [now inversion Hhd | exact Hyx].
    + constructor; [assumption|]. constructor.
      apply str_ltb_total; [assumption|].
      intros ->. apply Hx. now left.
Qed.

Lemma sorted_In : forall x l, In x (skills_analyzer.sorted l) <-> In x l.
Proof.
  intros x l. unfold skills_analyzer.sorted.
  induction l as [|y l IH]; cbn [fold_right In].
  - tauto.
  - rewrite insert_sorted_In, IH. intuition congruence.
Qed.

Lemma sorted_ascending : forall l,
  NoDup l ->
  NoDup (skills_analyzer.sorted l) /\ Sorted str_lt (skills_analyzer.sorted l).
Proof.
  induction l as [|x l IH]; intros H.
  - split; constructor.
  - inversion H as [|? ? Hx Hl]; subst.
    destruct (IH Hl) as [Hnd Hs].
    change (skills_analyzer.sorted (x :: l))
      with (skills_analyzer.insert_sorted x (skills_analyzer.sorted l)).
    assert (Hx' : ~ In x (skills_analyzer.sorted l)) by now rewrite sorted_In.
    split.
    + now apply insert_sorted_NoDup.
    + now apply insert_sorted_Sorted.
Qed.

Lemma sorted_strongly : forall l,
  NoDup l -> StronglySorted str_lt (skills_analyzer.sorted l).
Proof.
  intros l H. apply Sorted_StronglySorted.
  - intros a b c. apply str_ltb_trans.
  - now apply sorted_ascending.
Qed.

(** ** Records are created only with a resolved organisation *)

Lemma truthy_nonempty : forall s : str, truthy s = true -> s <> [].
Proof. intros [|c s] H; [discriminate | congruence]. Qed.

Lemma grows_refl : forall r, grows r r.
Proof.
  intros r. repeat split.
  - exists []. split; [now rewrite app_nil_r | constructor].
  - exists []. split; [now rewrite app_nil_r | constructor].
Qed.

Lemma grows_trans : forall r1 r2 r3, grows r1 r2 -> grows r2 r3 -> grows r1 r3.
Proof.
  intros r1 r2 r3 (a1 & a2 & (es1 & a3 & a4) & (ds1 & a5 & a6))
                  (b1 & b2 & (es2 & b3 & b4) & (ds2 & b5 & b6)).
  repeat split; try congruence.
  - exists (es1 ++ es2). split.
    + rewrite b3, a3. now rewrite app_assoc.
    + now apply Forall_app.
  - exists (ds1 ++ ds2). split.
    + rewrite b5, a5. now rewrite app_assoc.
    + now apply Forall_app.
Qed.

Lemma experience_of_entry_grows : forall entry r r',
  experience_analyzer.experience_of_entry entry r = Some r' -> grows r r'.
Proof.
  intros entry r r' H. unfold experience_analyzer.experience_of_entry in H.
  destruct (experience_analyzer._extract_company_title entry)
    as [[company title]|]; [|discriminate].
  destruct (truthy company) eqn:Hc; cbn [negb] in H.
  - destruct (experience_analyzer._extract_dates entry) as [start_date end_date].
    destruct (experience_analyzer._extract_description_responsibilities entry)
      as [description responsibilities].
    injection H as <-. repeat split.
    + eexists. split; [reflexivity|]. repeat constructor.
      now apply truthy_nonempty.
    + exists []. split; [now rewrite app_nil_r | constructor].
  - injection H as <-. apply grows_refl.
Qed.

Lemma education_of_entry_grows : forall entry r r',
  experience_analyzer.education_of_entry entry r = Some r' -> grows r r'.
Proof.
  intros entry r r' H. unfold experience_analyzer.education_of_entry in H.
  destruct (experience_analyzer._extract_institution_degree entry)
    as [[institution degree]|]; [|discriminate].
  destruct (truthy institution) eqn:Hc; cbn [negb] in H.
  - destruct (experience_analyzer._extract_field_of_study entry degree)
      as [field|]; [|discriminate].
    destruct (experience_analyzer._extract_dates entry) as [start_date end_date].
    injection H as <-. repeat split.
    + exists []. split; [now rewrite app_nil_r | constructor].
    + eexists. split; [reflexivity|]. repeat constructor.
      now apply truthy_nonempty.
  - injection H as <-. apply grows_refl.
Qed.

Lemma for_entries_grows : forall body entries r r',
  (forall entry r r', body entry r = Some r' -> grows r r') ->
  experience_analyzer.for_entries body entries r = Some r' -> grows r r'.
Proof.
  intros body entries. induction entries as [|entry rest IH];
    intros r r' Hbody H; cbn [experience_analyzer.for_entries] in H.
  - injection H as <-. apply grows_refl.
  - destruct (body entry r) as [r1|] eqn:H1; [|discriminate].
    eapply grows_trans; [eapply Hbody; eassumption | now apply IH].
Qed.

Lemma extract_experience_grows : forall r r',
  experience_analyzer.extract_experience r = Some r' -> grows r r'.
Proof.
  intros r r' H. unfold experience_analyzer.extract_experience in H.
  destruct (experience_analyzer._extract_section _ _) as [section|].
  - destruct (truthy section).
    + eapply for_entries_grows; [|exact H].
      apply experience_of_entry_grows.
    + injection H as <-. apply grows_refl.
  - injection H as <-. apply grows_refl.
Qed.

Lemma extract_education_grows : forall r r',
  experience_analyzer.extract_education r = Some r' -> grows r r'.
Proof.
  intros r r' H. unfold experience_analyzer.extract_education in H.
  destruct (experience_analyzer._extract_section _ _) as [section|].
  - destruct (truthy section).
    + eapply for_entries_grows; [|exact H].
      apply education_of_entry_grows.
    + injection H as <-. apply grows_refl.
  - injection H as <-. apply grows_refl.
Qed.

(** What [score_experience_education] computes and what it keeps. *)
Lemma score_experience_education_facts : forall r,
  let r' := experience_analyzer.score_experience_education r in
  skills r' = skills r
  /\ experience r' = experience r
  /\ education r' = education r
  /\ skill_scores r' = skill_scores r
  /\ experience_score r' = experience_analyzer._score_experience r
  /\ education_score r' = experience_analyzer._score_education r
  /\ overall_score r'
     = (5 # 10) * experience_analyzer._score_experience r
       + (3 # 10) * experience_analyzer._score_education r
       + (2 # 10) * Qsum (map snd (skill_scores r)).
Proof.
  intros r r'. subst r'.
  unfold experience_analyzer.score_experience_education. cbv zeta.
  match goal with
  | |- context [experience_analyzer._add_experience_education_recommendations ?x] =>
      pose proof (add_recommendations_same x) as (h1 & h2 & h3 & h4 & h5 & h6 & h7)
  end.
  rewrite h1, h2, h3, h4, h5, h6, h7. repeat split.
Qed.

(** The profile at the end of the pipeline. *)
Lemma pipeline_facts : forall text filename r,
  pipeline text filename = Some r ->
  (exists found, NoDup found /\ skills r = skills_analyzer.sorted found)
  /\ skill_scores r = skills_analyzer.category_scores (skills r)
  /\ Forall resolved_company (experience r)
  /\ Forall resolved_institution (education r)
  /\ experience_score r = experience_analyzer._score_experience r
  /\ education_score r = experience_analyzer._score_education r
  /\ overall_score r
     = (5 # 10) * experience_analyzer._score_experience r
       + (3 # 10) * experience_analyzer._score_education r
       + (2 # 10) * Qsum (map snd (skill_scores r)).
Proof.
  intros text filename r H. unfold pipeline in H. cbv zeta in H.
  set (r0 := new_Resume text filename) in H.
  pose proof (content_analyzer_keeps r0) as [c1 c2].
  set (r1 := content_analyzer.analyze r0) in *.
  unfold skills_analyzer.analyze in H.
  pose proof (extract_skills_facts r1 skills_analyzer._load_skills_data)
    as (e1 & e2 & found & e3 & e4).
  set (r2 := skills_analyzer.extract_skills r1 _) in *.
  pose proof (skills_analyzer_score_skills_facts r2) as (s1 & s2 & s3 & s4).
  set (r3 := skills_analyzer.score_skills r2) in *.
  unfold experience_analyzer.analyze in H.
  destruct (experience_analyzer.extract_experience r3) as [r4|] eqn:H4;
    [|discriminate].
  destruct (experience_analyzer.extract_education r4) as [r5|] eqn:H5;
    [|discriminate].
  injection H as <-.
  apply extract_experience_grows in H4.
  apply extract_education_grows in H5.
  pose proof (grows_trans H4 H5) as (g1 & g2 & (es & g3 & g4) & (ds & g5 & g6)).
  pose proof (score_experience_education_facts r5)
    as (f1 & f2 & f3 & f4 & f5 & f6 & f7).
  cbv zeta in *.
  assert (Hexp : experience r3 = []) by (rewrite s2, e1, c1; reflexivity).
  assert (Hedu : education r3 = []) by (rewrite s3, e2, c2; reflexivity).
  rewrite Hexp in g3. rewrite Hedu in g5. cbn [app] in g3, g5.
  repeat split.
  - exists found. split; [assumption|]. congruence.
  - rewrite f4, f1, g2, g1, s4, s1. reflexivity.
  - rewrite f2, g3. assumption.
  - rewrite f3, g5. assumption.
  - rewrite f5. unfold experience_analyzer._score_experience.
    now rewrite f2.
  - rewrite f6. unfold experience_analyzer._score_education.
    now rewrite f3.
  - rewrite f7. unfold experience_analyzer._score_experience,
      experience_analyzer._score_education.
    now rewrite f2, f3, f4.
Qed.

(** ** Arithmetic of scores *)

Lemma Qofnat_nonneg : forall n, 0 <= Qofnat n.
Proof.
  intros n. unfold Qofnat. change 0 with (inject_Z 0).
  rewrite <- Zle_Qle. lia.
Qed.

Lemma Qofnat_le : forall n m, (n <= m)%nat -> Qofnat n <= Qofnat m.
Proof.
  intros n m H. unfold Qofnat. rewrite <- Zle_Qle. lia.
Qed.

Lemma Qmin_nonneg : forall a b, 0 <= a -> 0 <= b -> 0 <= Qmin a b.
Proof. intros a b Ha Hb. now apply Q.min_glb. Qed.

Lemma Qmax_nonneg : forall a b, 0 <= a -> 0 <= Qmax a b.
Proof.
  intros a b Ha. eapply Qle_trans; [exact Ha | apply Q.le_max_l].
Qed.

Lemma Qplus_nonneg : forall a b, 0 <= a -> 0 <= b -> 0 <= a + b.
Proof. intros a b Ha Hb. lra. Qed.

Lemma Qdiv_nonneg : forall a b, 0 <= a -> 0 <= b -> 0 <= a / b.
Proof.
  intros a b Ha Hb. unfold Qdiv. apply Qmult_le_0_compat; [assumption|].
  now apply Qinv_le_0_compat.
Qed.

Lemma Qdiv_le_cap : forall a b c,
  0 <= c -> 0 <= a -> a <= c * b -> 0 <= b -> a / b <= c.
Proof.
  intros a b c Hc Ha Hab Hb.
  destruct (Qeq_dec b 0) as [Hz | Hnz].
  - unfold Qdiv. rewrite Hz. unfold Qinv. cbn. lra.
  - apply Qle_shift_div_r; [|assumption].
    destruct (Qlt_le_dec 0 b) as [Hlt | Hle]; [assumption|].
    exfalso. apply Hnz. lra.
Qed.


Lemma Qltb_ge : forall a b, Qltb a b = false <-> b <= a.
Proof.
  intros a b. unfold Qltb. rewrite negb_false_iff. apply Qle_bool_iff.
Qed.

(** *** Rounding to one decimal *)



Lemma round_half_even_bounds : forall x (n : Z),
  0 <= x <= inject_Z n ->
  (0 <= scoring.round_half_even x <= n)%Z.
Proof.
  intros x n [Hlo Hhi]. unfold scoring.round_half_even. cbv zeta.
  pose proof (Qfloor_le x) as Hf.
  assert (H0 : (0 <= Qfloor x)%Z).
  { change 0%Z with (Qfloor 0). now apply Qfloor_resp_le. }
  assert (Hn : (Qfloor x <= n)%Z).
  { rewrite Zle_Qle. lra. }
  assert (Hstep : (1 # 2) <= x - inject_Z (Qfloor x) -> (Qfloor x + 1 <= n)%Z).
  { intros Hfrac.
    assert (Hlt : (Qfloor x < n)%Z).
    { rewrite Zlt_Qlt. lra. }
    lia. }
  destruct (Qltb (x - inject_Z (Qfloor x)) (1 # 2)) eqn:E1; [lia|].
  apply Qltb_ge in E1. specialize (Hstep E1).
  destruct (Qltb (1 # 2) (x - inject_Z (Qfloor x))); [lia|].
  destruct (Z.even (Qfloor x)); lia.
Qed.

Lemma round1_bounds : forall x, in_0_10 x -> in_0_10 (scoring.round1 x).
Proof.
  intros x [Hlo Hhi]. unfold scoring.round1, in_0_10.
  assert (Hx : 0 <= x * 10 <= inject_Z 100).
  { change (inject_Z 100) with 100. split; lra. }
  apply round_half_even_bounds in Hx as [H1 H2].
  rewrite Zle_Qle in H1, H2.
  change (inject_Z 0) with 0 in H1. change (inject_Z 100) with 100 in H2.
  generalize dependent (inject_Z (scoring.round_half_even (x * 10))).
  intros z H1 H2. split.
  - apply Qdiv_nonneg; lra.
  - apply Qdiv_le_cap; lra.
Qed.

(** ** Every score lies between 0 and 10 *)

Ltac nonneg :=
  cbv zeta;
  repeat first
    [ assumption
    | apply Qofnat_nonneg
    | apply Qle_refl
    | apply Qmin_nonneg
    | apply Qplus_nonneg
    | apply Qdiv_nonneg
    | apply Qmult_le_0_compat
    | match goal with
      | |- 0 <= (if ?b then _ else _) => destruct b
      | |- 0 <= match ?o with Some _ => _ | None => _ end => destruct o
      end
    | discriminate ].

Lemma capped : forall score, 0 <= score -> in_0_10 (Qmin 10 score).
Proof.
  intros score H. split.
  - apply Qmin_nonneg; [discriminate | assumption].
  - apply Q.le_min_l.
Qed.

Lemma two_halves : forall a b,
  0 <= a -> 0 <= b -> in_0_10 (Qmin 5 a + Qmin 5 b).
Proof.
  intros a b Ha Hb.
  pose proof (Q.le_min_l 5 a). pose proof (Q.le_min_l 5 b).
  assert (0 <= Qmin 5 a) by (apply Qmin_nonneg; [discriminate | assumption]).
  assert (0 <= Qmin 5 b) by (apply Qmin_nonneg; [discriminate | assumption]).
  split; lra.
Qed.

Lemma fold_nonneg : forall (A : Type) (f : Q -> A -> Q) (l : list A) (a : Q),
  (forall acc x, 0 <= acc -> 0 <= f acc x) -> 0 <= a -> 0 <= fold_left f l a.
Proof. intros A f l a Hf Ha. now apply fold_left_keeps. Qed.

Lemma _score_experience_bounds : forall r,
  in_0_10 (experience_analyzer._score_experience r).
Proof.
  intros r. unfold experience_analyzer._score_experience.
  destruct (negb (nonempty (experience r))); [split; discriminate|].
  cbv zeta. apply two_halves.
  - apply Qofnat_nonneg.
  - apply fold_nonneg; [|apply Qle_refl]. intros acc exp Hacc. nonneg.
Qed.

Lemma _score_education_bounds : forall r,
  in_0_10 (experience_analyzer._score_education r).
Proof.
  intros r. unfold experience_analyzer._score_education.
  destruct (negb (nonempty (education r))); [split; discriminate|].
  cbv zeta. apply two_halves.
  - nonneg.
  - apply fold_nonneg; [|apply Qle_refl]. intros acc edu Hacc. nonneg.
Qed.

(** The three weighted category scores add up to at most 10. *)
Lemma category_scores_sum : forall skills,
  in_0_10 (Qsum (map snd (skills_analyzer.category_scores skills))).
Proof.
  intros skills.
  unfold skills_analyzer.category_scores, skills_analyzer.skill_categories.
  cbn [map fst snd]. unfold Qsum. cbn [fold_left].
  unfold skills_analyzer.weighted_category_score. cbn [fst snd].
  repeat match goal with
         | |- context [Qmin 10 ?x] =>
             let H1 := fresh in let H2 := fresh in
             assert (H1 : 0 <= Qmin 10 x)
               by (apply Qmin_nonneg; [discriminate|];
                   unfold skills_analyzer.category_score; nonneg);
             pose proof (Q.le_min_l 10 x) as H2;
             generalize dependent (Qmin 10 x); intros
         end.
  split; lra.
Qed.

Lemma scoring_score_skills_bounds : forall r,
  skill_scores r = skills_analyzer.category_scores (skills r) ->
  in_0_10 (scoring.score_skills r).
Proof.
  intros r H. unfold scoring.score_skills.
  destruct (negb (nonempty (skills r))); [split; discriminate|].
  cbv zeta. apply capped.
  pose proof (category_scores_sum (skills r)) as [Hs _].
  rewrite <- H in Hs.
  nonneg.
Qed.

Lemma scoring_score_experience_bounds : forall now r,
  in_0_10 (scoring.score_experience now r).
Proof.
  intros now r. unfold scoring.score_experience.
  destruct (negb (nonempty (experience r))); [split; discriminate|].
  cbv zeta. apply capped.
  generalize (scoring.total_months now (experience r)). intros months.
  nonneg.
Qed.

Lemma scoring_score_education_bounds : forall r,
  in_0_10 (scoring.score_education r).
Proof.
  intros r. unfold scoring.score_education.
  destruct (negb (nonempty (education r))); [split; discriminate|].
  cbv zeta. apply capped.
  assert (Hd : 0 <= fold_left (fun highest edu =>
                                 Qmax highest (scoring.degree_score edu))
                              (education r) 0).
  { apply fold_nonneg; [|apply Qle_refl].
    intros acc edu Hacc. now apply Qmax_nonneg. }
  assert (Hc : 0 <= fold_left (fun acc edu =>
                                 acc + Qmin 3 (scoring.entry_score edu))
                              (education r) 0).
  { apply fold_nonneg; [|apply Qle_refl].
    intros acc edu Hacc. unfold scoring.entry_score, scoring.half_if. nonneg. }
  nonneg.
Qed.

Lemma scoring_score_format_bounds : forall r,
  in_0_10 (scoring.score_format r).
Proof.
  intros r. unfold scoring.score_format, scoring.half_if.
  cbv zeta. apply capped.
  generalize (text_utils.calculate_text_stats (raw_text r)). intros stats.
  nonneg.
Qed.

Lemma share_nonneg : forall cap keywords text,
  0 <= cap -> 0 <= ats_analyzer.share cap keywords text.
Proof. intros cap keywords text H. unfold ats_analyzer.share. nonneg. Qed.

Lemma filled_nonneg : forall fields, 0 <= ats_analyzer.filled fields.
Proof. intros fields. unfold ats_analyzer.filled. nonneg. Qed.

Lemma ats_keyword_score_bounds : forall r,
  in_0_10 (ats_analyzer._calculate_keyword_score r).
Proof.
  intros r. unfold ats_analyzer._calculate_keyword_score.
  destruct (negb (truthy (raw_text r))); [split; discriminate|].
  cbv zeta. apply capped.
  repeat apply Qplus_nonneg; apply share_nonneg; discriminate.
Qed.

Lemma ats_format_score_bounds : forall r,
  in_0_10 (ats_analyzer._calculate_format_score r).
Proof.
  intros r. unfold ats_analyzer._calculate_format_score.
  cbv zeta. apply capped.
  generalize (text_utils.calculate_text_stats (raw_text r)). intros stats.
  nonneg.
Qed.

Lemma ats_structure_score_bounds : forall r,
  in_0_10 (ats_analyzer._calculate_structure_score r).
Proof.
  intros r. unfold ats_analyzer._calculate_structure_score.
  cbv zeta. apply capped. nonneg.
Qed.

Lemma ats_content_score_bounds : forall r,
  in_0_10 (ats_analyzer._calculate_content_score r).
Proof.
  intros r. unfold ats_analyzer._calculate_content_score.
  cbv zeta. apply capped.
  generalize (findall false ats_analyzer.quantifier_re (raw_text r)).
  intros quantifiers.
  assert (Hv : 0 <= ats_analyzer.share 3 ats_analyzer.action_verbs
                                       (lower (raw_text r)))
    by (apply share_nonneg; discriminate).
  generalize dependent (ats_analyzer.share 3 ats_analyzer.action_verbs
                          (lower (raw_text r))).
  intros verbs Hv.
  nonneg.
Qed.

Lemma ats_completeness_score_bounds : forall r,
  in_0_10 (ats_analyzer._calculate_completeness_score r).
Proof.
  intros r. unfold ats_analyzer._calculate_completeness_score.
  cbv zeta. apply capped.
  assert (He : 0 <= fold_left (fun acc exp => acc + ats_analyzer.exp_filled exp)
                              (experience r) 0).
  { apply fold_nonneg; [|apply Qle_refl]. intros acc exp Hacc.
    apply Qplus_nonneg; [assumption | apply filled_nonneg]. }
  assert (Hd : 0 <= fold_left (fun acc edu => acc + ats_analyzer.edu_filled edu)
                              (education r) 0).
  { apply fold_nonneg; [|apply Qle_refl]. intros acc edu Hacc.
    apply Qplus_nonneg; [assumption | apply filled_nonneg]. }
  pose proof (filled_nonneg [otruthy (name r); otruthy (email r);
                             otruthy (phone r); otruthy (location r)]) as Hc.
  generalize dependent (ats_analyzer.filled
                          [otruthy (name r); otruthy (email r);
                           otruthy (phone r); otruthy (location r)]).
  intros contact Hc.
  nonneg.
Qed.

(** A weighted sum of scores whose weights add up to 1 is a score. *)
Lemma ats_weighted_total_bounds : forall scores,
  in_0_10 (ats_analyzer.keyword_score scores) ->
  in_0_10 (ats_analyzer.format_score scores) ->
  in_0_10 (ats_analyzer.structure_score scores) ->
  in_0_10 (ats_analyzer.content_score scores) ->
  in_0_10 (ats_analyzer.completeness_score scores) ->
  in_0_10 (ats_analyzer.weighted_total scores).
Proof.
  intros [k f s c p]. cbn. unfold in_0_10, ats_analyzer.weighted_total, Qsum.
  cbn [fold_left ats_analyzer.keyword_score ats_analyzer.format_score
       ats_analyzer.structure_score ats_analyzer.content_score
       ats_analyzer.completeness_score].
  intros [? ?] [? ?] [? ?] [? ?] [? ?]. split; lra.
Qed.

Lemma weighted_sum_bounds : forall s e d f,
  in_0_10 s -> in_0_10 e -> in_0_10 d -> in_0_10 f ->
  in_0_10 (scoring.weighted_sum s e d f).
Proof.
  unfold in_0_10, scoring.weighted_sum.
  intros s e d f [? ?] [? ?] [? ?] [? ?]. split; lra.
Qed.

Lemma pipeline_overall_bounds : forall e d s,
  in_0_10 e -> in_0_10 d -> in_0_10 s ->
  in_0_10 ((5 # 10) * e + (3 # 10) * d + (2 # 10) * s).
Proof.
  unfold in_0_10. intros e d s [? ?] [? ?] [? ?]. split; lra.
Qed.

(** ** The pipeline never raises *)

Lemma split_char_nonempty : forall sep s, split_char sep s <> [].
Proof.
  intros sep s. destruct s as [|c s]; cbn [split_char]; [discriminate|].
  destruct (c =? sep)%N; [discriminate|].
  destruct (split_char sep s); discriminate.
Qed.

Lemma split_once_two : forall sep s,
  contains sep s = true -> exists a b, split_once sep s = [a; b].
Proof.
  intros sep s. induction s as [|c s IH]; intros H.
  - cbn [contains] in H. rewrite orb_false_r in H.
    cbn [split_once]. rewrite H. eauto.
  - cbn [contains] in H. cbn [split_once].
    destruct (startswith sep (c :: s)); [eauto|].
    cbn [orb] in H. destruct (IH H) as (a & b & ->). eauto.
Qed.

Lemma startswith_decompose : forall p s,
  startswith p s = true -> exists post, s = p ++ post.
Proof.
  induction p as [|a p IH]; intros s H.
  - exists s. reflexivity.
  - destruct s as [|b s]; [discriminate|]. cbn [startswith] in H.
    apply andb_prop in H as [Hab Hrest]. apply N.eqb_eq in Hab. subst.
    destruct (IH _ Hrest) as [post ->]. exists post. reflexivity.
Qed.

Lemma contains_decompose : forall sub s,
  contains sub s = true -> exists pre post, s = pre ++ sub ++ post.
Proof.
  intros sub s. induction s as [|c s IH]; intros H; cbn [contains] in H.
  - rewrite orb_false_r in H. apply startswith_decompose in H as [post ->].
    exists [], post. reflexivity.
  - apply orb_prop in H as [H | H].
    + apply startswith_decompose in H as [post ->]. exists [], post. reflexivity.
    + destruct (IH H) as (pre & post & ->). exists (c :: pre), post. reflexivity.
Qed.

Lemma lower_is_space : forall c, char_lower c = chr " " -> c = chr " ".
Proof.
  intros c. unfold char_lower.
  destruct (char_isupper c) eqn:E; [|trivial].
  intros H. exfalso. cbn in H.
  assert (c = 0%N) by lia. subst. discriminate E.
Qed.

Lemma lower_cases : forall c x,
  char_lower c = x -> c = x \/ (c + 32 = x)%N.
Proof.
  intros c x H. unfold char_lower in H.
  destruct (char_isupper c); [now right | now left].
Qed.

Lemma lower_is_a : forall c,
  char_lower c = chr "a" ->
  class_test true (N.eqb (chr "a")) c = true
  /\ class_test true isspace c = false.
Proof.
  intros c H. apply lower_cases in H as [-> | H].
  - split; reflexivity.
  - assert (c = 65%N) by (cbn in H; lia). subst. split; reflexivity.
Qed.

Lemma lower_is_t : forall c,
  char_lower c = chr "t" ->
  class_test true (N.eqb (chr "t")) c = true.
Proof.
  intros c H. apply lower_cases in H as [-> | H].
  - reflexivity.
  - assert (c = 84%N) by (cbn in H; lia). subst. reflexivity.
Qed.
Lemma at_re_shape :
  experience_analyzer.at_re
  = Seq (Seq s_ (Star s_))
        (Seq (Seq (Chr (N.eqb (chr "a"))) (Chr (N.eqb (chr "t"))))
             (Seq s_ (Star s_))).
Proof. reflexivity. Qed.

Lemma at_re_matches : forall pos prev c2 c3 post,
  char_lower c2 = chr "a" -> char_lower c3 = chr "t" ->
  match_at true experience_analyzer.at_re
           (MState pos prev (chr " " :: c2 :: c3 :: chr " " :: post)) <> None.
Proof.
  intros pos prev c2 c3 post H2 H3.
  destruct (lower_is_a _ H2) as [Ha Hs]. pose proof (lower_is_t _ H3) as Ht.
  unfold match_at. rewrite at_re_shape.
  assert (Hsp : class_test true isspace (chr " ") = true) by reflexivity.
  unfold s_.
  cbn [rmatch m_rest m_pos length].
  rewrite Hsp, Hs, Ha, Ht.
  destruct (length post) as [|fuel]; [discriminate|].
  match goal with
  | |- match ?m with Some _ => _ | None => _ end <> None =>
      destruct m; discriminate
  end.
Qed.

Lemma search_from_reaches : forall ic r pre rest fuel pos prev,
  (length (pre ++ rest) <= fuel)%nat ->
  (forall pos prev, match_at ic r (MState pos prev rest) <> None) ->
  search_from ic r fuel (MState pos prev (pre ++ rest)) <> None.
Proof.
  intros ic r pre rest. induction pre as [|c pre IH];
    intros fuel pos prev Hfuel Hm.
  - cbn [app]. destruct fuel; cbn [search_from];
      specialize (Hm pos prev);
      destruct (match_at ic r (MState pos prev rest)); congruence.
  - destruct fuel as [|fuel]; [cbn in Hfuel; lia|].
    cbn [search_from app m_rest m_pos].
    destruct (match_at ic r _); [discriminate|].
    apply IH; [cbn in Hfuel; lia | assumption].
Qed.

Lemma map_lower_cons : forall line x rest,
  lower line = x :: rest ->
  exists c line', line = c :: line' /\ char_lower c = x /\ lower line' = rest.
Proof.
  intros [|c line'] x rest H; [discriminate|].
  injection H as H1 H2. eauto.
Qed.

Lemma re_split1_at_two : forall line,
  contains (lit " at ") (lower line) = true ->
  exists a b, re_split1 true experience_analyzer.at_re line = [a; b].
Proof.
  intros line H. apply contains_decompose in H as (pre & post & H).
  unfold lower in H. apply map_eq_app in H as (pre' & rest & -> & _ & H).
  change (lit " at " ++ post)
    with (chr " " :: chr "a" :: chr "t" :: chr " " :: post) in H.
  apply map_lower_cons in H as (c1 & l1 & -> & H1 & H).
  apply map_lower_cons in H as (c2 & l2 & -> & H2 & H).
  apply map_lower_cons in H as (c3 & l3 & -> & H3 & H).
  apply map_lower_cons in H as (c4 & l4 & -> & H4 & _).
  apply lower_is_space in H1, H4. subst c1 c4.
  unfold re_split1, re_search.
  pose proof (@search_from_reaches true experience_analyzer.at_re pre'
                (chr " " :: c2 :: c3 :: chr " " :: l4)
                (length (pre' ++ chr " " :: c2 :: c3 :: chr " " :: l4))
                0%nat None (le_n _)
                (fun pos prev => @at_re_matches pos prev c2 c3 l4 H2 H3)) as Hs.
  destruct (search_from _ _ _ _); [eauto | congruence].
Qed.


Lemma org_role_loop_returns : forall lines,
  exists found, experience_analyzer.org_role_loop lines = Some found.
Proof.
  induction lines as [|line0 rest IH]; cbn [experience_analyzer.org_role_loop].
  - eauto.
  - cbv zeta.
    destruct (contains (lit " - ") (strip line0)) eqn:E1.
    { destruct (split_once_two _ _ E1) as (a & b & ->). cbn. eauto. }
    destruct (contains (lit " at ") (lower (strip line0))) eqn:E2.
    { destruct (re_split1_at_two _ E2) as (a & b & ->). cbn. eauto. }
    destruct (contains (lit ",") (strip line0)) eqn:E3.
    { destruct (split_once_two _ _ E3) as (a & b & ->). cbn. eauto. }
    exact IH.
Qed.

Lemma org_role_heuristics_returns : forall lines org role,
  lines <> [] ->
  exists found,
    experience_analyzer.org_role_heuristics lines org role = Some found.
Proof.
  intros [|first rest] org role H; [congruence|].
  unfold experience_analyzer.org_role_heuristics.
  cbn [nth_error].
  destruct (negb (truthy org) || negb (truthy role)); [|eauto].
  cbv zeta.
  destruct (negb (truthy org) && negb (truthy role)); [eauto|].
  destruct (negb (truthy org)); destruct rest; eauto.
Qed.

Lemma _extract_company_title_returns : forall entry,
  exists found, experience_analyzer._extract_company_title entry = Some found.
Proof.
  intros entry. unfold experience_analyzer._extract_company_title. cbv zeta.
  destruct (org_role_loop_returns (firstn 3 (split_char newline entry)))
    as [found ->].
  apply org_role_heuristics_returns, split_char_nonempty.
Qed.

Lemma _extract_institution_degree_returns : forall entry,
  exists found,
    experience_analyzer._extract_institution_degree entry = Some found.
Proof.
  intros entry. unfold experience_analyzer._extract_institution_degree.
  cbv zeta.
  destruct (org_role_loop_returns (firstn 3 (split_char newline entry)))
    as [found ->].
  destruct (org_role_heuristics_returns (fst found) (snd found)
              (split_char_nonempty newline entry)) as [[institution degree] ->].
  eauto.
Qed.

Lemma indicated_field_returns : forall indicators line,
  exists found,
    experience_analyzer.indicated_field indicators line = Some found.
Proof.
  induction indicators as [|indicator rest IH]; intros line;
    cbn [experience_analyzer.indicated_field].
  - eauto.
  - destruct (contains indicator line) eqn:E; [|apply IH].
    destruct (split_once_two _ _ E) as (a & b & ->). cbn. eauto.
Qed.

Lemma field_in_lines_returns : forall lines,
  exists found, experience_analyzer.field_in_lines lines = Some found.
Proof.
  induction lines as [|line rest IH]; cbn [experience_analyzer.field_in_lines].
  - eauto.
  - destruct (indicated_field_returns experience_analyzer.field_indicators
                (strip line)) as [[f|] ->]; [eauto | exact IH].
Qed.

Lemma _extract_field_of_study_returns : forall entry degree,
  exists found,
    experience_analyzer._extract_field_of_study entry degree = Some found.
Proof.
  intros entry degree. unfold experience_analyzer._extract_field_of_study.
  destruct (experience_analyzer.search_groups _ _ _) as [[f g]|]; [eauto|].
  cbv zeta. apply field_in_lines_returns.
Qed.

Lemma for_entries_returns : forall body entries r,
  (forall entry r, exists r', body entry r = Some r') ->
  exists r', experience_analyzer.for_entries body entries r = Some r'.
Proof.
  intros body entries. induction entries as [|entry rest IH]; intros r Hbody;
    cbn [experience_analyzer.for_entries].
  - eauto.
  - destruct (Hbody entry r) as [r1 ->]. now apply IH.
Qed.

Lemma experience_of_entry_returns : forall entry r,
  exists r', experience_analyzer.experience_of_entry entry r = Some r'.
Proof.
  intros entry r. unfold experience_analyzer.experience_of_entry.
  destruct (_extract_company_title_returns entry) as [[company title] ->].
  destruct (negb (truthy company)); [eauto|].
  destruct (experience_analyzer._extract_dates entry).
  destruct (experience_analyzer._extract_description_responsibilities entry).
  eauto.
Qed.

Lemma education_of_entry_returns : forall entry r,
  exists r', experience_analyzer.education_of_entry entry r = Some r'.
Proof.
  intros entry r. unfold experience_analyzer.education_of_entry.
  destruct (_extract_institution_degree_returns entry)
    as [[institution degree] ->].
  destruct (negb (truthy institution)); [eauto|].
  destruct (_extract_field_of_study_returns entry degree) as [field ->].
  destruct (experience_analyzer._extract_dates entry).
  eauto.
Qed.

(** No text makes the pipeline raise: the only indexing operations that
    could fail are guarded by the test that precedes them. *)
Lemma pipeline_returns : forall text filename,
  exists r, pipeline text filename = Some r.
Proof.
  intros text filename. unfold pipeline, experience_analyzer.analyze.
  cbv zeta.
  generalize (skills_analyzer.analyze
                (content_analyzer.analyze (new_Resume text filename))).
  intros r0.
  assert (H1 : exists r1, experience_analyzer.extract_experience r0 = Some r1).
  { unfold experience_analyzer.extract_experience.
    destruct (experience_analyzer._extract_section _ _) as [section|]; [|eauto].
    destruct (truthy section); [|eauto].
    apply for_entries_returns, experience_of_entry_returns. }
  destruct H1 as [r1 ->].
  assert (H2 : exists r2, experience_analyzer.extract_education r1 = Some r2).
  { unfold experience_analyzer.extract_education.
    destruct (experience_analyzer._extract_section _ _) as [section|]; [|eauto].
    destruct (truthy section); [|eauto].
    apply for_entries_returns, education_of_entry_returns. }
  destruct H2 as [r2 ->]. eauto.
Qed.

Lemma dashboard_returns : forall now text filename,
  exists r a, dashboard now text filename = Some (r, a).
Proof.
  intros now text filename. unfold dashboard.
  destruct (pipeline_returns text filename) as [r ->]. eauto.
Qed.

(** ** Properties of every analyzed resume *)

(** C9.  Every text is analyzed into a profile in which every experience
    record has a non-empty company and every education record a non-empty
    institution; an entry whose company (institution) comes out empty adds
    no record. *)
Theorem C9_records_have_an_organisation :
  forall (text filename : str),
  exists r : Resume,
    pipeline text filename = Some r
    /\ Forall (fun e => exp_company e <> []) (experience r)
    /\ Forall (fun e => edu_institution e <> []) (education r)
    /\ (forall entry title r0,
          experience_analyzer._extract_company_title entry = Some ([], title) ->
          experience_analyzer.experience_of_entry entry r0 = Some r0)
    /\ (forall entry degree r0,
          experience_analyzer._extract_institution_degree entry
          = Some ([], degree) ->
          experience_analyzer.education_of_entry entry r0 = Some r0).
Proof.
  intros text filename.
  destruct (pipeline_returns text filename) as [r H]. exists r.
  destruct (pipeline_facts _ _ H) as (_ & _ & Hexp & Hedu & _).
  repeat split; try assumption.
  - intros entry title r0 He.
    unfold experience_analyzer.experience_of_entry. now rewrite He.
  - intros entry degree r0 He.
    unfold experience_analyzer.education_of_entry. now rewrite He.
Qed.

Lemma C9_witness :
  experience_analyzer._extract_company_title [] = Some ([], [])
  /\ experience_analyzer.experience_of_entry [] (new_Resume [] []) 
     = Some (new_Resume [] [])
  /\ experience_analyzer._extract_institution_degree [] = Some ([], [])
  /\ experience_analyzer.education_of_entry [] (new_Resume [] [])
     = Some (new_Resume [] []).
Proof.
  destruct (C9_records_have_an_organisation scenario_text (lit "resume.txt"))
    as (r & _ & _ & _ & Wexp & Wedu).
  assert (H1 : experience_analyzer._extract_company_title [] = Some ([], []))
    by reflexivity.
  assert (H2 : experience_analyzer._extract_institution_degree []
               = Some ([], [])) by reflexivity.
  split; [exact H1|].
  split; [exact (Wexp [] [] (new_Resume [] []) H1)|].
  split; [exact H2|].
  exact (Wedu [] [] (new_Resume [] []) H2).
Defined.

(** C4.  Every text is analyzed into a profile whose skills are pairwise
    distinct and in strictly ascending order of code points. *)
Theorem C4_skills_unique_and_sorted :
  forall (text filename : str),
  exists r : Resume,
    pipeline text filename = Some r
    /\ NoDup (skills r) /\ StronglySorted str_lt (skills r).
Proof.
  intros text filename.
  destruct (pipeline_returns text filename) as [r H]. exists r.
  destruct (pipeline_facts _ _ H) as ((found & Hnd & Hs) & _).
  split; [exact H|]. rewrite Hs. split.
  - now apply sorted_ascending.
  - now apply sorted_strongly.
Qed.

(** C3.  Every text is analyzed, and each component score (skills,
    experience, education, format, the five ATS sub-scores) and each
    aggregate (the general overall score, the ATS score, and the scores
    the experience analyzer stores before them) lies in [0, 10]. *)
Theorem C3_scores_between_0_and_10 :
  forall (now : Z * Z) (text filename : str),
  exists (r : Resume) (a : ats_analyzer.Analysis),
    dashboard now text filename = Some (r, a)
    /\ (exists s f,
        skill_score r = Some s /\ format_score r = Some f
        /\ in_0_10 s /\ in_0_10 f)
    /\ in_0_10 (experience_score r)
    /\ in_0_10 (education_score r)
    /\ in_0_10 (overall_score r)
    /\ in_0_10 (ats_analyzer.keyword_score (ats_analyzer.detailed_scores a))
    /\ in_0_10 (ats_analyzer.format_score (ats_analyzer.detailed_scores a))
    /\ in_0_10 (ats_analyzer.structure_score (ats_analyzer.detailed_scores a))
    /\ in_0_10 (ats_analyzer.content_score (ats_analyzer.detailed_scores a))
    /\ in_0_10 (ats_analyzer.completeness_score (ats_analyzer.detailed_scores a))
    /\ in_0_10 (ats_analyzer.ats_score a)
    /\ (exists r0,
          pipeline text filename = Some r0
          /\ in_0_10 (experience_score r0)
          /\ in_0_10 (education_score r0)
          /\ in_0_10 (overall_score r0)).
Proof.
  intros now text filename.
  destruct (dashboard_returns now text filename) as (r & a & H).
  exists r, a. split; [exact H|].
  unfold dashboard in H.
  destruct (pipeline text filename) as [r0|] eqn:Hp; [|discriminate].
  cbv zeta in H. injection H as <- <-.
  destruct (pipeline_facts _ _ Hp) as (_ & Hss & _ & _ & He & Hd & Ho).
  pose proof (scoring_score_skills_bounds r0 Hss) as Bs.
  pose proof (scoring_score_experience_bounds now r0) as Be.
  pose proof (scoring_score_education_bounds r0) as Bd.
  pose proof (scoring_score_format_bounds r0) as Bf.
  set (r1 := scoring.generate_recommendations (scoring.score_resume now r0)).
  pose proof (ats_keyword_score_bounds r1) as Ak.
  pose proof (ats_format_score_bounds r1) as Af.
  pose proof (ats_structure_score_bounds r1) as As.
  pose proof (ats_content_score_bounds r1) as Ac.
  pose proof (ats_completeness_score_bounds r1) as Ap.
  repeat split.
  - exists (scoring.score_skills r0), (scoring.score_format r0).
    split; [reflexivity | split; [reflexivity | split; assumption]].
  - apply Be.
  - apply Be.
  - apply Bd.
  - apply Bd.
  - apply (round1_bounds (weighted_sum_bounds Bs Be Bd Bf)).
  - apply (round1_bounds (weighted_sum_bounds Bs Be Bd Bf)).
  - apply Ak.
  - apply Ak.
  - apply Af.
  - apply Af.
  - apply As.
  - apply As.
  - apply Ac.
  - apply Ac.
  - apply Ap.
  - apply Ap.
  - apply (ats_weighted_total_bounds
             (ats_analyzer.mkDetailedScores _ _ _ _ _) Ak Af As Ac Ap).
  - apply (ats_weighted_total_bounds
             (ats_analyzer.mkDetailedScores _ _ _ _ _) Ak Af As Ac Ap).
  - exists r0. split; [reflexivity|].
    rewrite He, Hd, Ho, Hss.
    split; [apply _score_experience_bounds|].
    split; [apply _score_education_bounds|].
    apply pipeline_overall_bounds.
    + apply _score_experience_bounds.
    + apply _score_education_bounds.
    + apply category_scores_sum.
Qed.

(** ** The general overall score *)



(** * Further properties *)

(** ** White space at the ends *)

Lemma lstrip_head : forall s,
  lstrip s = [] \/ exists c y, lstrip s = c :: y /\ isspace c = false.
Proof.
  induction s as [|c s IH]; cbn [lstrip].
  - now left.
  - destruct (isspace c) eqn:E; [exact IH|]. right. eauto.
Qed.

Lemma lstrip_snoc : forall a c,
  isspace c = false -> lstrip (a ++ [c]) = lstrip a ++ [c].
Proof.
  induction a as [|x a IH]; intros c Hc; cbn [lstrip app].
  - now rewrite Hc.
  - destruct (isspace x); [now apply IH | reflexivity].
Qed.

Lemma rstrip_cons : forall c y,
  isspace c = false -> rstrip (c :: y) = c :: rstrip y.
Proof.
  intros c y Hc. unfold rstrip. cbn [rev].
  rewrite lstrip_snoc by assumption.
  rewrite rev_app_distr. reflexivity.
Qed.

Lemma lstrip_idem : forall s, lstrip (lstrip s) = lstrip s.
Proof.
  intros s. destruct (lstrip_head s) as [-> | (c & y & -> & Hc)].
  - reflexivity.
  - cbn [lstrip]. now rewrite Hc.
Qed.

Lemma rstrip_idem : forall s, rstrip (rstrip s) = rstrip s.
Proof.
  intros s. unfold rstrip. rewrite rev_involutive, lstrip_idem. reflexivity.
Qed.

Lemma strip_trimmed : forall s, trimmed (strip s).
Proof.
  intros s. unfold trimmed, strip.
  destruct (lstrip_head s) as [-> | (c & y & -> & Hc)].
  - reflexivity.
  - rewrite (@rstrip_cons c y Hc). cbn [lstrip]. rewrite Hc.
    rewrite (@rstrip_cons c (rstrip y) Hc), rstrip_idem. reflexivity.
Qed.

Lemma nil_trimmed : trimmed [].
Proof. reflexivity. Qed.

(** ** Substrings *)

Lemma contains_compose : forall pre x post,
  contains x (pre ++ x ++ post) = true.
Proof.
  induction pre as [|c pre IH]; intros x post.
  - cbn [app]. destruct (x ++ post) eqn:E; cbn [contains];
      rewrite <- E, startswith_app; reflexivity.
  - cbn [app contains]. rewrite IH. apply orb_true_r.
Qed.

Lemma occurs_in_iff : forall x s,
  occurs_in x s <-> exists pre post, s = pre ++ x ++ post.
Proof.
  intros x s. unfold occurs_in. split.
  - apply contains_decompose.
  - intros (pre & post & ->). apply contains_compose.
Qed.

Lemma occurs_in_trans : forall a b c,
  occurs_in a b -> occurs_in b c -> occurs_in a c.
Proof.
  intros a b c Hab Hbc. apply occurs_in_iff in Hab as (p1 & q1 & ->).
  apply occurs_in_iff in Hbc as (p2 & q2 & ->).
  apply occurs_in_iff. exists (p2 ++ p1), (q1 ++ q2).
  now rewrite <- !app_assoc.
Qed.

Lemma occurs_in_refl : forall s, occurs_in s s.
Proof.
  intros s. apply occurs_in_iff. exists [], []. now rewrite app_nil_r.
Qed.

Lemma slice_occurs : forall a b (s : str), occurs_in (slice a b s) s.
Proof.
  intros a b s. apply occurs_in_iff. unfold slice.
  exists (firstn a s), (skipn (b - a) (skipn a s)).
  now rewrite firstn_skipn, firstn_skipn.
Qed.

Lemma lstrip_occurs : forall s, occurs_in (lstrip s) s.
Proof.
  intros s. apply occurs_in_iff. induction s as [|c s IH]; cbn [lstrip].
  - exists [], []. reflexivity.
  - destruct (isspace c).
    + destruct IH as (pre & post & IH). exists (c :: pre), post.
      cbn [app]. now rewrite <- IH.
    + exists [], []. now rewrite app_nil_r.
Qed.

Lemma rev_occurs : forall x s, occurs_in x s -> occurs_in (rev x) (rev s).
Proof.
  intros x s H. apply occurs_in_iff in H as (pre & post & ->).
  apply occurs_in_iff. exists (rev post), (rev pre).
  now rewrite !rev_app_distr, <- app_assoc.
Qed.

Lemma strip_occurs : forall s, occurs_in (strip s) s.
Proof.
  intros s. unfold strip, rstrip.
  eapply occurs_in_trans; [|apply lstrip_occurs].
  rewrite <- (rev_involutive (lstrip s)) at 2.
  apply rev_occurs, lstrip_occurs.
Qed.

Lemma split_char_first : forall sep s w ws,
  split_char sep s = w :: ws -> exists post, s = w ++ post.
Proof.
  intros sep s. induction s as [|c s IH]; intros w ws H;
    cbn [split_char] in H.
  - injection H as <- _. exists []. reflexivity.
  - destruct (c =? sep)%N.
    + injection H as <- _. exists (c :: s). reflexivity.
    + destruct (split_char sep s) as [|w' ws'] eqn:E.
      * injection H as <- _. exists s. reflexivity.
      * injection H as <- _. destruct (IH _ _ eq_refl) as [post ->].
        exists post. reflexivity.
Qed.

Lemma split_char_occurs : forall sep s piece,
  In piece (split_char sep s) -> occurs_in piece s.
Proof.
  intros sep s. induction s as [|c s IH]; intros piece H;
    cbn [split_char] in H.
  - destruct H as [<- | []]. apply occurs_in_refl.
  - destruct (c =? sep)%N.
    + destruct H as [<- | H].
      * apply occurs_in_iff. exists [], (c :: s). reflexivity.
      * apply IH, occurs_in_iff in H as (pre & post & ->).
        apply occurs_in_iff. exists (c :: pre), post. reflexivity.
    + destruct (split_char sep s) as [|w ws] eqn:E.
      * destruct H as [<- | []]. apply occurs_in_iff.
        exists [], s. reflexivity.
      * destruct H as [<- | H].
        -- destruct (split_char_first _ _ E) as [post ->].
           apply occurs_in_iff. exists [], post. reflexivity.
        -- assert (Hp : occurs_in piece s) by (apply IH; now right).
           apply occurs_in_iff in Hp as (pre & post & ->).
           apply occurs_in_iff. exists (c :: pre), post. reflexivity.
Qed.

(** ** Joining the pieces of a split *)

Lemma join_split_char : forall sep s, join [sep] (split_char sep s) = s.
Proof.
  intros sep s. induction s as [|c s IH]; cbn [split_char].
  - reflexivity.
  - destruct (N.eqb_spec c sep) as [-> | Hne].
    + pose proof (split_char_nonempty sep s) as Hn.
      destruct (split_char sep s) as [|w ws]; [congruence|].
      change (join [sep] ([] :: w :: ws)) with ([sep] ++ join [sep] (w :: ws)).
      rewrite IH. reflexivity.
    + destruct (split_char sep s) as [|w ws] eqn:E.
      * exfalso. eapply split_char_nonempty. exact E.
      * rewrite <- IH. destruct ws; reflexivity.
Qed.

Lemma join_snoc : forall sep (l : list str) x,
  l <> [] -> join sep (l ++ [x]) = join sep l ++ sep ++ x.
Proof.
  intros sep l x. induction l as [|a l IH]; intros H; [congruence|].
  destruct l as [|b l].
  - reflexivity.
  - change (join sep ((a :: b :: l) ++ [x]))
      with (a ++ sep ++ join sep ((b :: l) ++ [x])).
    rewrite IH by discriminate.
    change (join sep (a :: b :: l)) with (a ++ sep ++ join sep (b :: l)).
    now rewrite <- !app_assoc.
Qed.

(** ** How the records and the recommendations grow *)

Lemma extends_refl : forall r, extends r r.
Proof.
  intros r. repeat split.
  - exists []. split; [now rewrite app_nil_r | constructor].
  - exists []. split; [now rewrite app_nil_r | constructor].
Qed.

Lemma extends_trans : forall r1 r2 r3,
  extends r1 r2 -> extends r2 r3 -> extends r1 r3.
Proof.
  intros r1 r2 r3 (a1 & (es1 & a3 & a4) & (ds1 & a5 & a6))
                  (b1 & (es2 & b3 & b4) & (ds2 & b5 & b6)).
  repeat split; try congruence.
  - exists (es1 ++ es2). split.
    + rewrite b3, a3. now rewrite app_assoc.
    + now apply Forall_app.
  - exists (ds1 ++ ds2). split.
    + rewrite b5, a5. now rewrite app_assoc.
    + now apply Forall_app.
Qed.

Lemma experience_of_entry_extends : forall entry r r',
  experience_analyzer.experience_of_entry entry r = Some r' -> extends r r'.
Proof.
  intros entry r r' H. unfold experience_analyzer.experience_of_entry in H.
  destruct (experience_analyzer._extract_company_title entry)
    as [[company title]|] eqn:Hct; [|discriminate].
  destruct (truthy company) eqn:Hc; cbn [negb] in H.
  - assert (He : r' = add_experience (experience_record entry company title) r).
    { unfold experience_record.
      destruct (experience_analyzer._extract_dates entry).
      destruct (experience_analyzer._extract_description_responsibilities entry).
      now injection H as <-. }
    subst r'. repeat split.
    + eexists. split; [reflexivity|]. repeat constructor.
      exists entry, company, title. auto.
    + exists []. split; [now rewrite app_nil_r | constructor].
  - injection H as <-. apply extends_refl.
Qed.

Lemma education_of_entry_extends : forall entry r r',
  experience_analyzer.education_of_entry entry r = Some r' -> extends r r'.
Proof.
  intros entry r r' H. unfold experience_analyzer.education_of_entry in H.
  destruct (experience_analyzer._extract_institution_degree entry)
    as [[institution degree]|] eqn:Hid; [|discriminate].
  destruct (truthy institution) eqn:Hc; cbn [negb] in H.
  - destruct (experience_analyzer._extract_field_of_study entry degree)
      as [field|] eqn:Hf; [|discriminate].
    assert (He : r' = add_education
                        (education_record entry institution degree field) r).
    { unfold education_record.
      destruct (experience_analyzer._extract_dates entry).
      now injection H as <-. }
    subst r'. repeat split.
    + exists []. split; [now rewrite app_nil_r | constructor].
    + eexists. split; [reflexivity|]. repeat constructor.
      exists entry, institution, degree, field. auto.
  - injection H as <-. apply extends_refl.
Qed.

Lemma for_entries_extends : forall body entries r r',
  (forall entry r r', body entry r = Some r' -> extends r r') ->
  experience_analyzer.for_entries body entries r = Some r' -> extends r r'.
Proof.
  intros body entries. induction entries as [|entry rest IH];
    intros r r' Hbody H; cbn [experience_analyzer.for_entries] in H.
  - injection H as <-. apply extends_refl.
  - destruct (body entry r) as [r1|] eqn:H1; [|discriminate].
    eapply extends_trans; [eapply Hbody; eassumption | now apply IH].
Qed.

Lemma extract_experience_extends : forall r r',
  experience_analyzer.extract_experience r = Some r' -> extends r r'.
Proof.
  intros r r' H. unfold experience_analyzer.extract_experience in H.
  destruct (experience_analyzer._extract_section _ _) as [section|].
  - destruct (truthy section).
    + eapply for_entries_extends; [|exact H].
      apply experience_of_entry_extends.
    + injection H as <-. apply extends_refl.
  - injection H as <-. apply extends_refl.
Qed.

Lemma extract_education_extends : forall r r',
  experience_analyzer.extract_education r = Some r' -> extends r r'.
Proof.
  intros r r' H. unfold experience_analyzer.extract_education in H.
  destruct (experience_analyzer._extract_section _ _) as [section|].
  - destruct (truthy section).
    + eapply for_entries_extends; [|exact H].
      apply education_of_entry_extends.
    + injection H as <-. apply extends_refl.
  - injection H as <-. apply extends_refl.
Qed.

Lemma add_recommendation_ok : forall rec r,
  recommendations_ok r -> recommendations_ok (add_recommendation rec r).
Proof.
  intros rec r [Hnd Hne]. unfold add_recommendation, recommendations_ok.
  destruct (truthy rec) eqn:Ht; cbn [andb]; [|now split].
  destruct (mem rec (recommendations r)) eqn:Hm; cbn [negb]; [now split|].
  change (recommendations (set_recommendations (recommendations r ++ [rec]) r))
    with (recommendations r ++ [rec]).
  split.
  - apply NoDup_snoc; [assumption | now apply mem_false_not_In].
  - intros Hin. apply in_app_or in Hin as [Hin | [Heq | []]];
      [contradiction | subst rec; discriminate Ht].
Qed.

Lemma add_recommendation_In : forall rec r,
  rec <> [] -> In rec (recommendations (add_recommendation rec r)).
Proof.
  intros rec r Hne. unfold add_recommendation.
  destruct rec as [|c rec]; [congruence|]. cbn [truthy andb].
  destruct (mem (c :: rec) (recommendations r)) eqn:Hm; cbn [negb].
  - now apply mem_In.
  - change (recommendations (set_recommendations ?l r)) with l.
    apply in_or_app. right. now left.
Qed.

Ltac forget_ok x r :=
  let H := fresh in
  pose proof (@add_recommendation_ok x r) as H;
  generalize dependent (add_recommendation x r); intros.

Ltac recommendations_stay_ok :=
  cbv zeta; split_ifs;
  repeat match goal with
         | |- context [add_recommendation ?x ?r] => forget_ok x r
         | _ : context [add_recommendation ?x ?r] |- _ => forget_ok x r
         end;
  auto.

Lemma ok_fold : forall (A : Type) (f : A -> Resume -> Resume) l r,
  (forall a r, recommendations_ok r -> recommendations_ok (f a r)) ->
  recommendations_ok r ->
  recommendations_ok (fold_left (fun r a => f a r) l r).
Proof.
  intros A f l. induction l as [|a l IH]; intros r Hf Hr; cbn [fold_left].
  - assumption.
  - apply IH; [assumption | now apply Hf].
Qed.

Lemma skills_score_skills_ok : forall r,
  recommendations_ok r -> recommendations_ok (skills_analyzer.score_skills r).
Proof.
  intros r H. unfold skills_analyzer.score_skills.
  generalize (skills_analyzer.category_scores (skills r)). intros scores.
  assert (H0 : recommendations_ok (set_skill_scores scores r)) by exact H.
  generalize dependent (set_skill_scores scores r). intros r0 H0.
  recommendations_stay_ok.
Qed.

Lemma experience_recommendations_ok : forall exp r,
  recommendations_ok r ->
  recommendations_ok (experience_analyzer.experience_recommendations exp r).
Proof.
  intros exp r H. unfold experience_analyzer.experience_recommendations.
  recommendations_stay_ok.
Qed.

Lemma education_recommendations_ok : forall edu r,
  recommendations_ok r ->
  recommendations_ok (experience_analyzer.education_recommendations edu r).
Proof.
  intros edu r H. unfold experience_analyzer.education_recommendations.
  recommendations_stay_ok.
Qed.

(** The last step of the experience analyzer always leaves one of its
    three closing recommendations in the list. *)
Lemma add_recommendations_ok : forall r,
  recommendations_ok r ->
  let r' := experience_analyzer._add_experience_education_recommendations r in
  recommendations_ok r' /\ recommendations r' <> [].
Proof.
  intros r H r'. subst r'.
  unfold experience_analyzer._add_experience_education_recommendations.
  set (r1 := if negb (nonempty (experience r)) then _ else _).
  assert (H1 : recommendations_ok r1).
  { subst r1. recommendations_stay_ok. }
  clearbody r1. cbv zeta.
  set (r2 := fold_left _ (experience r1) r1).
  assert (H2 : recommendations_ok r2).
  { subst r2.
    apply (ok_fold experience_analyzer.experience_recommendations);
      [apply experience_recommendations_ok | assumption]. }
  clearbody r2.
  set (r3 := if negb (nonempty (education r2)) then _ else _).
  assert (H3 : recommendations_ok r3).
  { subst r3. recommendations_stay_ok. }
  clearbody r3.
  set (r4 := fold_left _ (education r3) r3).
  assert (H4 : recommendations_ok r4).
  { subst r4.
    apply (ok_fold experience_analyzer.education_recommendations);
      [apply education_recommendations_ok | assumption]. }
  clearbody r4.
  split.
  - recommendations_stay_ok.
  - destruct (Qltb (overall_score r4) 5); [|destruct (Qltb (overall_score r4) 7)];
      match goal with
      | |- recommendations (add_recommendation ?x ?r) <> [] =>
          pose proof (@add_recommendation_In x r ltac:(discriminate)) as Hin;
          destruct (recommendations (add_recommendation x r));
          [destruct Hin | discriminate]
      end.
Qed.

(** The stages of the pipeline, with what each hands to the next. *)
Lemma pipeline_stages : forall text filename r,
  pipeline text filename = Some r ->
  exists r3 r5,
    raw_text r3 = text
    /\ recommendations_ok r3
    /\ experience r3 = [] /\ education r3 = []
    /\ extends r3 r5
    /\ r = experience_analyzer.score_experience_education r5.
Proof.
  intros text filename r H. unfold pipeline in H. cbv zeta in H.
  set (r0 := new_Resume text filename) in H.
  pose proof (content_analyzer_keeps r0) as [c1 c2].
  assert (c3 : recommendations (content_analyzer.analyze r0) = []).
  { unfold content_analyzer.analyze.
    rewrite (extract_summary_keeps recommendations) by reflexivity.
    apply (extract_contact_info_keeps recommendations); reflexivity. }
  assert (c4 : raw_text (content_analyzer.analyze r0) = text).
  { unfold content_analyzer.analyze.
    rewrite (extract_summary_keeps raw_text) by reflexivity.
    apply (extract_contact_info_keeps raw_text); reflexivity. }
  set (r1 := content_analyzer.analyze r0) in *.
  unfold skills_analyzer.analyze in H.
  pose proof (extract_skills_facts r1 skills_analyzer._load_skills_data)
    as (e1 & e2 & _).
  assert (e3 : recommendations_ok
                 (skills_analyzer.extract_skills
                    r1 skills_analyzer._load_skills_data)).
  { unfold recommendations_ok, skills_analyzer.extract_skills. cbv zeta.
    change (recommendations (set_skills ?l r1)) with (recommendations r1).
    rewrite c3. split; [constructor | intros []]. }
  assert (e4 : raw_text (skills_analyzer.extract_skills
                           r1 skills_analyzer._load_skills_data) = text).
  { unfold skills_analyzer.extract_skills. cbv zeta. exact c4. }
  set (r2 := skills_analyzer.extract_skills r1 _) in *.
  pose proof (skills_analyzer_score_skills_facts r2) as (s1 & s2 & s3 & s4).
  pose proof (skills_score_skills_ok e3) as s5.
  assert (s6 : raw_text (skills_analyzer.score_skills r2) = text).
  { rewrite <- e4. clear. unfold skills_analyzer.score_skills.
    generalize (skills_analyzer.category_scores (skills r2)). intros scores.
    assert (H0 : raw_text (set_skill_scores scores r2) = raw_text r2)
      by reflexivity.
    generalize dependent (set_skill_scores scores r2). intros q H0.
    cbv zeta. split_ifs;
      unfold add_recommendation; split_ifs; exact H0. }
  set (r3 := skills_analyzer.score_skills r2) in *.
  unfold experience_analyzer.analyze in H.
  destruct (experience_analyzer.extract_experience r3) as [r4|] eqn:H4;
    [|discriminate].
  destruct (experience_analyzer.extract_education r4) as [r5|] eqn:H5;
    [|discriminate].
  injection H as <-.
  apply extract_experience_extends in H4.
  apply extract_education_extends in H5.
  exists r3, r5. cbv zeta in *. repeat split; try assumption.
  - apply s5.
  - apply s5.
  - rewrite s2, e1, c1. reflexivity.
  - rewrite s3, e2, c2. reflexivity.
  - apply (extends_trans H4 H5).
  - apply (extends_trans H4 H5).
  - apply (extends_trans H4 H5).
Qed.

(** ** Recommendations of the profile *)

(** X1.  Every text is analyzed into a profile whose recommendations are
    pairwise distinct, never the empty string, and at least one. *)
Theorem X1_recommendations_unique_and_present :
  forall (text filename : str),
  exists r : Resume,
    pipeline text filename = Some r
    /\ NoDup (recommendations r)
    /\ ~ In [] (recommendations r)
    /\ recommendations r <> [].
Proof.
  intros text filename.
  destruct (pipeline_returns text filename) as [r H]. exists r.
  split; [exact H|].
  destruct (pipeline_stages _ _ H) as (r3 & r5 & _ & Hok & _ & _ & Hext & ->).
  destruct Hext as (Hrec & _).
  assert (H5 : recommendations_ok r5).
  { unfold recommendations_ok. rewrite Hrec. exact Hok. }
  unfold experience_analyzer.score_experience_education. cbv zeta.
  match goal with
  | |- context [experience_analyzer._add_experience_education_recommendations ?x] =>
      assert (Hx : recommendations_ok x) by exact H5;
      destruct (add_recommendations_ok Hx) as [[Hnd Hne] Hnil]
  end.
  repeat split; assumption.
Qed.

(** ** Records of the profile *)

Lemma pipeline_records : forall text filename r,
  pipeline text filename = Some r ->
  Forall extracted_experience (experience r)
  /\ Forall extracted_education (education r).
Proof.
  intros text filename r H.
  destruct (pipeline_stages _ _ H)
    as (r3 & r5 & _ & _ & He & Hd & (_ & (es & He5 & Hes) & (ds & Hd5 & Hds))
        & ->).
  pose proof (score_experience_education_facts r5) as (_ & f2 & f3 & _).
  cbv zeta in f2, f3. rewrite f2, f3, He5, Hd5, He, Hd. split; assumption.
Qed.

Lemma Present_is_not_Current : lit "Present" <> lit "Current".
Proof. intros H. vm_compute in H. discriminate H. Qed.

Lemma Present_is_not_Now : lit "Present" <> lit "Now".
Proof. intros H. vm_compute in H. discriminate H. Qed.

Lemma _extract_dates_ok : forall entry,
  date_pair_ok (fst (experience_analyzer._extract_dates entry))
               (snd (experience_analyzer._extract_dates entry)).
Proof.
  intros entry. unfold experience_analyzer._extract_dates.
  destruct (experience_analyzer.search_groups _ _ _) as [[s e]|];
    [|exact I].
  cbv zeta. cbn [fst snd date_pair_ok].
  destruct (mem e _) eqn:Hm.
  - split; [apply Present_is_not_Current | apply Present_is_not_Now].
  - apply mem_false_not_In in Hm. split; intros ->; apply Hm.
    + right; left; reflexivity.
    + right; right; left; reflexivity.
Qed.

(** X2.  In the profile of every text, each experience and each education
    record has either both dates or none, and an end date is never the
    word "Current" or "Now" (both are stored as "Present"). *)
Theorem X2_dates_come_in_pairs :
  forall (text filename : str),
  exists r : Resume,
    pipeline text filename = Some r
    /\ Forall (fun e => date_pair_ok (exp_start_date e) (exp_end_date e))
              (experience r)
    /\ Forall (fun e => date_pair_ok (edu_start_date e) (edu_end_date e))
              (education r).
Proof.
  intros text filename.
  destruct (pipeline_returns text filename) as [r H]. exists r.
  split; [exact H|].
  destruct (pipeline_records _ _ H) as [He Hd]. split.
  - eapply Forall_impl; [|exact He].
    intros e (entry & company & title & _ & _ & ->). apply _extract_dates_ok.
  - eapply Forall_impl; [|exact Hd].
    intros e (entry & institution & degree & field & _ & _ & _ & ->).
    apply _extract_dates_ok.
Qed.

Lemma org_role_loop_trimmed : forall lines org role,
  experience_analyzer.org_role_loop lines = Some (org, role) ->
  trimmed org /\ trimmed role.
Proof.
  induction lines as [|line0 rest IH]; intros org role H;
    cbn [experience_analyzer.org_role_loop] in H.
  - injection H as <- <-. split; apply nil_trimmed.
  - cbv zeta in H.
    destruct (contains (lit " - ") (strip line0)).
    { destruct (nth_error _ 0); [|discriminate].
      destruct (nth_error _ 1); [|discriminate].
      injection H as <- <-. split; apply strip_trimmed. }
    destruct (contains (lit " at ") (lower (strip line0))).
    { destruct (nth_error _ 0); [|discriminate].
      destruct (nth_error _ 1); [|discriminate].
      injection H as <- <-. split; apply strip_trimmed. }
    destruct (contains (lit ",") (strip line0)).
    { destruct (nth_error _ 0); [|discriminate].
      destruct (nth_error _ 1); [|discriminate].
      injection H as <- <-. split; apply strip_trimmed. }
    now apply IH.
Qed.

Lemma org_role_heuristics_trimmed : forall lines org role org' role',
  trimmed org -> trimmed role ->
  experience_analyzer.org_role_heuristics lines org role = Some (org', role') ->
  trimmed org' /\ trimmed role'.
Proof.
  intros lines org role org' role' Ho Hr H.
  unfold experience_analyzer.org_role_heuristics in H.
  destruct (negb (truthy org) || negb (truthy role)).
  - destruct (nth_error lines 0) as [first|]; [|discriminate].
    cbv zeta in H.
    destruct (negb (truthy org) && negb (truthy role)).
    + injection H as <- <-. split; [apply strip_trimmed | assumption].
    + destruct (negb (truthy org)).
      * destruct lines as [|l1 [|l2 ls]]; injection H as <- <-;
          split; try assumption; apply strip_trimmed.
      * destruct lines as [|l1 [|l2 ls]]; injection H as <- <-;
          split; try assumption; apply strip_trimmed.
  - injection H as <- <-. now split.
Qed.

Lemma _extract_company_title_trimmed : forall entry company title,
  experience_analyzer._extract_company_title entry = Some (company, title) ->
  trimmed company /\ trimmed title.
Proof.
  intros entry company title H.
  unfold experience_analyzer._extract_company_title in H. cbv zeta in H.
  destruct (experience_analyzer.org_role_loop _) as [[o r]|] eqn:E;
    [|discriminate].
  apply org_role_loop_trimmed in E as [Ho Hr].
  cbn [fst snd] in H.
  eapply org_role_heuristics_trimmed; [exact Ho | exact Hr | exact H].
Qed.

Lemma degree_line_trimmed : forall lines,
  trimmed (experience_analyzer.degree_line lines).
Proof.
  induction lines as [|line rest IH]; cbn [experience_analyzer.degree_line].
  - apply nil_trimmed.
  - destruct (_ && _); [apply strip_trimmed | exact IH].
Qed.

Lemma _extract_institution_degree_trimmed : forall entry institution degree,
  experience_analyzer._extract_institution_degree entry
  = Some (institution, degree) ->
  trimmed institution /\ trimmed degree.
Proof.
  intros entry institution degree H.
  unfold experience_analyzer._extract_institution_degree in H. cbv zeta in H.
  destruct (experience_analyzer.org_role_loop _) as [[o r]|] eqn:E;
    [|discriminate].
  apply org_role_loop_trimmed in E as [Ho Hr].
  destruct (experience_analyzer.org_role_heuristics _ _ _) as [[i d]|] eqn:E2;
    [|discriminate].
  cbn [fst snd] in E2.
  destruct (org_role_heuristics_trimmed _ Ho Hr E2) as [Hi Hd].
  injection H as <- <-. split; [assumption|].
  destruct (truthy d); [assumption | apply degree_line_trimmed].
Qed.

(** X3.  In the profile of every text, company and title of each
    experience record and institution and degree of each education record
    carry no white space at either end, and company and institution hold
    at least one character that is not white space. *)
Theorem X3_names_are_trimmed :
  forall (text filename : str),
  exists r : Resume,
    pipeline text filename = Some r
    /\ Forall (fun e => trimmed (exp_company e) /\ trimmed (exp_title e)
                        /\ exp_company e <> [])
              (experience r)
    /\ Forall (fun e => trimmed (edu_institution e) /\ trimmed (edu_degree e)
                        /\ edu_institution e <> [])
              (education r).
Proof.
  intros text filename.
  destruct (pipeline_returns text filename) as [r H]. exists r.
  split; [exact H|].
  destruct (pipeline_records _ _ H) as [He Hd]. split.
  - eapply Forall_impl; [|exact He].
    intros e (entry & company & title & Hct & Hc & ->).
    apply _extract_company_title_trimmed in Hct as [H1 H2].
    repeat split; try assumption. now apply truthy_nonempty.
  - eapply Forall_impl; [|exact Hd].
    intros e (entry & institution & degree & field & Hid & Hc & _ & ->).
    apply _extract_institution_degree_trimmed in Hid as [H1 H2].
    repeat split; try assumption. now apply truthy_nonempty.
Qed.

(** ** Descriptions and responsibilities *)

Lemma join_nonempty : forall sep (l : list str),
  l <> [] -> Forall (fun x => x <> []) l -> join sep l <> [].
Proof.
  intros sep [|[|c a] l] Hl Hall; [congruence | |].
  - inversion Hall; congruence.
  - destruct l; discriminate.
Qed.

Lemma join_description_nonempty : forall lines,
  Forall (fun x => x <> []) lines ->
  experience_analyzer.join_description lines <> Some [].
Proof.
  intros lines H. unfold experience_analyzer.join_description.
  destruct lines as [|l ls]; [discriminate|]. cbn [nonempty].
  intros Heq. injection Heq as Heq.
  assert (Hj : join (lit " ") (l :: ls) <> [])
    by (apply join_nonempty; [discriminate | assumption]).
  apply Hj. exact Heq.
Qed.

Lemma description_responsibilities_ok : forall entry,
  fst (experience_analyzer._extract_description_responsibilities entry)
  <> Some []
  /\ Forall (fun x => x <> [] /\ trimmed x)
            (snd (experience_analyzer._extract_description_responsibilities
                    entry)).
Proof.
  intros entry.
  unfold experience_analyzer._extract_description_responsibilities.
  cbv zeta.
  match goal with
  | |- context [fold_left ?f ?l ?a] =>
      assert (Hinv : Forall (fun x => x <> []) (fst (fold_left f l a))
                     /\ Forall (fun x => x <> [] /\ trimmed x)
                               (snd (fold_left f l a)));
      [|destruct (fold_left f l a) as [d rs]]
  end.
  - apply fold_left_keeps.
    + intros [d rs] line0 [Hd Hrs]. cbv zeta. cbn [fst snd] in *.
      destruct (experience_analyzer.is_bullet (strip line0)).
      * destruct (truthy (strip (re_sub _ _ _ _))) eqn:Ht;
          cbn [fst snd]; split; try assumption.
        apply Forall_app. split; [assumption|]. repeat constructor.
        -- now apply truthy_nonempty.
        -- apply strip_trimmed.
      * destruct (truthy (strip line0)) eqn:Ht; cbn [fst snd];
          split; try assumption.
        apply Forall_app. split; [assumption|]. repeat constructor.
        now apply truthy_nonempty.
    + cbn [fst snd]. split; constructor.
  - cbn [fst snd] in *. destruct Hinv as [Hd Hrs]. split; [|assumption].
    now apply join_description_nonempty.
Qed.

Lemma education_description_ok : forall entry,
  experience_analyzer._extract_education_description entry <> Some [].
Proof.
  intros entry. unfold experience_analyzer._extract_education_description.
  cbv zeta. apply join_description_nonempty.
  apply Forall_forall. intros x Hx. apply filter_In in Hx as [_ Hx].
  apply andb_prop in Hx as [_ Hx]. now apply truthy_nonempty.
Qed.

(** X4.  In the profile of every text no responsibility is the empty
    string or has white space at either end, and a description, when
    there is one, is not the empty string. *)
Theorem X4_no_empty_responsibility_or_description :
  forall (text filename : str),
  exists r : Resume,
    pipeline text filename = Some r
    /\ Forall (fun e => exp_description e <> Some []
                        /\ Forall (fun x => x <> [] /\ trimmed x)
                                  (exp_responsibilities e))
              (experience r)
    /\ Forall (fun e => edu_description e <> Some []) (education r).
Proof.
  intros text filename.
  destruct (pipeline_returns text filename) as [r H]. exists r.
  split; [exact H|].
  destruct (pipeline_records _ _ H) as [He Hd]. split.
  - eapply Forall_impl; [|exact He].
    intros e (entry & company & title & _ & _ & ->).
    apply description_responsibilities_ok.
  - eapply Forall_impl; [|exact Hd].
    intros e (entry & institution & degree & field & _ & _ & _ & ->).
    apply education_description_ok.
Qed.

Lemma skipn_all_of : forall (A : Type) (n : nat) (l : list A),
  (length l <= n)%nat -> skipn (Nat.min n (length l)) l = [].
Proof.
  intros A n l H. rewrite Nat.min_r by assumption. apply skipn_all.
Qed.

(** X5.  The first three lines of an entry are never read as description,
    responsibility or field of study: for every entry of at most three
    lines, the description is absent, the list of responsibilities is
    empty, the education description is absent, and a field of study can
    only come from the degree. *)
Theorem X5_first_three_lines_are_skipped :
  forall (entry degree : str),
    (length (split_char newline entry) <= 3)%nat ->
    experience_analyzer._extract_description_responsibilities entry
    = (None, [])
    /\ experience_analyzer._extract_education_description entry = None
    /\ (experience_analyzer.search_groups
          false experience_analyzer.field_patterns degree = None ->
        experience_analyzer._extract_field_of_study entry degree = Some None).
Proof.
  intros entry degree H. repeat split.
  - unfold experience_analyzer._extract_description_responsibilities.
    cbv zeta. rewrite skipn_all_of by assumption. reflexivity.
  - unfold experience_analyzer._extract_education_description.
    cbv zeta. rewrite skipn_all_of by assumption. reflexivity.
  - intros Hd. unfold experience_analyzer._extract_field_of_study.
    rewrite Hd. cbv zeta. rewrite skipn_all_of by assumption. reflexivity.
Qed.

Lemma X5_witness :
  let entry := lit "Acme Corp - Engineer\n2020 - Present\n- Built things" in
  (length (split_char newline entry) <= 3)%nat
  /\ experience_analyzer._extract_description_responsibilities entry
     = (None, []).
Proof.
  intros entry.
  assert (H : (length (split_char newline entry) <= 3)%nat)
    by (vm_compute; lia).
  split; [exact H|].
  exact (proj1 (X5_first_three_lines_are_skipped entry [] H)).
Defined.

(** ** Sections and entries *)

Lemma scan_section_start : forall headers is_end lines i start,
  fst (scan_section headers is_end lines i start) = None <->
  (start = None
   /\ Forall (fun line => is_header headers (strip (lower line)) = false)
             lines).
Proof.
  intros headers is_end lines.
  induction lines as [|line rest IH]; intros i start; cbn [scan_section].
  - cbn [fst]. split; [intros ->; split; constructor | intros [-> _]; reflexivity].
  - destruct (is_header headers (strip (lower line))) eqn:Eh.
    + rewrite IH. split; [intros [Hs _]; discriminate Hs|].
      intros [_ Hall]. inversion Hall; congruence.
    + destruct start as [s|].
      * split; [|intros [Hs _]; discriminate Hs].
        destruct (is_end line); cbn [fst]; [discriminate|].
        rewrite IH. intros [Hs _]. discriminate Hs.
      * rewrite IH. split.
        -- intros [_ Hall]. split; [reflexivity|]. now constructor.
        -- intros [_ Hall]. split; [reflexivity|]. now inversion Hall.
Qed.

(** X6.  A section is found exactly when some line of the text contains
    one of the headers, in any case and anywhere in the line; the line
    need not consist of the header alone. *)
Theorem X6_section_found_iff_a_line_contains_a_header :
  forall (text : str) (headers : list str),
    experience_analyzer._extract_section text headers <> None
    <-> has_header_line headers text.
Proof.
  intros text headers. unfold experience_analyzer._extract_section.
  cbv zeta.
  pose proof (scan_section_start headers experience_analyzer.section_end
                (split_char newline text) 0 None) as Hs.
  destruct (scan_section _ _ _ _ _) as [[start|] e]; cbn [fst] in Hs.
  - split; [intros _ | intros _; discriminate].
    destruct (Exists_dec
                (fun line => is_header headers (strip (lower line)) = true)
                (split_char newline text)) as [Hex | Hno].
    { intros line. destruct (is_header headers (strip (lower line)));
        [now left | right; discriminate]. }
    + apply Exists_exists in Hex. exact Hex.
    + exfalso. assert (Hn : Some start = None); [|discriminate Hn].
      apply Hs. split; [reflexivity|].
      apply Forall_forall. intros line Hin.
      destruct (is_header headers (strip (lower line))) eqn:E;
        [|reflexivity].
      exfalso. apply Hno. apply Exists_exists. now exists line.
  - split; [intros Hne; now contradiction Hne|].
    intros (line & Hin & Hh). exfalso.
    destruct (proj1 Hs eq_refl) as [_ Hall].
    rewrite Forall_forall in Hall. rewrite (Hall _ Hin) in Hh. discriminate.
Qed.

Lemma join_grow_last : forall (X : list str) x y,
  join nl (X ++ [x ++ nl ++ y]) = join nl (X ++ [x]) ++ nl ++ y.
Proof.
  intros X x y. destruct X as [|a X].
  - reflexivity.
  - rewrite !join_snoc by discriminate. now rewrite <- !app_assoc.
Qed.

Lemma followed_by_next : forall done line rest,
  followed_by (done ++ [line]) rest = followed_by done (line :: rest).
Proof.
  intros done line rest. unfold followed_by.
  destruct done as [|a done].
  - cbn [app]. destruct rest; reflexivity.
  - change ((a :: done) ++ [line]) with (a :: (done ++ [line])).
    change (a :: (done ++ [line])) with ((a :: done) ++ [line]).
    destruct ((a :: done) ++ [line]) as [|b l] eqn:E; [discriminate|].
    rewrite <- E. rewrite join_snoc by discriminate.
    destruct rest as [|r rest].
    + reflexivity.
    + change (join nl (line :: r :: rest))
        with (line ++ nl ++ join nl (r :: rest)).
      now rewrite <- !app_assoc.
Qed.

Lemma followed_by_grow : forall entries x line rest,
  followed_by (entries ++ [x ++ nl ++ line]) rest
  = followed_by (entries ++ [x]) (line :: rest).
Proof.
  intros entries x line rest. unfold followed_by.
  destruct (entries ++ [x ++ nl ++ line]) as [|b l] eqn:E;
    [destruct entries; discriminate|].
  destruct (entries ++ [x]) as [|b' l'] eqn:E';
    [destruct entries; discriminate|].
  rewrite <- E, <- E'. rewrite join_grow_last.
  destruct rest as [|r rest].
  - reflexivity.
  - change (join nl (line :: r :: rest))
      with (line ++ nl ++ join nl (r :: rest)).
    now rewrite <- !app_assoc.
Qed.

Lemma split_lines_text : forall lines entries current E C,
  experience_analyzer.split_lines lines entries current = (E, C) ->
  join nl (closed_entries E C)
  = followed_by (closed_entries entries current) lines.
Proof.
  induction lines as [|line rest IH]; intros entries current E C H;
    cbn [experience_analyzer.split_lines] in H.
  - injection H as <- <-. unfold followed_by.
    destruct (closed_entries entries current); reflexivity.
  - destruct (re_match false experience_analyzer.entry_start (strip line))
      as [m|]; destruct current as [|c cs]; apply IH in H; rewrite H.
    + change (closed_entries entries ([] ++ [line])) with (entries ++ [line]).
      change (closed_entries entries []) with entries.
      apply followed_by_next.
    + change (closed_entries (entries ++ [join nl (c :: cs)]) [line])
        with ((entries ++ [join nl (c :: cs)]) ++ [line]).
      change (closed_entries entries (c :: cs))
        with (entries ++ [join nl (c :: cs)]).
      apply followed_by_next.
    + change (closed_entries entries ([] ++ [line])) with (entries ++ [line]).
      change (closed_entries entries []) with entries.
      apply followed_by_next.
    + change (closed_entries entries ((c :: cs) ++ [line]))
        with (entries ++ [join nl ((c :: cs) ++ [line])]).
      change (closed_entries entries (c :: cs))
        with (entries ++ [join nl (c :: cs)]).
      rewrite join_snoc by discriminate.
      apply followed_by_grow.
Qed.

Lemma line_start_entries_text : forall section_text,
  join nl (experience_analyzer.line_start_entries section_text)
  = section_text.
Proof.
  intros section_text. unfold experience_analyzer.line_start_entries.
  destruct (experience_analyzer.split_lines _ _ _) as [E C] eqn:H.
  apply split_lines_text in H. unfold closed_entries in H.
  cbn [nonempty] in H. unfold followed_by in H.
  rewrite H. apply (join_split_char newline).
Qed.

(** X7.  Splitting the body of a section into entries loses nothing: the
    entries of a body returned by the section extractor, put on lines of
    their own again, give back the body, and there is at least one
    entry. *)
Theorem X7_entries_of_a_section_rebuild_it :
  forall (text : str) (headers : list str) (body : str),
    experience_analyzer._extract_section text headers = Some body ->
    join nl (experience_analyzer._split_section_into_entries body) = body
    /\ experience_analyzer._split_section_into_entries body <> [].
Proof.
  intros text headers body H.
  apply extract_section_body in H as (lines & -> & Hall).
  pose proof (join_no_blank_line Hall) as Hb.
  unfold experience_analyzer._split_section_into_entries.
  unfold experience_analyzer.blank_line_entries. rewrite Hb.
  cbn [nonempty].
  pose proof (line_start_entries_text (join nl lines)) as Ht.
  destruct (experience_analyzer.line_start_entries (join nl lines))
    as [|e es]; cbn [nonempty].
  - split; [reflexivity | discriminate].
  - split; [exact Ht | discriminate].
Qed.

Lemma X7_witness :
  let text := lit "Experience\nAcme Corp - Engineer\n2019 - 2021\nGlobex Inc - Lead\n2021 - Present" in
  let body := lit "Acme Corp - Engineer\n2019 - 2021\nGlobex Inc - Lead\n2021 - Present" in
  experience_analyzer._extract_section text experience_analyzer.experience_headers
  = Some body
  /\ join nl (experience_analyzer._split_section_into_entries body) = body.
Proof.
  intros text body.
  assert (H : experience_analyzer._extract_section
                text experience_analyzer.experience_headers = Some body)
    by (vm_compute; reflexivity).
  split; [exact H|].
  exact (proj1 (X7_entries_of_a_section_rebuild_it _ _ H)).
Defined.

(** ** Contact details *)

Lemma add_recommendation_contact : forall rec r,
  contact_details (add_recommendation rec r) = contact_details r.
Proof.
  intros rec r. unfold add_recommendation.
  destruct (_ && _); reflexivity.
Qed.

Ltac contact_stays :=
  cbv zeta; split_ifs; rewrite ?add_recommendation_contact; auto.

Lemma contact_fold : forall (A : Type) (f : A -> Resume -> Resume) l r,
  (forall a r, contact_details (f a r) = contact_details r) ->
  contact_details (fold_left (fun r a => f a r) l r) = contact_details r.
Proof.
  intros A f l. induction l as [|a l IH]; intros r Hf; cbn [fold_left].
  - reflexivity.
  - rewrite IH by assumption. apply Hf.
Qed.

Lemma skills_analyzer_contact : forall r,
  contact_details (skills_analyzer.analyze r) = contact_details r.
Proof.
  intros r. unfold skills_analyzer.analyze, skills_analyzer.score_skills.
  set (r2 := skills_analyzer.extract_skills r _).
  assert (H2 : contact_details r2 = contact_details r) by reflexivity.
  clearbody r2.
  generalize (skills_analyzer.category_scores (skills r2)). intros scores.
  assert (H0 : contact_details (set_skill_scores scores r2)
               = contact_details r) by exact H2.
  generalize dependent (set_skill_scores scores r2). intros q H0.
  contact_stays.
Qed.

Lemma experience_recommendations_contact : forall exp r,
  contact_details (experience_analyzer.experience_recommendations exp r)
  = contact_details r.
Proof.
  intros exp r. unfold experience_analyzer.experience_recommendations.
  contact_stays.
Qed.

Lemma education_recommendations_contact : forall edu r,
  contact_details (experience_analyzer.education_recommendations edu r)
  = contact_details r.
Proof.
  intros edu r. unfold experience_analyzer.education_recommendations.
  contact_stays.
Qed.

Lemma add_recommendations_contact : forall r,
  contact_details
    (experience_analyzer._add_experience_education_recommendations r)
  = contact_details r.
Proof.
  intros r.
  unfold experience_analyzer._add_experience_education_recommendations.
  set (r1 := if negb (nonempty (experience r)) then _ else _).
  assert (H1 : contact_details r1 = contact_details r).
  { subst r1. contact_stays. }
  clearbody r1. cbv zeta.
  set (r2 := fold_left _ (experience r1) r1).
  assert (H2 : contact_details r2 = contact_details r).
  { subst r2. rewrite <- H1.
    apply (contact_fold experience_analyzer.experience_recommendations).
    apply experience_recommendations_contact. }
  clearbody r2.
  set (r3 := if negb (nonempty (education r2)) then _ else _).
  assert (H3 : contact_details r3 = contact_details r).
  { subst r3. contact_stays. }
  clearbody r3.
  set (r4 := fold_left _ (education r3) r3).
  assert (H4 : contact_details r4 = contact_details r).
  { subst r4. rewrite <- H3.
    apply (contact_fold experience_analyzer.education_recommendations).
    apply education_recommendations_contact. }
  clearbody r4.
  contact_stays.
Qed.

Lemma experience_of_entry_contact : forall entry r r',
  experience_analyzer.experience_of_entry entry r = Some r' ->
  contact_details r' = contact_details r.
Proof.
  intros entry r r' H. unfold experience_analyzer.experience_of_entry in H.
  destruct (experience_analyzer._extract_company_title entry)
    as [[company title]|]; [|discriminate].
  destruct (negb (truthy company)); [now injection H as <-|].
  destruct (experience_analyzer._extract_dates entry).
  destruct (experience_analyzer._extract_description_responsibilities entry).
  now injection H as <-.
Qed.

Lemma education_of_entry_contact : forall entry r r',
  experience_analyzer.education_of_entry entry r = Some r' ->
  contact_details r' = contact_details r.
Proof.
  intros entry r r' H. unfold experience_analyzer.education_of_entry in H.
  destruct (experience_analyzer._extract_institution_degree entry)
    as [[institution degree]|]; [|discriminate].
  destruct (negb (truthy institution)); [now injection H as <-|].
  destruct (experience_analyzer._extract_field_of_study entry degree);
    [|discriminate].
  destruct (experience_analyzer._extract_dates entry).
  now injection H as <-.
Qed.

Lemma for_entries_contact : forall body entries r r',
  (forall entry r r',
     body entry r = Some r' -> contact_details r' = contact_details r) ->
  experience_analyzer.for_entries body entries r = Some r' ->
  contact_details r' = contact_details r.
Proof.
  intros body entries. induction entries as [|entry rest IH];
    intros r r' Hbody H; cbn [experience_analyzer.for_entries] in H.
  - now injection H as <-.
  - destruct (body entry r) as [r1|] eqn:H1; [|discriminate].
    rewrite (IH _ _ Hbody H). eapply Hbody. eassumption.
Qed.

Lemma experience_analyzer_contact : forall r r',
  experience_analyzer.analyze r = Some r' ->
  contact_details r' = contact_details r.
Proof.
  intros r r' H. unfold experience_analyzer.analyze in H.
  destruct (experience_analyzer.extract_experience r) as [r4|] eqn:H4;
    [|discriminate].
  destruct (experience_analyzer.extract_education r4) as [r5|] eqn:H5;
    [|discriminate].
  injection H as <-.
  assert (E4 : contact_details r4 = contact_details r).
  { unfold experience_analyzer.extract_experience in H4.
    destruct (experience_analyzer._extract_section _ _) as [section|];
      [|now injection H4 as <-].
    destruct (truthy section); [|now injection H4 as <-].
    eapply for_entries_contact; [|exact H4].
    apply experience_of_entry_contact. }
  assert (E5 : contact_details r5 = contact_details r4).
  { unfold experience_analyzer.extract_education in H5.
    destruct (experience_analyzer._extract_section _ _) as [section|];
      [|now injection H5 as <-].
    destruct (truthy section); [|now injection H5 as <-].
    eapply for_entries_contact; [|exact H5].
    apply education_of_entry_contact. }
  unfold experience_analyzer.score_experience_education. cbv zeta.
  rewrite add_recommendations_contact. rewrite <- E4, <- E5. reflexivity.
Qed.

Lemma pipeline_contact : forall text filename r,
  pipeline text filename = Some r ->
  contact_details r
  = contact_details (content_analyzer.analyze (new_Resume text filename)).
Proof.
  intros text filename r H. unfold pipeline in H. cbv zeta in H.
  apply experience_analyzer_contact in H. rewrite H.
  apply skills_analyzer_contact.
Qed.

(** What the contact extractor stores for a fresh resume. *)
Lemma contact_of_text : forall text filename,
  let r := content_analyzer.analyze (new_Resume text filename) in
  name r = content_analyzer.find_name (split_char newline text)
  /\ email r = hd_error (findall false content_analyzer.email_pattern text)
  /\ phone r = first_findall false content_analyzer.phone_patterns text
  /\ linkedin r = first_findall true content_analyzer.linkedin_patterns text
  /\ website r
     = content_analyzer.find_website content_analyzer.website_patterns text
  /\ location r
     = first_findall false content_analyzer.location_patterns text.
Proof.
  intros text filename r. subst r. unfold content_analyzer.analyze.
  set (r0 := new_Resume text filename).
  rewrite (extract_summary_keeps name) by reflexivity.
  rewrite (extract_summary_keeps email) by reflexivity.
  rewrite (extract_summary_keeps phone) by reflexivity.
  rewrite (extract_summary_keeps linkedin) by reflexivity.
  rewrite (extract_summary_keeps website) by reflexivity.
  rewrite (extract_summary_keeps location) by reflexivity.
  unfold content_analyzer.extract_contact_info. cbv zeta.
  change (raw_text r0) with text.
  generalize (content_analyzer.find_name (split_char newline text)).
  generalize (hd_error (findall false content_analyzer.email_pattern text)).
  generalize (first_findall false content_analyzer.phone_patterns text).
  generalize (first_findall true content_analyzer.linkedin_patterns text).
  generalize (content_analyzer.find_website
                content_analyzer.website_patterns text).
  generalize (first_findall false content_analyzer.location_patterns text).
  intros o6 o5 o4 o3 o2 o1.
  destruct o1, o2, o3, o4, o5, o6; repeat split; reflexivity.
Qed.

Lemma findall_occurs : forall ic p text x,
  In x (findall ic p text) -> occurs_in x text.
Proof.
  intros ic p text x H. unfold findall in H.
  apply in_map_iff in H as (m & <- & _). apply slice_occurs.
Qed.

Lemma first_findall_occurs : forall ic ps text x,
  first_findall ic ps text = Some x -> occurs_in x text.
Proof.
  intros ic ps text x. induction ps as [|p ps IH]; intros H;
    cbn [first_findall] in H; [discriminate|].
  destruct (findall ic p text) as [|m ms] eqn:E; [now apply IH|].
  injection H as <-. apply (@findall_occurs ic p). rewrite E. now left.
Qed.

Lemma find_website_facts : forall ps text site,
  content_analyzer.find_website ps text = Some site ->
  occurs_in site text
  /\ Forall (fun s => contains s (lower site) = false)
            content_analyzer.job_sites.
Proof.
  intros ps text site. induction ps as [|p ps IH]; intros H;
    cbn [content_analyzer.find_website] in H; [discriminate|].
  destruct (filter _ (findall false p text)) as [|m ms] eqn:E;
    [now apply IH|].
  injection H as <-.
  assert (Hin : In m (filter
                        (fun site =>
                           negb (existsb (fun s => contains s (lower site))
                                         content_analyzer.job_sites))
                        (findall false p text)))
    by (rewrite E; now left).
  apply filter_In in Hin as [Hin Hf]. split.
  - now apply (@findall_occurs false p).
  - apply Forall_forall. intros s Hs.
    apply negb_true_iff in Hf.
    destruct (contains s (lower m)) eqn:Ec; [|reflexivity].
    assert (Hex : existsb (fun s => contains s (lower m))
                          content_analyzer.job_sites = true)
      by (apply existsb_exists; now exists s).
    congruence.
Qed.

Lemma In_firstn : forall (A : Type) n (l : list A) x,
  In x (firstn n l) -> In x l.
Proof.
  intros A n l x H. rewrite <- (firstn_skipn n l).
  apply in_or_app. now left.
Qed.

Lemma find_name_facts : forall lines n,
  content_analyzer.find_name lines = Some n ->
  (exists line, In line (firstn 5 lines) /\ n = strip line)
  /\ n <> [] /\ (length n < 50)%nat
  /\ Forall (fun keyword => contains keyword (lower n) = false)
            content_analyzer.name_stop_words.
Proof.
  intros lines n H. unfold content_analyzer.find_name in H.
  apply find_some in H as [Hin Hp].
  apply andb_prop in Hp as [Hp Hk]. apply andb_prop in Hp as [Ht Hl].
  split; [|split; [|split]].
  - apply in_map_iff in Hin as (line & <- & Hin). now exists line.
  - now apply truthy_nonempty.
  - now apply Nat.ltb_lt.
  - apply Forall_forall. intros k Hk'.
    apply negb_true_iff in Hk.
    destruct (contains k (lower n)) eqn:Ec; [|reflexivity].
    assert (Hex : existsb (fun keyword => contains keyword (lower n))
                          content_analyzer.name_stop_words = true)
      by (apply existsb_exists; now exists k).
    congruence.
Qed.

(** X8.  Contact details are quoted, never made up: in the profile of
    every text, the name, the e-mail address, the phone number, the
    LinkedIn address, the website and the location each occur in the
    text character for character. *)
Theorem X8_contact_details_occur_in_the_text :
  forall (text filename : str),
  exists r : Resume,
    pipeline text filename = Some r
    /\ Forall (fun field => forall x, field = Some x -> occurs_in x text)
              [name r; email r; phone r; linkedin r; website r; location r].
Proof.
  intros text filename.
  destruct (pipeline_returns text filename) as [r H]. exists r.
  split; [exact H|].
  apply pipeline_contact in H. unfold contact_details in H.
  injection H as _ Hn He Hp Hl Hk Hw _.
  destruct (contact_of_text text filename) as (c1 & c2 & c3 & c4 & c5 & c6).
  cbv zeta in *.
  rewrite Hn, He, Hp, Hl, Hk, Hw, c1, c2, c3, c4, c5, c6.
  repeat constructor; intros x Hx.
  - apply find_name_facts in Hx as ((line & Hin & ->) & _).
    apply In_firstn in Hin.
    eapply occurs_in_trans; [apply strip_occurs|].
    eapply split_char_occurs. eassumption.
  - apply (@findall_occurs false content_analyzer.email_pattern).
    destruct (findall false content_analyzer.email_pattern text);
      [discriminate|].
    injection Hx as <-. now left.
  - eapply first_findall_occurs. eassumption.
  - eapply first_findall_occurs. eassumption.
  - eapply find_website_facts. eassumption.
  - eapply first_findall_occurs. eassumption.
Qed.

Lemma summary_of_text : forall r s,
  summary r = None ->
  summary (content_analyzer.extract_summary r) = Some s ->
  s <> [] /\ trimmed s.
Proof.
  intros r s Hr H. unfold content_analyzer.extract_summary in H.
  destruct (scan_section _ _ _ _ _) as [[start|] e]; [|congruence].
  cbv zeta in H.
  destruct (truthy (strip _)) eqn:Ht; [|congruence].
  change (summary (set_summary ?v r)) with v in H.
  injection H as <-. split; [now apply truthy_nonempty | apply strip_trimmed].
Qed.

(** X9.  What the content analyzer refuses to store: the name in the
    profile of a text is one of its first five lines with the white space
    at its ends removed, is not empty, is shorter than 50 characters and
    contains none of the words "resume", "cv" and "curriculum" in any
    case; the website contains the name of no job site; a summary is not
    empty and has no white space at its ends. *)
Theorem X9_name_website_and_summary_are_filtered :
  forall (text filename : str),
  exists r : Resume,
    pipeline text filename = Some r
    /\ (forall n, name r = Some n ->
          (exists line,
              In line (firstn 5 (split_char newline text)) /\ n = strip line)
          /\ n <> [] /\ (length n < 50)%nat
          /\ Forall (fun keyword => contains keyword (lower n) = false)
                    content_analyzer.name_stop_words)
    /\ (forall site, website r = Some site ->
          Forall (fun s => contains s (lower site) = false)
                 content_analyzer.job_sites)
    /\ (forall s, summary r = Some s -> s <> [] /\ trimmed s).
Proof.
  intros text filename.
  destruct (pipeline_returns text filename) as [r H]. exists r.
  split; [exact H|].
  apply pipeline_contact in H. unfold contact_details in H.
  injection H as _ Hn _ _ _ _ Hw Hs.
  destruct (contact_of_text text filename) as (c1 & _ & _ & _ & c5 & _).
  cbv zeta in *. rewrite Hn, Hw, Hs, c1, c5.
  split; [|split].
  - intros n Hx. now apply find_name_facts.
  - intros site Hx. eapply find_website_facts. eassumption.
  - intros s Hx. unfold content_analyzer.analyze in Hx.
    eapply summary_of_text; [|exact Hx].
    apply (extract_contact_info_keeps summary); reflexivity.
Qed.

(** ** Skills *)







Lemma weighted_category_score_bounds : forall weight keywords skills,
  0 <= weight ->
  0 <= skills_analyzer.weighted_category_score (weight, keywords) skills
  /\ skills_analyzer.weighted_category_score (weight, keywords) skills
     <= 10 * weight.
Proof.
  intros weight keywords skills Hw.
  unfold skills_analyzer.weighted_category_score. cbn [fst snd].
  assert (H0 : 0 <= skills_analyzer.category_score keywords skills)
    by apply Qofnat_nonneg.
  set (x := skills_analyzer.category_score keywords skills) in *.
  assert (H1 : 0 <= Qmin 10 (x / 10 * 10)).
  { apply Qmin_nonneg; [lra|]. field_simplify. lra. }
  assert (H2 : Qmin 10 (x / 10 * 10) <= 10) by apply Q.le_min_l.
  split; nra.
Qed.

(** X11.  The three category scores of the skills analyzer are capped by
    their weights: in the profile of every text they are the technical,
    soft and domain scores, in this order, within [0, 6], [0, 2] and
    [0, 2].  The general skills score, five points for the number of
    skills plus at most five for the mean of the three, therefore never
    exceeds 25/3. *)
Theorem X11_category_scores_are_capped_by_their_weights :
  forall (now : Z * Z) (text filename : str),
  exists (r : Resume) (a : ats_analyzer.Analysis) (t s dm sk : Q),
    dashboard now text filename = Some (r, a)
    /\ skill_scores r
       = [(lit "technical", t); (lit "soft", s); (lit "domain", dm)]
    /\ (0 <= t <= 6) /\ (0 <= s <= 2) /\ (0 <= dm <= 2)
    /\ skill_score r = Some sk
    /\ sk <= 25 # 3.
Proof.
  intros now text filename.
  destruct (pipeline_returns text filename) as [r0 H].
  unfold dashboard. rewrite H. cbv zeta.
  pose proof (pipeline_facts _ _ H) as (_ & Hs & _).
  set (skills0 := skills r0) in *.
  assert (w6 : 0 <= 6 # 10) by lra.
  assert (w2 : 0 <= 2 # 10) by lra.
  pose proof (@weighted_category_score_bounds (6 # 10)
                (snd (snd (nth 0 skills_analyzer.skill_categories
                                 ([], (0, []))))) skills0 w6) as [t0 t1].
  pose proof (@weighted_category_score_bounds (2 # 10)
                (snd (snd (nth 1 skills_analyzer.skill_categories
                                 ([], (0, []))))) skills0 w2) as [s0 s1].
  pose proof (@weighted_category_score_bounds (2 # 10)
                (snd (snd (nth 2 skills_analyzer.skill_categories
                                 ([], (0, []))))) skills0 w2) as [d0 d1].
  cbn [nth skills_analyzer.skill_categories snd] in t0, t1, s0, s1, d0, d1.
  match type of t0 with 0 <= ?x => set (t := x) in * end.
  match type of s0 with 0 <= ?x => set (s := x) in * end.
  match type of d0 with 0 <= ?x => set (dm := x) in * end.
  exists (scoring.generate_recommendations (scoring.score_resume now r0)).
  eexists. exists t, s, dm, (scoring.score_skills r0).
  split; [reflexivity|].
  change (skill_scores (scoring.generate_recommendations
                          (scoring.score_resume now r0)))
    with (skill_scores r0).
  change (skill_score (scoring.generate_recommendations
                         (scoring.score_resume now r0)))
    with (Some (scoring.score_skills r0)).
  split; [rewrite Hs; reflexivity|].
  split; [split; [exact t0 | clear - t1; lra]|].
  split; [split; [exact s0 | clear - s1; lra]|].
  split; [split; [exact d0 | clear - d1; lra]|].
  split; [reflexivity|].
  unfold scoring.score_skills. rewrite Hs. fold skills0.
  destruct (negb (nonempty skills0)); [lra|].
  cbv zeta.
  change (nonempty (skills_analyzer.category_scores skills0)) with true.
  cbv iota.
  change (length (skills_analyzer.category_scores skills0)) with 3%nat.
  change (Qofnat (Nat.max 1 3)) with (3 # 1).
  set (n := if 15 <=? length skills0 then 5
            else if 10 <=? length skills0 then 4
            else if 7 <=? length skills0 then 3
            else if 5 <=? length skills0 then 2
            else if 3 <=? length skills0 then 1 else 0).
  assert (Hn : n <= 5) by (subst n; split_ifs; lra).
  clearbody n.
  set (total := Qsum (map snd (skills_analyzer.category_scores skills0))).
  assert (Ht : total <= 10).
  { subst total. unfold skills_analyzer.category_scores.
    cbn [map skills_analyzer.skill_categories fst snd]. unfold Qsum.
    cbn [fold_left]. fold t s dm. clear - t1 s1 d1. lra. }
  clearbody total.
  eapply Qle_trans; [apply Q.le_min_r|].
  assert (Hm : Qmin 5 (total / (3 # 1)) <= total / (3 # 1))
    by apply Q.le_min_r.
  assert (Hd : total / (3 # 1) <= 10 # 3).
  { apply Qle_shift_div_r; lra. }
  lra.
Qed.

(** ** Floors of the scores *)

Lemma Qofnat_S_ge_1 : forall n, 1 <= Qofnat (S n).
Proof.
  intros n. change 1 with (Qofnat 1). apply Qofnat_le. lia.
Qed.

Lemma degree_score_floor : forall edu, 1 # 2 <= scoring.degree_score edu.
Proof.
  intros edu. unfold scoring.degree_score. cbv zeta. split_ifs; lra.
Qed.

Lemma highest_degree_ge : forall l a,
  a <= fold_left (fun highest edu => Qmax highest (scoring.degree_score edu))
                 l a.
Proof.
  induction l as [|edu l IH]; intros a; cbn [fold_left].
  - apply Qle_refl.
  - eapply Qle_trans; [|apply IH]. apply Q.le_max_l.
Qed.

(** X12.  A section scores zero exactly when it is empty.  With no
    experience record both experience scores are 0 and with one or more
    both are at least 1; with no education record both education scores
    are 0 and with one or more the analyzer's score is at least 2.5 and
    the general one at least 1.5. *)
Theorem X12_section_scores_are_zero_only_for_empty_sections :
  forall (now : Z * Z) (r : Resume),
    match experience r with
    | [] => experience_analyzer._score_experience r == 0
            /\ scoring.score_experience now r == 0
    | _ :: _ => 1 <= experience_analyzer._score_experience r
                /\ 1 <= scoring.score_experience now r
    end
    /\ match education r with
       | [] => experience_analyzer._score_education r == 0
               /\ scoring.score_education r == 0
       | _ :: _ => 5 # 2 <= experience_analyzer._score_education r
                   /\ 3 # 2 <= scoring.score_education r
       end.
Proof.
  intros now r. split.
  - unfold experience_analyzer._score_experience, scoring.score_experience.
    destruct (experience r) as [|e es]; [split; reflexivity|].
    cbn [nonempty negb]. cbv zeta. split.
    + match goal with
      | |- _ <= _ + Qmin 5 ?q =>
          assert (Hq : 0 <= Qmin 5 q);
          [apply Qmin_nonneg; [discriminate|];
           apply fold_nonneg; [|apply Qle_refl]; intros acc exp Hacc; nonneg
          | generalize dependent (Qmin 5 q); intros q' Hq]
      end.
      pose proof (Qofnat_S_ge_1 (length es)) as H1.
      change (length (e :: es)) with (S (length es)).
      assert (H2 : 1 <= Qmin 5 (Qofnat (S (length es))))
        by (apply Q.min_glb; [discriminate | exact H1]).
      lra.
    + change (1 <=? length (e :: es)) with true.
      generalize (scoring.total_months now (e :: es)). intros months.
      split_ifs; apply Q.min_glb; lra.
  - unfold experience_analyzer._score_education, scoring.score_education.
    destruct (education r) as [|e es]; [split; reflexivity|].
    cbn [nonempty negb]. cbv zeta. split.
    + match goal with
      | |- _ <= _ + Qmin 5 ?q =>
          assert (Hq : 0 <= Qmin 5 q);
          [apply Qmin_nonneg; [discriminate|];
           apply fold_nonneg; [|apply Qle_refl]; intros acc edu Hacc; nonneg
          | generalize dependent (Qmin 5 q); intros q' Hq]
      end.
      pose proof (Qofnat_S_ge_1 (length es)) as H1.
      change (length (e :: es)) with (S (length es)).
      assert (H2 : 5 # 2 <= Qmin 5 (Qofnat (S (length es)) * (5 # 2)))
        by (apply Q.min_glb; lra).
      lra.
    + change (1 <=? length (e :: es)) with true.
      change (0 <? length (e :: es)) with true. cbv iota.
      match goal with
      | |- _ <= Qmin 10 (_ + ?hd + Qmin 3 ?avg) =>
          assert (Hh : 1 # 2 <= hd);
          [| assert (Ha : 0 <= Qmin 3 avg);
             [| generalize dependent (Qmin 3 avg); intros a' Ha;
                generalize dependent hd; intros h' Hh ] ]
      end.
      * cbn [fold_left].
        eapply Qle_trans; [|apply highest_degree_ge].
        eapply Qle_trans; [apply (degree_score_floor e) | apply Q.le_max_r].
      * apply Qmin_nonneg; [discriminate|]. apply Qdiv_nonneg.
        -- apply fold_nonneg; [|apply Qle_refl]. intros acc edu Hacc.
           apply Qplus_nonneg; [assumption|].
           apply Qmin_nonneg; [discriminate|].
           unfold scoring.entry_score, scoring.half_if. nonneg.
        -- apply Qofnat_nonneg.
      * split_ifs; apply Q.min_glb; lra.
Qed.

(** X13.  The format scores start from a floor: the general format score
    is at least 5 whatever the profile holds, and the ATS format score
    is exactly 2 for an empty text and at least 3 for any other. *)
Theorem X13_format_scores_have_a_floor :
  forall r : Resume,
    5 <= scoring.score_format r
    /\ match raw_text r with
       | [] => ats_analyzer._calculate_format_score r == 2
       | _ :: _ => 3 <= ats_analyzer._calculate_format_score r
       end.
Proof.
  intros r. split.
  - unfold scoring.score_format, scoring.half_if. cbv zeta.
    generalize (text_utils.calculate_text_stats (raw_text r)). intros stats.
    match goal with
    | |- context [Qmin 2 ?c] =>
        assert (Hc : 0 <= Qmin 2 c) by nonneg;
        generalize dependent (Qmin 2 c); intros c' Hc
    end.
    split_ifs; apply Q.min_glb; lra.
  - unfold ats_analyzer._calculate_format_score.
    destruct (raw_text r) as [|c text]; [vm_compute; reflexivity|].
    cbn [truthy]. cbv zeta.
    generalize (text_utils.calculate_text_stats (c :: text)). intros stats.
    match goal with
    | |- context [Qmin 3 ?h] =>
        assert (Hh : 0 <= Qmin 3 h) by nonneg;
        generalize dependent (Qmin 3 h); intros h' Hh
    end.
    split_ifs; apply Q.min_glb; lra.
Qed.

(** ** Months of experience *)

Lemma add_months_ge : forall now total exp,
  (total <= scoring.add_months now total exp)%Z.
Proof.
  intros now total exp. unfold scoring.add_months.
  destruct (exp_start_date exp) as [start|]; [|lia].
  destruct (exp_end_date exp) as [stop|]; [|lia].
  destruct (truthy start && truthy stop); [|lia].
  destruct (negb _).
  - destruct (scoring.parse_date scoring.formats start); [|lia].
    destruct (scoring.parse_date scoring.formats stop); lia.
  - destruct (scoring.parse_date scoring.formats start); lia.
Qed.

Lemma fold_add_months_ge : forall now exps total,
  (total <= fold_left (scoring.add_months now) exps total)%Z.
Proof.
  intros now exps. induction exps as [|exp exps IH]; intros total;
    cbn [fold_left].
  - lia.
  - pose proof (add_months_ge now total exp). pose proof (IH (scoring.add_months now total exp)). lia.
Qed.

(** X14.  The months of experience never go down: the total over any
    list of records is not negative, and further records, whatever
    their dates (an end before the start included), never lower it. *)
Theorem X14_months_of_experience_never_decrease :
  forall (now : Z * Z) (exps more : list Experience),
    (0 <= scoring.total_months now exps)%Z
    /\ (scoring.total_months now exps
        <= scoring.total_months now (exps ++ more))%Z.
Proof.
  intros now exps more. unfold scoring.total_months. split.
  - apply fold_add_months_ge.
  - rewrite fold_left_app. apply fold_add_months_ge.
Qed.



(** ** The recommendations of the scoring module *)

Lemma generated_list_ok : forall r,
  let l := recommendations (scoring.generate_recommendations r) in
  (3 <=? length l) && (length l <=? 6) && nodupb l = true.
Proof.
  intros r. unfold scoring.generate_recommendations. cbv zeta.
  generalize (negb (nonempty (skills r)) || (length (skills r) <? 5)).
  generalize (existsb
                (fun exp => negb (nonempty (exp_responsibilities exp))
                            && negb (otruthy (exp_description exp)))
                (experience r)).
  generalize (negb (nonempty (experience r))).
  generalize (negb (nonempty (education r))).
  generalize (negb (otruthy (name r))).
  generalize (negb (otruthy (email r))).
  generalize (negb (otruthy (phone r))).
  generalize (negb (otruthy (summary r))).
  generalize (1000 <? text_utils.word_count
                        (text_utils.calculate_text_stats (raw_text r))).
  generalize (text_utils.word_count
                (text_utils.calculate_text_stats (raw_text r)) <? 200).
  generalize (truthy (raw_text r)).
  intros text_given short long no_summary no_phone no_email no_name
         no_education no_experience thin few_skills.
  destruct text_given; [destruct long; [|destruct short]|];
    (destruct no_experience; [|destruct thin]);
    destruct few_skills, no_education, no_name, no_email, no_phone,
             no_summary;
    vm_compute; reflexivity.
Qed.

(** X16.  The scoring module always ends with between three and six
    recommendations, pairwise distinct, and they replace whatever
    recommendations the profile held before: the list does not depend on
    the earlier one. *)
Theorem X16_between_three_and_six_recommendations :
  forall (r : Resume) (earlier : list str),
    let l := recommendations (scoring.generate_recommendations r) in
    (3 <= length l <= 6)%nat
    /\ NoDup l
    /\ recommendations
         (scoring.generate_recommendations (set_recommendations earlier r))
       = l.
Proof.
  intros r earlier l. pose proof (generated_list_ok r) as H.
  cbv zeta in H. fold l in H.
  apply andb_prop in H as [H Hn]. apply andb_prop in H as [H3 H6].
  apply Nat.leb_le in H3. apply Nat.leb_le in H6.
  split; [lia|]. split; [now apply nodupb_NoDup | reflexivity].
Qed.

(** ** Red flags *)

Lemma lower_occurs : forall a b,
  occurs_in a b -> occurs_in (lower a) (lower b).
Proof.
  intros a b H. apply occurs_in_iff in H as (pre & post & ->).
  apply occurs_in_iff. exists (lower pre), (lower post).
  unfold lower. now rewrite !map_app.
Qed.

(** X17.  Red flags are looked for as plain substrings of the lower-cased
    text, so a phrase is reported also where it is part of a longer
    word, in any case: a text that mentions "Management" is flagged for
    "age". *)
Theorem X17_red_flags_fire_inside_longer_words :
  forall (r : Resume) (flag word : str),
    In flag ats_analyzer.ats_red_flags ->
    occurs_in flag (lower word) ->
    occurs_in word (raw_text r) ->
    In (red_flag_line flag)
       (ats_analyzer.red_flags (ats_analyzer.analyze r)).
Proof.
  intros r flag word Hf Hw Ht.
  assert (Hc : occurs_in flag (lower (raw_text r))).
  { eapply occurs_in_trans; [exact Hw | now apply lower_occurs]. }
  change (ats_analyzer.red_flags (ats_analyzer.analyze r))
    with (ats_analyzer._identify_red_flags r).
  unfold ats_analyzer._identify_red_flags.
  destruct (raw_text r) as [|c text] eqn:E.
  - exfalso. unfold occurs_in in Hc. cbn [lower map] in Hc.
    destruct flag as [|f flag]; [|discriminate Hc].
    revert Hf. clear. intros Hf.
    repeat (destruct Hf as [Hf | Hf]; [discriminate Hf|]). exact Hf.
  - cbn [truthy]. cbv zeta. unfold red_flag_line.
    apply (in_map (fun flag =>
                     lit "Contains '" ++ flag
                     ++ lit "' which may hurt ATS performance")).
    apply filter_In. split; [exact Hf | exact Hc].
Qed.

Lemma X17_witness :
  let r := new_Resume (lit "Project Management") (lit "cv.txt") in
  In (red_flag_line (lit "age"))
     (ats_analyzer.red_flags (ats_analyzer.analyze r)).
Proof.
  intros r.
  apply (@X17_red_flags_fire_inside_longer_words
           r (lit "age") (lit "Management")).
  - vm_compute. tauto.
  - vm_compute. reflexivity.
  - vm_compute. reflexivity.
Defined.

(** ** Every gap in a record gets its advice *)

Lemma add_recommendation_incl : forall rec r,
  incl (recommendations r) (recommendations (add_recommendation rec r)).
Proof.
  intros rec r x Hx. unfold add_recommendation.
  destruct (_ && _); [|assumption].
  change (recommendations (set_recommendations ?l r)) with l.
  apply in_or_app. now left.
Qed.

Lemma experience_recommendations_advice : forall exp r,
  incl (recommendations r ++ advice_for_experience exp)
       (recommendations (experience_analyzer.experience_recommendations exp r)).
Proof.
  intros exp r. unfold experience_analyzer.experience_recommendations,
    advice_for_experience.
  cbv zeta.
  assert (Hold : forall x q l,
             incl l (recommendations q) ->
             incl l (recommendations (add_recommendation x q))).
  { intros x q l Hl y Hy. apply add_recommendation_incl. now apply Hl. }
  destruct (negb (nonempty (exp_responsibilities exp)));
    [|destruct (length (exp_responsibilities exp) <? 3)];
    destruct (negb (otruthy (exp_start_date exp))
              || negb (otruthy (exp_end_date exp)));
    (apply incl_app;
     [ repeat apply Hold; apply incl_refl
     | intros y Hy;
       repeat (destruct Hy as [<- | Hy]);
       try destruct Hy;
       first [ apply add_recommendation_In; discriminate
             | apply add_recommendation_incl;
               apply add_recommendation_In; discriminate ] ]).
Qed.

Lemma fold_experience_advice : forall exps r,
  incl (recommendations r ++ flat_map advice_for_experience exps)
       (recommendations
          (fold_left
             (fun r exp => experience_analyzer.experience_recommendations exp r)
             exps r)).
Proof.
  induction exps as [|exp exps IH]; intros r; cbn [fold_left flat_map].
  - rewrite app_nil_r. apply incl_refl.
  - eapply incl_tran; [|apply IH]. rewrite app_assoc.
    apply incl_app; [|apply incl_appr, incl_refl].
    apply incl_appl. apply experience_recommendations_advice.
Qed.

Lemma education_recommendations_incl : forall edu r,
  incl (recommendations r)
       (recommendations (experience_analyzer.education_recommendations edu r)).
Proof.
  intros edu r. unfold experience_analyzer.education_recommendations.
  cbv zeta. split_ifs;
    repeat (eapply incl_tran; [|apply add_recommendation_incl]);
    apply incl_refl.
Qed.

Lemma fold_education_incl : forall edus r,
  incl (recommendations r)
       (recommendations
          (fold_left
             (fun r edu => experience_analyzer.education_recommendations edu r)
             edus r)).
Proof.
  induction edus as [|edu edus IH]; intros r; cbn [fold_left].
  - apply incl_refl.
  - eapply incl_tran; [|apply IH]. apply education_recommendations_incl.
Qed.

Lemma add_recommendations_advice : forall r,
  incl (flat_map advice_for_experience (experience r))
       (recommendations
          (experience_analyzer._add_experience_education_recommendations r)).
Proof.
  intros r.
  unfold experience_analyzer._add_experience_education_recommendations.
  set (r1 := if negb (nonempty (experience r)) then _ else _).
  assert (H1 : experience r1 = experience r).
  { subst r1. split_ifs;
      try apply (add_recommendation_keeps _ r); reflexivity. }
  cbv zeta.
  set (r2 := fold_left _ (experience r1) r1).
  assert (H2 : incl (flat_map advice_for_experience (experience r))
                    (recommendations r2)).
  { subst r2. rewrite <- H1.
    eapply incl_tran; [|apply fold_experience_advice].
    apply incl_appr, incl_refl. }
  clearbody r2. clear H1. clearbody r1.
  set (r3 := if negb (nonempty (education r2)) then _ else _).
  assert (H3 : incl (recommendations r2) (recommendations r3)).
  { subst r3. split_ifs; [apply add_recommendation_incl | apply incl_refl]. }
  clearbody r3.
  set (r4 := fold_left _ (education r3) r3).
  assert (H4 : incl (recommendations r3) (recommendations r4))
    by apply fold_education_incl.
  clearbody r4.
  eapply incl_tran; [exact H2|]. eapply incl_tran; [exact H3|].
  eapply incl_tran; [exact H4|].
  split_ifs; apply add_recommendation_incl.
Qed.

(** X18.  Every gap in an experience record gets its advice: in the
    profile of every text, each record without responsibilities, or with
    fewer than three, or lacking a start or an end date, has the matching
    recommendation, which names the record's company, in the list. *)
Theorem X18_every_gap_in_a_record_gets_its_advice :
  forall (text filename : str),
  exists r : Resume,
    pipeline text filename = Some r
    /\ Forall (fun exp => incl (advice_for_experience exp) (recommendations r))
              (experience r).
Proof.
  intros text filename.
  destruct (pipeline_returns text filename) as [r H]. exists r.
  split; [exact H|].
  destruct (pipeline_stages _ _ H) as (r3 & r5 & _ & _ & _ & _ & _ & ->).
  pose proof (score_experience_education_facts r5) as (_ & He & _).
  cbv zeta in He. rewrite He.
  unfold experience_analyzer.score_experience_education. cbv zeta.
  match goal with
  | |- context [experience_analyzer._add_experience_education_recommendations
                  ?q] =>
      pose proof (add_recommendations_advice q) as Ha;
      change (experience q) with (experience r5) in Ha;
      generalize dependent
        (experience_analyzer._add_experience_education_recommendations q)
  end.
  intros q Ha. apply Forall_forall. intros exp Hin x Hx.
  apply Ha. apply in_flat_map. now exists exp.
Qed.

(** ** Text statistics *)

Lemma nodup_length_le : forall (l : list str),
  (length (nodup (list_eq_dec N.eq_dec) l) <= length l)%nat.
Proof.
  intros l. apply NoDup_incl_length; [apply NoDup_nodup|].
  intros x Hx. now apply nodup_In in Hx.
Qed.

(** X19.  The statistics of a text are consistent: there are never more
    distinct words than words, there is no distinct word exactly when
    there is no word, and the lexical diversity lies between 0 and 1. *)
Theorem X19_text_statistics_are_consistent :
  forall text : str,
    let stats := text_utils.calculate_text_stats text in
    (text_utils.unique_word_count stats <= text_utils.word_count stats)%nat
    /\ (text_utils.unique_word_count stats = 0%nat
        <-> text_utils.word_count stats = 0%nat)
    /\ 0 <= text_utils.lexical_diversity stats <= 1.
Proof.
  intros text stats. subst stats. unfold text_utils.calculate_text_stats.
  cbv zeta.
  cbn [text_utils.unique_word_count text_utils.word_count
       text_utils.lexical_diversity].
  generalize (findall false text_utils.word_re text). intros words.
  pose proof (nodup_length_le (map lower words)) as Hle.
  rewrite length_map in Hle.
  split; [exact Hle|]. split; [|split].
  - split; intros H0.
    + destruct words as [|word words]; [reflexivity|]. exfalso.
      assert (Hin : In (lower word)
                       (nodup (list_eq_dec N.eq_dec)
                              (map lower (word :: words))))
        by (apply nodup_In; now left).
      destruct (nodup _ _); [destruct Hin | discriminate H0].
    + lia.
  - apply Qdiv_nonneg; apply Qofnat_nonneg.
  - apply Qdiv_le_cap; try apply Qofnat_nonneg; [discriminate|].
    rewrite Qmult_1_l. apply Qofnat_le. lia.
Qed.

(** ** The resume model *)

Lemma add_skill_fold : forall (l : list str) (r : Resume),
  NoDup (skills r) ->
  let r' := fold_left (fun r skill => add_skill skill r) l r in
  NoDup (skills r')
  /\ forall s, In s (skills r') <-> In s (skills r) \/ (In s l /\ s <> []).
Proof.
  induction l as [|skill l IH]; intros r Hr; cbn [fold_left].
  - split; [assumption|]. intros s. split; [now left|].
    intros [H | [[] _]]. assumption.
  - assert (H1 : NoDup (skills (add_skill skill r))
                 /\ forall s, In s (skills (add_skill skill r))
                              <-> In s (skills r) \/ (s = skill /\ s <> [])).
    { unfold add_skill. destruct (truthy skill) eqn:Ht; cbn [andb].
      - apply truthy_nonempty in Ht.
        destruct (mem skill (skills r)) eqn:Hm; cbn [negb].
        + apply mem_In in Hm. split; [assumption|]. intros s. split.
          * now left.
          * intros [H | [-> _]]; assumption.
        + apply mem_false_not_In in Hm.
          change (skills (set_skills ?v r)) with v. split.
          * now apply NoDup_snoc.
          * intros s. rewrite in_app_iff. cbn [In]. split.
            -- intros [H | [<- | []]]; [now left | right; now split].
            -- intros [H | [-> _]]; [now left | right; now left].
      - destruct skill; [|discriminate Ht]. split; [assumption|].
        intros s. split; [now left|]. intros [H | [-> Hne]];
          [assumption | congruence]. }
    destruct H1 as [Hn Hs].
    destruct (IH _ Hn) as [IH1 IH2]. cbv zeta in IH1, IH2.
    split; [exact IH1|]. intros s. rewrite IH2, Hs. cbn [In].
    split.
    + intros [[H | [-> Hne]] | [H Hne]]; auto.
    + intros [H | [[<- | H] Hne]]; auto.
Qed.

(** X20.  [add_skill] keeps the list of skills a set of non-empty
    strings: after any sequence of additions to a fresh resume the
    skills are pairwise distinct and are exactly the non-empty strings
    that were added. *)
Theorem X20_added_skills_are_distinct_and_not_empty :
  forall (text filename : str) (added : list str),
    let r := fold_left (fun r skill => add_skill skill r) added
                       (new_Resume text filename) in
    NoDup (skills r)
    /\ forall s, In s (skills r) <-> (In s added /\ s <> []).
Proof.
  intros text filename added r. subst r.
  destruct (@add_skill_fold added (new_Resume text filename))
    as [H1 H2]; [constructor|].
  cbv zeta in H1, H2. split; [exact H1|].
  intros s. rewrite H2. cbn [skills new_Resume In]. tauto.
Qed.

(** ** The RTF fallback *)

Lemma strip_markup_facts : forall rtf_text in_text in_command,
  subsequence (text_parser.strip_markup in_text in_command rtf_text) rtf_text
  /\ ~ In (chr "}") (text_parser.strip_markup in_text in_command rtf_text)
  /\ ~ In 92%N (text_parser.strip_markup in_text in_command rtf_text).
Proof.
  induction rtf_text as [|c rest IH]; intros in_text in_command;
    cbn [text_parser.strip_markup].
  - split; [constructor|]. split; intros [].
  - destruct in_command.
    { destruct (text_parser.isalpha c);
        destruct (IH in_text true) as (a1 & a2 & a3);
        destruct (IH in_text false) as (b1 & b2 & b3);
        (split; [now constructor | now split]). }
    destruct (N.eqb_spec c (chr "{")) as [E1 | E1];
      destruct (N.eqb_spec c (chr "}")) as [E2 | E2];
      destruct (N.eqb_spec c 92%N) as [E3 | E3];
      destruct in_text; cbn [andb negb];
      try (destruct (IH true false) as (a1 & a2 & a3));
      try (destruct (IH false false) as (b1 & b2 & b3));
      try (destruct (IH true true) as (c1 & c2 & c3));
      try (split; [now constructor | now split]);
      (split; [now constructor|]; split; intros [Hc | Hc];
       try contradiction; congruence).
Qed.

(** X21.  The RTF fallback only deletes: its result is the text with
    some characters left out, in the original order; when the text
    starts like an RTF file the result holds no closing brace and no
    backslash, and any other text is returned unchanged. *)
Theorem X21_rtf_fallback_only_deletes :
  forall rtf_text : str,
    subsequence (text_parser.parse_rtf_fallback rtf_text) rtf_text
    /\ (if startswith (chr "{" :: 92%N :: lit "rtf") rtf_text
        then ~ In (chr "}") (text_parser.parse_rtf_fallback rtf_text)
             /\ ~ In 92%N (text_parser.parse_rtf_fallback rtf_text)
        else text_parser.parse_rtf_fallback rtf_text = rtf_text).
Proof.
  intros rtf_text. unfold text_parser.parse_rtf_fallback.
  destruct (startswith _ rtf_text).
  - destruct (strip_markup_facts rtf_text false false) as (H1 & H2 & H3).
    split; [exact H1 | now split].
  - split; [|reflexivity].
    induction rtf_text as [|c rest IH]; now constructor.
Qed.

(** ** File types *)

Lemma char_lower_idem : forall c, char_lower (char_lower c) = char_lower c.
Proof.
  intros c. unfold char_lower at 2.
  destruct (char_isupper c) eqn:E; [|unfold char_lower; now rewrite E].
  unfold char_lower. rewrite E.
  replace (char_isupper (c + 32)%N) with false; [reflexivity|].
  symmetry. unfold char_isupper, is_ascii_upper, in_range in *.
  repeat match goal with
         | |- context [(?a <=? ?b)%N] => destruct (N.leb_spec a b)
         | |- context [(?a =? ?b)%N] => destruct (N.eqb_spec a b)
         | H : context [(?a <=? ?b)%N] |- _ => destruct (N.leb_spec a b)
         | H : context [(?a =? ?b)%N] |- _ => destruct (N.eqb_spec a b)
         end; cbn in *; try reflexivity; try discriminate; lia.
Qed.

Lemma lower_idem : forall s, lower (lower s) = lower s.
Proof.
  intros s. unfold lower. rewrite map_map. apply map_ext.
  intros c. apply char_lower_idem.
Qed.



Lemma lookup_parser_supported : forall ext,
  mem ext (map fst parser_factory.SUPPORTED_EXTENSIONS) = true ->
  parser_factory.lookup_parser ext <> None.
Proof.
  intros ext H. apply mem_In in H.
  cbn [map parser_factory.SUPPORTED_EXTENSIONS fst] in H.
  repeat (destruct H as [<- | H]; [vm_compute; discriminate|]).
  destruct H.
Qed.

(** X22.  [get_parser] raises exactly for the files [is_supported_file]
    rejects (a supported extension is always found in the table), and
    both look at the file name with its case ignored. *)
Theorem X22_get_parser_agrees_with_is_supported_file :
  forall file_path : str,
    (parser_factory.get_parser file_path = None
     <-> parser_factory.is_supported_file file_path = false)
    /\ parser_factory.get_parser (lower file_path)
       = parser_factory.get_parser file_path
    /\ parser_factory.is_supported_file (lower file_path)
       = parser_factory.is_supported_file file_path.
Proof.
  intros file_path.
  unfold parser_factory.get_parser, parser_factory.is_supported_file.
  cbv zeta. rewrite lower_idem.
  split; [|split; reflexivity].
  destruct (mem _ _) eqn:Hm; cbn [negb].
  - split; [|discriminate]. intros H. exfalso.
    now apply (lookup_parser_supported _ Hm).
  - split; reflexivity.
Qed.









(** ** Names are quoted from the text *)

Lemma occurs_in_nil : forall s, occurs_in [] s.
Proof. intros s. apply occurs_in_iff. exists [], s. reflexivity. Qed.

Lemma skipn_occurs : forall n (s : str), occurs_in (skipn n s) s.
Proof.
  intros n s. apply occurs_in_iff. exists (firstn n s), [].
  now rewrite app_nil_r, firstn_skipn.
Qed.

Lemma firstn_occurs : forall n (s : str), occurs_in (firstn n s) s.
Proof.
  intros n s. apply occurs_in_iff. exists [], (skipn n s).
  cbn [app]. now rewrite firstn_skipn.
Qed.

Lemma group_occurs : forall s m n, occurs_in (group s m n) s.
Proof.
  intros s m n. unfold group.
  destruct (find _ _) as [[k [a b]]|]; [apply slice_occurs | apply occurs_in_nil].
Qed.

Lemma split_once_parts : forall sep s,
  match split_once sep s with
  | w :: ws => (exists post, s = w ++ post)
               /\ Forall (fun part => occurs_in part s) ws
  | [] => True
  end.
Proof.
  intros sep s. induction s as [|c s IH]; cbn [split_once].
  - destruct (startswith sep []).
    + split; [exists []; reflexivity|]. repeat constructor.
      apply skipn_occurs.
    + split; [exists []; reflexivity | constructor].
  - destruct (startswith sep (c :: s)).
    + split; [exists (c :: s); reflexivity|]. repeat constructor.
      apply skipn_occurs.
    + destruct (split_once sep s) as [|w ws].
      * split; [exists s; reflexivity | constructor].
      * destruct IH as [[post Hpost] Hws]. split.
        -- exists post. cbn [app]. now rewrite <- Hpost.
        -- eapply Forall_impl; [|exact Hws]. intros part Hp.
           apply occurs_in_iff in Hp as (pre & post' & ->).
           apply occurs_in_iff. exists (c :: pre), post'. reflexivity.
Qed.

Lemma split_once_occurs : forall sep s part,
  In part (split_once sep s) -> occurs_in part s.
Proof.
  intros sep s part H. pose proof (split_once_parts sep s) as Hp.
  destruct (split_once sep s) as [|w ws]; [destruct H|].
  destruct Hp as [[post ->] Hws]. destruct H as [<- | H].
  - apply occurs_in_iff. exists [], post. reflexivity.
  - rewrite Forall_forall in Hws. now apply Hws.
Qed.

Lemma re_split1_occurs : forall ic r s part,
  In part (re_split1 ic r s) -> occurs_in part s.
Proof.
  intros ic r s part H. unfold re_split1 in H.
  destruct (re_search ic r s) as [m|].
  - destruct H as [<- | [<- | []]]; [apply firstn_occurs | apply skipn_occurs].
  - destruct H as [<- | []]. apply occurs_in_refl.
Qed.

Lemma quoted_strip_part : forall lines line part,
  In line lines -> occurs_in part (strip line) ->
  quoted_in lines (strip part).
Proof.
  intros lines line part Hin Hp. right. exists line. split; [assumption|].
  eapply occurs_in_trans; [apply strip_occurs|].
  eapply occurs_in_trans; [exact Hp | apply strip_occurs].
Qed.

Lemma quoted_in_incl : forall lines lines' x,
  incl lines lines' -> quoted_in lines x -> quoted_in lines' x.
Proof.
  intros lines lines' x Hi [-> | (line & Hin & Ho)]; [now left|].
  right. exists line. split; [now apply Hi | assumption].
Qed.

Lemma org_role_loop_quoted : forall lines org role,
  experience_analyzer.org_role_loop lines = Some (org, role) ->
  quoted_in lines org /\ quoted_in lines role.
Proof.
  induction lines as [|line0 rest IH]; intros org role H;
    cbn [experience_analyzer.org_role_loop] in H.
  - injection H as <- <-. split; now left.
  - cbv zeta in H.
    assert (Hparts : forall parts a b,
               (forall part, In part parts -> occurs_in part (strip line0)) ->
               nth_error parts 0 = Some a -> nth_error parts 1 = Some b ->
               quoted_in (line0 :: rest) (strip a)
               /\ quoted_in (line0 :: rest) (strip b)).
    { intros parts a b Hp Ha Hb.
      apply nth_error_In in Ha. apply nth_error_In in Hb.
      split; eapply quoted_strip_part; try (left; reflexivity); auto. }
    destruct (contains (lit " - ") (strip line0)).
    { destruct (nth_error _ 0) as [a|] eqn:Ea; [|discriminate].
      destruct (nth_error _ 1) as [b|] eqn:Eb; [|discriminate].
      injection H as <- <-.
      eapply Hparts; [|exact Ea | exact Eb].
      intros part. apply split_once_occurs. }
    destruct (contains (lit " at ") (lower (strip line0))).
    { destruct (nth_error _ 0) as [a|] eqn:Ea; [|discriminate].
      destruct (nth_error _ 1) as [b|] eqn:Eb; [|discriminate].
      injection H as <- <-.
      apply and_comm.
      eapply Hparts; [|exact Ea | exact Eb].
      intros part. apply re_split1_occurs. }
    destruct (contains (lit ",") (strip line0)).
    { destruct (nth_error _ 0) as [a|] eqn:Ea; [|discriminate].
      destruct (nth_error _ 1) as [b|] eqn:Eb; [|discriminate].
      injection H as <- <-.
      apply and_comm.
      eapply Hparts; [|exact Ea | exact Eb].
      intros part. apply split_once_occurs. }
    destruct (IH _ _ H) as [Ho Hr].
    split; eapply quoted_in_incl; try eassumption;
      intros x Hx; now right.
Qed.

Lemma quoted_strip_line : forall lines line,
  In line lines -> quoted_in lines (strip line).
Proof.
  intros lines line Hin. right. exists line.
  split; [assumption | apply strip_occurs].
Qed.

Lemma org_role_heuristics_quoted : forall lines org role org' role',
  quoted_in lines org -> quoted_in lines role ->
  experience_analyzer.org_role_heuristics lines org role = Some (org', role') ->
  quoted_in lines org' /\ quoted_in lines role'.
Proof.
  intros lines org role org' role' Ho Hr H.
  unfold experience_analyzer.org_role_heuristics in H.
  destruct (negb (truthy org) || negb (truthy role)).
  - destruct (nth_error lines 0) as [first|] eqn:E1; [|discriminate].
    apply nth_error_In in E1.
    cbv zeta in H.
    destruct (negb (truthy org) && negb (truthy role)).
    + injection H as <- <-. split; [now apply quoted_strip_line | assumption].
    + destruct (negb (truthy org)).
      * destruct lines as [|l1 [|l2 ls]]; injection H as <- <-;
          split; try assumption.
        apply quoted_strip_line. right. now left.
      * destruct lines as [|l1 [|l2 ls]]; injection H as <- <-;
          split; try assumption.
        apply quoted_strip_line. right. now left.
  - injection H as <- <-. now split.
Qed.

Lemma _extract_company_title_quoted : forall entry company title,
  experience_analyzer._extract_company_title entry = Some (company, title) ->
  quoted_in (split_char newline entry) company
  /\ quoted_in (split_char newline entry) title.
Proof.
  intros entry company title H.
  unfold experience_analyzer._extract_company_title in H. cbv zeta in H.
  destruct (experience_analyzer.org_role_loop _) as [[o r]|] eqn:E;
    [|discriminate].
  apply org_role_loop_quoted in E as [Ho Hr]. cbn [fst snd] in H.
  eapply org_role_heuristics_quoted; [| |exact H];
    eapply quoted_in_incl; try eassumption;
    intros x Hx; eapply In_firstn; eassumption.
Qed.

Lemma degree_line_quoted : forall lines,
  quoted_in lines (experience_analyzer.degree_line lines).
Proof.
  induction lines as [|line rest IH]; cbn [experience_analyzer.degree_line].
  - now left.
  - destruct (_ && _).
    + apply quoted_strip_line. now left.
    + eapply quoted_in_incl; [|exact IH]. intros x Hx. now right.
Qed.

Lemma _extract_institution_degree_quoted : forall entry institution degree,
  experience_analyzer._extract_institution_degree entry
  = Some (institution, degree) ->
  quoted_in (split_char newline entry) institution
  /\ quoted_in (split_char newline entry) degree.
Proof.
  intros entry institution degree H.
  unfold experience_analyzer._extract_institution_degree in H. cbv zeta in H.
  destruct (experience_analyzer.org_role_loop _) as [[o r]|] eqn:E;
    [|discriminate].
  apply org_role_loop_quoted in E as [Ho Hr]. cbn [fst snd] in H.
  destruct (experience_analyzer.org_role_heuristics _ _ _) as [[i d]|] eqn:E2;
    [|discriminate].
  assert (Hq : quoted_in (split_char newline entry) i
               /\ quoted_in (split_char newline entry) d).
  { eapply org_role_heuristics_quoted; [| |exact E2];
      eapply quoted_in_incl; try eassumption;
      intros x Hx; eapply In_firstn; eassumption. }
  destruct Hq as [Hi Hd]. injection H as <- <-. split; [assumption|].
  destruct (truthy d); [assumption | apply degree_line_quoted].
Qed.

Lemma search_groups_occurs : forall ic patterns text a b,
  experience_analyzer.search_groups ic patterns text = Some (a, b) ->
  occurs_in a text /\ occurs_in b text.
Proof.
  intros ic patterns text a b.
  induction patterns as [|p ps IH]; intros H;
    cbn [experience_analyzer.search_groups] in H; [discriminate|].
  destruct (re_search ic p text) as [m|]; [|now apply IH].
  injection H as <- <-. split; apply group_occurs.
Qed.

Lemma indicated_field_quoted : forall indicators line f,
  experience_analyzer.indicated_field indicators line = Some (Some f) ->
  occurs_in f line.
Proof.
  induction indicators as [|indicator rest IH]; intros line f H;
    cbn [experience_analyzer.indicated_field] in H; [discriminate|].
  destruct (contains indicator line); [|now apply IH].
  destruct (nth_error _ 1) as [after|] eqn:E; [|discriminate].
  injection H as <-. apply nth_error_In in E.
  eapply occurs_in_trans; [apply strip_occurs|].
  eapply split_once_occurs. eassumption.
Qed.

Lemma field_in_lines_quoted : forall lines f,
  experience_analyzer.field_in_lines lines = Some (Some f) ->
  quoted_in lines f.
Proof.
  induction lines as [|line rest IH]; intros f H;
    cbn [experience_analyzer.field_in_lines] in H; [discriminate|].
  destruct (experience_analyzer.indicated_field _ _) as [[g|]|] eqn:E;
    [| |discriminate].
  - injection H as <-. apply indicated_field_quoted in E.
    right. exists line. split; [now left|].
    eapply occurs_in_trans; [exact E | apply strip_occurs].
  - eapply quoted_in_incl; [|now apply IH]. intros x Hx. now right.
Qed.

Lemma _extract_field_of_study_quoted : forall entry degree f,
  experience_analyzer._extract_field_of_study entry degree = Some (Some f) ->
  occurs_in f degree \/ quoted_in (split_char newline entry) f.
Proof.
  intros entry degree f H.
  unfold experience_analyzer._extract_field_of_study in H.
  destruct (experience_analyzer.search_groups _ _ _) as [[g g']|] eqn:E.
  - injection H as <-. left. apply search_groups_occurs in E as [E _].
    eapply occurs_in_trans; [apply strip_occurs | exact E].
  - right. cbv zeta in H. apply field_in_lines_quoted in H.
    eapply quoted_in_incl; [|exact H].
    intros x Hx. rewrite <- (firstn_skipn
                               (Nat.min 3 (length (split_char newline entry)))
                               (split_char newline entry)).
    apply in_or_app. now right.
Qed.

Lemma quoted_occurs : forall text entry x,
  lines_from text entry ->
  quoted_in (split_char newline entry) x -> occurs_in x text.
Proof.
  intros text entry x Hl [-> | (line & Hin & Ho)]; [apply occurs_in_nil|].
  eapply occurs_in_trans; [exact Ho|].
  eapply split_char_occurs. apply Hl. exact Hin.
Qed.

(** *** The lines of an entry are lines of the text *)

Lemma split_char_absent : forall sep s,
  ~ In sep s -> split_char sep s = [s].
Proof.
  intros sep s. induction s as [|c s IH]; intros H; cbn [split_char].
  - reflexivity.
  - destruct (N.eqb_spec c sep) as [-> | Hne].
    + exfalso. apply H. now left.
    + rewrite IH; [reflexivity|]. intros Hin. apply H. now right.
Qed.

Lemma split_char_app : forall sep a b,
  ~ In sep a -> split_char sep (a ++ sep :: b) = a :: split_char sep b.
Proof.
  intros sep a b. induction a as [|c a IH]; intros H; cbn [app split_char].
  - now rewrite N.eqb_refl.
  - destruct (N.eqb_spec c sep) as [-> | Hne].
    + exfalso. apply H. now left.
    + rewrite IH; [reflexivity|]. intros Hin. apply H. now right.
Qed.

Lemma split_join : forall ls,
  ls <> [] -> Forall (fun line => ~ In newline line) ls ->
  split_char newline (join nl ls) = ls.
Proof.
  induction ls as [|l ls IH]; intros Hne Hall; [congruence|].
  inversion Hall as [|? ? Hl Hls]; subst.
  destruct ls as [|l2 ls].
  - cbn [join]. now apply split_char_absent.
  - change (join nl (l :: l2 :: ls)) with (l ++ newline :: join nl (l2 :: ls)).
    rewrite split_char_app by assumption.
    rewrite IH; [reflexivity | discriminate | assumption].
Qed.

Lemma split_lines_lines : forall (L : list str) lines entries current E C,
  Forall (fun line => ~ In newline line) L ->
  incl lines L -> incl current L ->
  Forall (fun e => incl (split_char newline e) L) entries ->
  experience_analyzer.split_lines lines entries current = (E, C) ->
  Forall (fun e => incl (split_char newline e) L) E /\ incl C L.
Proof.
  intros L lines. induction lines as [|line rest IH];
    intros entries current E C HL Hlines Hcur Hent H;
    cbn [experience_analyzer.split_lines] in H.
  - injection H as <- <-. now split.
  - assert (Hline : In line L) by (apply Hlines; now left).
    assert (Hrest : incl rest L) by (intros x Hx; apply Hlines; now right).
    destruct (re_match false experience_analyzer.entry_start (strip line))
      as [m|]; destruct current as [|c cs].
    + eapply IH; try exact H; try assumption.
      intros x [<- | []]. assumption.
    + eapply IH; try exact H; try assumption.
      * intros x [<- | []]. assumption.
      * apply Forall_app. split; [assumption|]. repeat constructor.
        rewrite split_join; [assumption | discriminate|].
        apply Forall_forall. intros x Hx.
        rewrite Forall_forall in HL. apply HL. now apply Hcur.
    + eapply IH; try exact H; try assumption.
      intros x [<- | []]. assumption.
    + eapply IH; try exact H; try assumption.
      apply incl_app; [assumption|]. intros x [<- | []]. assumption.
Qed.

Lemma entries_lines : forall ls,
  ls <> [] ->
  Forall (fun line => ~ In newline line /\ line <> []) ls ->
  Forall (fun e => incl (split_char newline e) ls)
         (experience_analyzer._split_section_into_entries (join nl ls)).
Proof.
  intros ls Hne Hall.
  assert (Hnl : Forall (fun line => ~ In newline line) ls).
  { eapply Forall_impl; [|exact Hall]. now intros line [H _]. }
  pose proof (split_join Hne Hnl) as Hsplit.
  unfold experience_analyzer._split_section_into_entries.
  unfold experience_analyzer.blank_line_entries.
  rewrite (join_no_blank_line Hall). cbn [nonempty].
  assert (Hwhole : Forall (fun e => incl (split_char newline e) ls)
                          [join nl ls]).
  { repeat constructor. rewrite Hsplit. apply incl_refl. }
  assert (Hstart : Forall (fun e => incl (split_char newline e) ls)
                          (experience_analyzer.line_start_entries (join nl ls))).
  { unfold experience_analyzer.line_start_entries. rewrite Hsplit.
    destruct (experience_analyzer.split_lines ls [] []) as [E C] eqn:H.
    apply (@split_lines_lines ls) in H as [HE HC];
      [|assumption | apply incl_refl | intros x [] | constructor].
    destruct C as [|c cs]; cbn [nonempty]; [assumption|].
    apply Forall_app. split; [assumption|]. repeat constructor.
    rewrite split_join; [assumption | discriminate|].
    apply Forall_forall. intros x Hx.
    rewrite Forall_forall in Hnl. apply Hnl. now apply HC. }
  destruct (experience_analyzer.line_start_entries (join nl ls));
    cbn [nonempty]; assumption.
Qed.

Lemma slice_incl : forall (A : Type) a b (l : list A), incl (slice a b l) l.
Proof.
  intros A a b l x Hx.
  assert (Hl : Forall (fun y => In y l) l) by (apply Forall_forall; auto).
  pose proof (Forall_slice a b Hl) as Hs.
  rewrite Forall_forall in Hs. now apply Hs.
Qed.

Lemma section_entries_from_text : forall text headers body,
  experience_analyzer._extract_section text headers = Some body ->
  truthy body = true ->
  Forall (lines_from text)
         (experience_analyzer._split_section_into_entries body).
Proof.
  intros text headers body H Hb.
  unfold experience_analyzer._extract_section in H.
  destruct (scan_section _ _ _ _ _) as [[start|] e]; [|discriminate].
  cbv zeta in H.
  set (stop := match e with
               | Some i => i
               | None => length (split_char newline text)
               end) in H.
  set (ls := filter (fun line => truthy (strip line))
                    (slice start stop (split_char newline text))) in H.
  assert (Hin : incl ls (split_char newline text)).
  { intros x Hx. subst ls. apply filter_In in Hx as [Hx _].
    eapply slice_incl. exact Hx. }
  assert (Hall : Forall (fun line => ~ In newline line /\ line <> []) ls).
  { apply Forall_forall. intros x Hx. split.
    - pose proof (split_char_pieces newline text) as Hp.
      rewrite Forall_forall in Hp. apply Hp. now apply Hin.
    - subst ls. apply filter_In in Hx as [_ Hx].
      now apply kept_line_nonempty. }
  clearbody ls. injection H as <-.
  assert (Hne : ls <> []).
  { intros Hnil. rewrite Hnil in Hb. discriminate Hb. }
  pose proof (entries_lines Hne Hall) as He.
  eapply Forall_impl; [|exact He].
  intros entry Hentry. unfold lines_from.
  eapply incl_tran; [exact Hentry | exact Hin].
Qed.

Lemma for_entries_experience_from : forall (P : str -> Prop) entries r r',
  Forall P entries ->
  experience_analyzer.for_entries experience_analyzer.experience_of_entry
    entries r = Some r' ->
  exists es, experience r' = experience r ++ es
             /\ Forall (experience_from P) es
             /\ education r' = education r /\ raw_text r' = raw_text r.
Proof.
  intros P entries. induction entries as [|entry rest IH];
    intros r r' HP H; cbn [experience_analyzer.for_entries] in H.
  - injection H as <-. exists [].
    split; [now rewrite app_nil_r | repeat split; constructor].
  - inversion HP as [|? ? Hentry Hrest]; subst.
    destruct (experience_analyzer.experience_of_entry entry r) as [r1|] eqn:H1;
      [|discriminate].
    destruct (IH _ _ Hrest H) as (es & Hes & Hall & Hed & Hraw).
    unfold experience_analyzer.experience_of_entry in H1.
    destruct (experience_analyzer._extract_company_title entry)
      as [[company title]|] eqn:Hct; [|discriminate].
    destruct (negb (truthy company)).
    + injection H1 as <-. exists es. repeat split; assumption.
    + assert (He : r1 = add_experience
                          (experience_record entry company title) r).
      { unfold experience_record.
        destruct (experience_analyzer._extract_dates entry).
        destruct (experience_analyzer._extract_description_responsibilities
                    entry).
        now injection H1 as <-. }
      subst r1. exists (experience_record entry company title :: es).
      split; [|split; [|split]].
      * rewrite Hes.
        change (experience (add_experience ?e r)) with (experience r ++ [e]).
        now rewrite <- app_assoc.
      * constructor; [|assumption]. exists entry, company, title. auto.
      * exact Hed.
      * exact Hraw.
Qed.

Lemma for_entries_education_from : forall (P : str -> Prop) entries r r',
  Forall P entries ->
  experience_analyzer.for_entries experience_analyzer.education_of_entry
    entries r = Some r' ->
  exists ds, education r' = education r ++ ds
             /\ Forall (education_from P) ds
             /\ experience r' = experience r /\ raw_text r' = raw_text r.
Proof.
  intros P entries. induction entries as [|entry rest IH];
    intros r r' HP H; cbn [experience_analyzer.for_entries] in H.
  - injection H as <-. exists [].
    split; [now rewrite app_nil_r | repeat split; constructor].
  - inversion HP as [|? ? Hentry Hrest]; subst.
    destruct (experience_analyzer.education_of_entry entry r) as [r1|] eqn:H1;
      [|discriminate].
    destruct (IH _ _ Hrest H) as (ds & Hds & Hall & Hex & Hraw).
    unfold experience_analyzer.education_of_entry in H1.
    destruct (experience_analyzer._extract_institution_degree entry)
      as [[institution degree]|] eqn:Hid; [|discriminate].
    destruct (negb (truthy institution)).
    + injection H1 as <-. exists ds. repeat split; assumption.
    + destruct (experience_analyzer._extract_field_of_study entry degree)
        as [field|] eqn:Hf; [|discriminate].
      assert (He : r1 = add_education
                          (education_record entry institution degree field) r).
      { unfold education_record.
        destruct (experience_analyzer._extract_dates entry).
        now injection H1 as <-. }
      subst r1.
      exists (education_record entry institution degree field :: ds).
      split; [|split; [|split]].
      * rewrite Hds.
        change (education (add_education ?e r)) with (education r ++ [e]).
        now rewrite <- app_assoc.
      * constructor; [|assumption].
        exists entry, institution, degree, field. auto.
      * exact Hex.
      * exact Hraw.
Qed.

Lemma extract_experience_from : forall r r',
  experience_analyzer.extract_experience r = Some r' ->
  exists es, experience r' = experience r ++ es
             /\ Forall (experience_from (lines_from (raw_text r))) es
             /\ education r' = education r /\ raw_text r' = raw_text r.
Proof.
  intros r r' H. unfold experience_analyzer.extract_experience in H.
  destruct (experience_analyzer._extract_section _ _) as [section|] eqn:Hs.
  - destruct (truthy section) eqn:Ht.
    + eapply for_entries_experience_from; [|exact H].
      eapply section_entries_from_text; eassumption.
    + injection H as <-. exists [].
      split; [now rewrite app_nil_r | repeat split; constructor].
  - injection H as <-. exists [].
    split; [now rewrite app_nil_r | repeat split; constructor].
Qed.

Lemma extract_education_from : forall r r',
  experience_analyzer.extract_education r = Some r' ->
  exists ds, education r' = education r ++ ds
             /\ Forall (education_from (lines_from (raw_text r))) ds
             /\ experience r' = experience r /\ raw_text r' = raw_text r.
Proof.
  intros r r' H. unfold experience_analyzer.extract_education in H.
  destruct (experience_analyzer._extract_section _ _) as [section|] eqn:Hs.
  - destruct (truthy section) eqn:Ht.
    + eapply for_entries_education_from; [|exact H].
      eapply section_entries_from_text; eassumption.
    + injection H as <-. exists [].
      split; [now rewrite app_nil_r | repeat split; constructor].
  - injection H as <-. exists [].
    split; [now rewrite app_nil_r | repeat split; constructor].
Qed.

Lemma pipeline_records_from_text : forall text filename r,
  pipeline text filename = Some r ->
  Forall (experience_from (lines_from text)) (experience r)
  /\ Forall (education_from (lines_from text)) (education r).
Proof.
  intros text filename r H.
  unfold pipeline in H. cbv zeta in H.
  set (r1 := content_analyzer.analyze (new_Resume text filename)) in *.
  assert (Ht : raw_text r1 = text).
  { subst r1. unfold content_analyzer.analyze.
    rewrite (extract_summary_keeps raw_text) by reflexivity.
    apply (extract_contact_info_keeps raw_text); reflexivity. }
  pose proof (content_analyzer_keeps (new_Resume text filename)) as [c1 c2].
  fold r1 in c1, c2. cbn [experience education new_Resume] in c1, c2.
  pose proof (skills_analyzer_contact r1) as Hk.
  unfold skills_analyzer.analyze in H, Hk.
  pose proof (extract_skills_facts r1 skills_analyzer._load_skills_data)
    as (e1 & e2 & _). cbv zeta in e1, e2.
  set (r2 := skills_analyzer.extract_skills r1 _) in *.
  pose proof (skills_analyzer_score_skills_facts r2) as (_ & s2 & s3 & _).
  cbv zeta in s2, s3.
  set (r3 := skills_analyzer.score_skills r2) in *.
  clearbody r3 r2 r1.
  assert (Ht3 : raw_text r3 = text).
  { apply (f_equal (fun p => fst (fst (fst p)))) in Hk.
    cbn [contact_details fst] in Hk. congruence. }
  assert (He3 : experience r3 = []) by congruence.
  assert (Hd3 : education r3 = []) by congruence.
  clear Hk.
  unfold experience_analyzer.analyze in H.
  destruct (experience_analyzer.extract_experience r3) as [r4|] eqn:H4;
    [|discriminate].
  destruct (experience_analyzer.extract_education r4) as [r5|] eqn:H5;
    [|discriminate].
  injection H as <-.
  pose proof (score_experience_education_facts r5) as (_ & f2 & f3 & _).
  cbv zeta in f2, f3. rewrite f2, f3.
  apply extract_experience_from in H4 as (es & He4 & Hes & Hd4 & Ht4).
  apply extract_education_from in H5 as (ds & Hd5 & Hds & He5 & Ht5).
  rewrite Ht3 in Hes. rewrite Ht4, Ht3 in Hds.
  rewrite He5, He4, He3, Hd5, Hd4, Hd3. split; assumption.
Qed.

(** X24.  Names are quoted, never made up: in the profile of every text
    the company and the title of each experience record, and the
    institution, the degree and the field of study of each education
    record, occur in the text character for character. *)
Theorem X24_record_names_occur_in_the_text :
  forall (text filename : str),
  exists r : Resume,
    pipeline text filename = Some r
    /\ Forall (fun e => occurs_in (exp_company e) text
                        /\ occurs_in (exp_title e) text)
              (experience r)
    /\ Forall (fun e => occurs_in (edu_institution e) text
                        /\ occurs_in (edu_degree e) text
                        /\ forall f, edu_field e = Some f -> occurs_in f text)
              (education r).
Proof.
  intros text filename.
  destruct (pipeline_returns text filename) as [r H]. exists r.
  split; [exact H|].
  destruct (pipeline_records_from_text _ _ H) as [He Hd]. split.
  - eapply Forall_impl; [|exact He].
    intros e (entry & company & title & Hl & Hct & ->).
    apply _extract_company_title_quoted in Hct as [Hc Ht].
    split; eapply quoted_occurs; eassumption.
  - eapply Forall_impl; [|exact Hd].
    intros e (entry & institution & degree & field & Hl & Hid & Hf & ->).
    apply _extract_institution_degree_quoted in Hid as [Hi Hg].
    assert (Hdeg : occurs_in degree text)
      by (eapply quoted_occurs; eassumption).
    split; [eapply quoted_occurs; eassumption|]. split; [exact Hdeg|].
    intros f Hfe. cbn [edu_field education_record] in Hfe. subst field.
    apply _extract_field_of_study_quoted in Hf as [Hf | Hf].
    + eapply occurs_in_trans; eassumption.
    + eapply quoted_occurs; eassumption.
Qed.

(** ** The ATS score *)

(** X25.  The ATS score is the weighted mean of the five sub-scores, with
    weights 25, 20, 20, 20 and 15 percent, and is not rounded; it
    therefore never falls below the smallest sub-score nor exceeds the
    largest. *)
Theorem X25_ats_score_lies_between_its_sub_scores :
  forall r : Resume,
    let a := ats_analyzer.analyze r in
    let k := ats_analyzer.keyword_score (ats_analyzer.detailed_scores a) in
    let f := ats_analyzer.format_score (ats_analyzer.detailed_scores a) in
    let s := ats_analyzer.structure_score (ats_analyzer.detailed_scores a) in
    let c := ats_analyzer.content_score (ats_analyzer.detailed_scores a) in
    let m := ats_analyzer.completeness_score (ats_analyzer.detailed_scores a) in
    ats_analyzer.ats_score a
    == (25 # 100) * k + (20 # 100) * f + (20 # 100) * s + (20 # 100) * c
       + (15 # 100) * m
    /\ Qmin k (Qmin f (Qmin s (Qmin c m))) <= ats_analyzer.ats_score a
    /\ ats_analyzer.ats_score a <= Qmax k (Qmax f (Qmax s (Qmax c m))).
Proof.
  intros r a k f s c m.
  assert (He : ats_analyzer.ats_score a
               == (25 # 100) * k + (20 # 100) * f + (20 # 100) * s
                  + (20 # 100) * c + (15 # 100) * m).
  { subst a k f s c m. unfold ats_analyzer.analyze. cbv zeta.
    cbn [ats_analyzer.ats_score ats_analyzer.detailed_scores
         ats_analyzer.keyword_score ats_analyzer.format_score
         ats_analyzer.structure_score ats_analyzer.content_score
         ats_analyzer.completeness_score].
    unfold ats_analyzer.weighted_total, Qsum.
    cbn [fold_left ats_analyzer.keyword_score ats_analyzer.format_score
         ats_analyzer.structure_score ats_analyzer.content_score
         ats_analyzer.completeness_score].
    ring. }
  split; [exact He|]. rewrite He. clearbody k f s c m. clear He a.
  set (lo := Qmin k (Qmin f (Qmin s (Qmin c m)))).
  set (hi := Qmax k (Qmax f (Qmax s (Qmax c m)))).
  assert (L1 : lo <= k) by apply Q.le_min_l.
  assert (L2 : lo <= f).
  { eapply Qle_trans; [apply Q.le_min_r | apply Q.le_min_l]. }
  assert (L3 : lo <= s).
  { eapply Qle_trans; [apply Q.le_min_r|].
    eapply Qle_trans; [apply Q.le_min_r | apply Q.le_min_l]. }
  assert (L4 : lo <= c).
  { eapply Qle_trans; [apply Q.le_min_r|].
    eapply Qle_trans; [apply Q.le_min_r|].
    eapply Qle_trans; [apply Q.le_min_r | apply Q.le_min_l]. }
  assert (L5 : lo <= m).
  { eapply Qle_trans; [apply Q.le_min_r|].
    eapply Qle_trans; [apply Q.le_min_r|].
    eapply Qle_trans; [apply Q.le_min_r | apply Q.le_min_r]. }
  assert (U1 : k <= hi) by apply Q.le_max_l.
  assert (U2 : f <= hi).
  { eapply Qle_trans; [apply Q.le_max_l | apply Q.le_max_r]. }
  assert (U3 : s <= hi).
  { eapply Qle_trans; [|apply Q.le_max_r].
    eapply Qle_trans; [apply Q.le_max_l | apply Q.le_max_r]. }
  assert (U4 : c <= hi).
  { eapply Qle_trans; [|apply Q.le_max_r].
    eapply Qle_trans; [|apply Q.le_max_r].
    eapply Qle_trans; [apply Q.le_max_l | apply Q.le_max_r]. }
  assert (U5 : m <= hi).
  { eapply Qle_trans; [|apply Q.le_max_r].
    eapply Qle_trans; [|apply Q.le_max_r].
    eapply Qle_trans; [|apply Q.le_max_r]. apply Q.le_max_r. }
  clearbody lo hi. split; lra.
Qed.
